(** * Verification of [run/run_pre_processing.py]

    A shallow embedding of [pre_process], the function that turns the raw
    time series (weather, traffic volumes, background pollution, Caline
    estimates) into the normalized [(input, labels)] records of the RNN
    model, together with the properties of its specification.

    Numbers.  The script computes on Python floats and NumPy [float64]
    values.  The embedding is written once over a small interface [Num] of
    the operations the script uses and is read at two instances:
    - [float_Num], IEEE 754 binary64 (Rocq's primitive floats), the
      arithmetic the script really runs: a division by zero returns an
      infinity or a NaN and raises nothing, as NumPy does;
    - [R_Num], the real numbers, the arithmetic the specification's
      equations are written in.

    Time.  A [datetime] is its POSIX time in seconds (an integer, UTC);
    [datetime.timestamp()] is the conversion of that integer to a number.
    The dictionaries keyed by timestamp are keyed by that integer. *)

From Stdlib Require Import ZArith Reals Lra Lia Floats Sorted.
From stdpp Require Import base option list gmap strings pretty.

Local Open Scope Z_scope.

(** ** Numbers *)

Class Num (num : Type) := {
  num_of_Z : Z -> num;            (* an [int] used as a number *)
  nadd : num -> num -> num;
  nsub : num -> num -> num;
  nmul : num -> num -> num;
  ndiv : num -> num -> num;
  nsqrt : num -> num;
  nltb : num -> num -> bool;      (* [<]  *)
  neqb : num -> num -> bool;      (* [==] *)
}.

Module FloatNum.
(** [int] to [float]: exact below [2^53], rounded above. *)
Definition of_Z (z : Z) : float :=
  match z with
  | Z0 => PrimFloat.zero
  | Zpos _ => PrimFloat.of_uint63 (Uint63.of_Z z)
  | Zneg p => PrimFloat.opp (PrimFloat.of_uint63 (Uint63.of_Z (Zpos p)))
  end.
End FloatNum.

#[export] Instance float_Num : Num float := {|
  num_of_Z := FloatNum.of_Z;
  nadd := PrimFloat.add;
  nsub := PrimFloat.sub;
  nmul := PrimFloat.mul;
  ndiv := PrimFloat.div;
  nsqrt := PrimFloat.sqrt;
  nltb := PrimFloat.ltb;
  neqb := PrimFloat.eqb;
|}.

Module RealNum.
Definition ltb (x y : R) : bool := if Rlt_dec x y then true else false.
Definition eqb (x y : R) : bool := if Req_dec_T x y then true else false.
End RealNum.

#[export] Instance R_Num : Num R := {|
  num_of_Z := IZR;
  nadd := Rplus;
  nsub := Rminus;
  nmul := Rmult;
  ndiv := Rdiv;
  nsqrt := R_sqrt.sqrt;
  nltb := RealNum.ltb;
  neqb := RealNum.eqb;
|}.

(** ** Dictionaries

    A Python [dict] whose items are iterated, or whose keys are compared
    with [==] on floats, is the list of its items in insertion order; a key
    occurs once.  The mappings from pollutant names to values, which the
    script only reads and writes by key, are [gmap string]. *)

Class Key (K : Type) := key_eqb : K -> K -> bool.

#[export] Instance Z_Key : Key Z := Z.eqb.

Definition dict (K V : Type) : Type := list (K * V).

Fixpoint dict_get {K V : Type} `{Key K} (d : dict K V) (k : K) : option V :=
  match d with
  | [] => None
  | (k', v) :: d' => if key_eqb k' k then Some v else dict_get d' k
  end.

Definition dict_values {K V : Type} (d : dict K V) : list V := map snd d.

(** ** Data model *)

(** A link is a pair of node identifiers. *)
Definition Link : Type := Z * Z.

#[export] Instance Link_Key : Key Link :=
  fun a b => Z.eqb a.1 b.1 && Z.eqb a.2 b.2.

(** [tuple(sorted(link))] *)
Definition sorted_link (link : Link) : Link :=
  (Z.min link.1 link.2, Z.max link.1 link.2).

Section DataModel.
Context {num : Type} `{Num num}.

(** A coordinate [[lat, lon]]. *)
Definition Coord : Type := num * num.

#[export] Instance Coord_Key : Key Coord :=
  fun a b => neqb a.1 b.1 && neqb a.2 b.2.

(** [[wind_dir, wind_speed, wind_dir_std, temp]] *)
Record Weather : Type := mkWeather {
  wind_dir : num;
  wind_speed : num;
  wind_dir_std : num;
  temperature : num;
}.

Record ProcessedRecord : Type := mkRecord {
  mesh_size : nat;
  sub_domain : Z;
  input : list num;
  labels : list num;
}.

Record Utilities : Type := mkUtilities {
  bounding_box : dict string Coord;
  links_in_area : dict Link (Coord * Coord);
}.
End DataModel.

Arguments Coord : clear implicits.
Arguments Weather : clear implicits.
Arguments ProcessedRecord : clear implicits.
Arguments Utilities : clear implicits.
Arguments mkWeather {num}.
Arguments mkRecord {num}.
Arguments mkUtilities {num}.

Record SubDomain (Area : Type) : Type := mkSubDomain {
  coord : Area;               (* the boundary polygon, [sub_domain['coord']] *)
  links : list Link;          (* [sub_domain['links']] *)
}.
Arguments mkSubDomain {Area}.
Arguments coord {Area}.
Arguments links {Area}.

(** ** Exceptions and the state of the main loop *)

Inductive exn : Type :=
  | KeyError      (* a subscript [d[k]] on a missing key *)
  | AxisError     (* [np.mean(a, 1)] on an array without axis 1 *)
  | OutOfFuel.    (* the loop bound of the model is exhausted; never raised,
                     see [pre_process_terminates] *)

Inductive result (A : Type) : Type :=
  | Ok (a : A)
  | Raise (e : exn).
Arguments Ok {A}.
Arguments Raise {A}.

#[export] Instance result_ret : MRet result := fun A a => Ok a.
#[export] Instance result_bind : MBind result := fun A B f r =>
  match r with
  | Ok a => f a
  | Raise e => Raise e
  end.

(** [[f(x) for x in l]], stopping at the first exception. *)
Fixpoint result_map {A B : Type} (f : A -> result B) (l : list A) : result (list B) :=
  match l with
  | [] => Ok []
  | x :: l' => y ← f x; ys ← result_map f l'; Ok (y :: ys)
  end.

Section Loop.
Context {num : Type} `{Num num}.

(** What the loop of [pre_process] mutates: the carried background
    pollution, the buffer of entries, and the output collection, seen as
    the list of the batches given to [insert_many], oldest first. *)
Record State : Type := mkState {
  current_background_pollution : gmap string num;
  collection_of_pre_processed_entries : list (ProcessedRecord num);
  collection_pre : list (list (ProcessedRecord num));
}.

Definition M (A : Type) : Type := State -> result A * State.

Definition ret {A : Type} (a : A) : M A := fun s => (Ok a, s).

Definition bind {A B : Type} (m : M A) (f : A -> M B) : M B := fun s =>
  match m s with
  | (Ok a, s') => f a s'
  | (Raise e, s') => (Raise e, s')
  end.

Definition raise {A : Type} (e : exn) : M A := fun s => (Raise e, s).

Definition lift {A : Type} (r : result A) : M A := fun s => (r, s).

(** [for x in l: f(x)] *)
Fixpoint for_each {A : Type} (f : A -> M unit) (l : list A) : M unit :=
  match l with
  | [] => ret tt
  | x :: l' => bind (f x) (fun _ => for_each f l')
  end.
End Loop.

Arguments State : clear implicits.
Arguments M : clear implicits.
Arguments mkState {num}.

Declare Scope loop_scope.
Delimit Scope loop_scope with loop.
Notation "x <- m ;; k" := (bind m (fun x => k))
  (at level 100, m at next level, right associativity) : loop_scope.
Notation "m ;; k" := (bind m (fun _ => k))
  (at level 100, right associativity) : loop_scope.

(** ** NumPy statistics *)

Section Statistics.
Context {num : Type} `{Num num}.

(** The sum of the elements, from left to right.  (NumPy adds long arrays
    pairwise; on floats the two orders agree on the short arrays evaluated
    here and may differ in the last bits on long ones.) *)
Definition np_sum (a : list num) : num := fold_left nadd a (num_of_Z 0).

(** [np.mean(a)]: the sum divided by the number of elements. *)
Definition np_mean (a : list num) : num :=
  ndiv (np_sum a) (num_of_Z (Z.of_nat (length a))).

(** [np.std(a)]: the square root of the mean of the squared deviations
    from the mean (no degrees-of-freedom correction). *)
Definition np_std (a : list num) : num :=
  let arrmean := np_mean a in
  nsqrt (np_mean (map (fun x => let d := nsub x arrmean in nmul d d) a)).

(** The four statistics captured by the normalization closures. *)
Record NormalizationStats : Type := mkStats {
  time_mean : num;
  time_std : num;
  weather_mean : Weather num;
  weather_std : Weather num;
  volumes_mean : num;
  volumes_std : num;
  coord_mean : Coord num;
  coord_std : Coord num;
}.

Definition normalize (val mean std : num) : num := ndiv (nsub val mean) std.

Definition normalize_time (st : NormalizationStats) (_timestamp : num) : num :=
  normalize _timestamp (time_mean st) (time_std st).

Definition normalize_weather (st : NormalizationStats) (w : Weather num) : list num :=
  [ normalize (wind_dir w) (wind_dir (weather_mean st)) (wind_dir (weather_std st));
    normalize (wind_speed w) (wind_speed (weather_mean st)) (wind_speed (weather_std st));
    normalize (wind_dir_std w) (wind_dir_std (weather_mean st)) (wind_dir_std (weather_std st));
    normalize (temperature w) (temperature (weather_mean st)) (temperature (weather_std st)) ].

Definition normalize_traffic (st : NormalizationStats) (_volume : num) : num :=
  normalize _volume (volumes_mean st) (volumes_std st).

Definition normalize_coords (st : NormalizationStats) (_coords : Coord num) : list num :=
  [ normalize _coords.1 (coord_mean st).1 (coord_std st).1;
    normalize _coords.2 (coord_mean st).2 (coord_std st).2 ].

(** [datetime.timestamp()] *)
Definition timestamp (date : Z) : num := num_of_Z date.

(** A statistic along axis 1 of the transposed list of weather vectors. *)
Definition weather_axis1 (f : list num -> num) (ws : list (Weather num)) : Weather num :=
  mkWeather (f (map wind_dir ws)) (f (map wind_speed ws))
            (f (map wind_dir_std ws)) (f (map temperature ws)).

Definition coord_axis1 (f : list num -> num) (cs : list (Coord num)) : Coord num :=
  (f (map fst cs), f (map snd cs)).

(** Lines 134-148.  [np.mean(a, 1)] raises on the one-dimensional empty
    array that [np.transpose] makes of an empty list. *)
Definition statistics (date_start date_end : Z)
    (weather_data : dict Z (Weather num))
    (traffic_volumes : dict Z (dict Link num))
    (utilities : Utilities num) : result NormalizationStats :=
  let time_interval := [timestamp date_start; timestamp date_end] in
  let weather_values := dict_values weather_data in
  if decide (weather_values = []) then Raise AxisError else
  let volumes := flat_map dict_values (dict_values traffic_volumes) in
  let bbox := dict_values (bounding_box utilities) in
  if decide (bbox = []) then Raise AxisError else
  Ok {| time_mean := np_mean time_interval;
        time_std := np_std time_interval;
        weather_mean := weather_axis1 np_mean weather_values;
        weather_std := weather_axis1 np_std weather_values;
        volumes_mean := np_mean volumes;
        volumes_std := np_std volumes;
        coord_mean := coord_axis1 np_mean bbox;
        coord_std := coord_axis1 np_std bbox |}.
End Statistics.

Arguments NormalizationStats : clear implicits.
Arguments mkStats {num}.


(** ** [pre_process] *)

Definition max_collection_size : Z := 100000.

(** [datetime.timedelta(hours=1)], in seconds *)
Definition time_step : Z := 3600.

Section PreProcess.
Context {num : Type} `{Num num} {Area : Type}.

(** Code of the repository outside this file: [udd.is_point_in_area], the
    names of the members of the enumeration [pollutant.Pollutant] in
    iteration order, and the dictionary returned by
    [um.get_empirical_background_pollution()]. *)
Variable is_point_in_area : Coord num -> Area -> bool.
Variable Pollutant : list string.
Variable get_empirical_background_pollution : gmap string num.

(** The arguments of [pre_process]. *)
Variable date_start date_end : Z.
Variable mesh : dict Z (SubDomain Area).
Variable weather_data : dict Z (Weather num).
Variable background_pollution : dict Z (gmap string num).
Variable traffic_volumes : dict Z (dict Link num).
Variable utilities : Utilities num.
Variable caline_estimates : dict Z (dict (Coord num) (gmap string num)).
Variable receptor_list : list (Coord num).

(** *** Spatial assignment (lines 154-159) *)

(** [a < b] on the sort keys [(x[0], x[1])], as Python compares tuples. *)
Definition key_ltb (a b : Coord num) : bool :=
  if neqb a.1 b.1 then nltb a.2 b.2 else nltb a.1 b.1.

Fixpoint sort_insert (x : Coord num) (l : list (Coord num)) : list (Coord num) :=
  match l with
  | [] => [x]
  | y :: l' => if key_ltb y x then y :: sort_insert x l' else x :: y :: l'
  end.

(** [list.sort(key=...)]: a stable sort. *)
Fixpoint sort (l : list (Coord num)) : list (Coord num) :=
  match l with
  | [] => []
  | x :: l' => sort_insert x (sort l')
  end.

Definition receptor_coords : dict Z (list (Coord num)) :=
  map (fun item : Z * SubDomain Area =>
         (item.1, sort (List.filter (fun receptor => is_point_in_area receptor (coord item.2))
                                    receptor_list)))
      mesh.

(** [receptor_coords[sub_domain_id]] on the [defaultdict(list)] *)
Definition receptors_of (sub_domain_id : Z) : list (Coord num) :=
  default [] (dict_get receptor_coords sub_domain_id).

(** *** Feature vector assembly (lines 190-232) *)

Section Assembler.
Variable st : NormalizationStats num.

(** Lines 191-195: the canonical key of each link and its geometry. *)
Definition links_and_coords (sub_domain : SubDomain Area)
  : result (list (Link * (Coord num * Coord num))) :=
  result_map (fun link =>
                match dict_get (links_in_area utilities) link with
                | Some coords => Ok (sorted_link link, coords)
                | None => Raise KeyError
                end)
             (links sub_domain).

(** Lines 201-204: the volume slot of a link. *)
Definition volume_slot (volumes : dict Link num) (link : Link) : num :=
  match dict_get volumes link with
  | Some volume => normalize_traffic st volume
  | None => num_of_Z 0
  end.

(** Lines 199-204: the five scalars of a link. *)
Definition link_features (volumes : dict Link num)
    (l : Link * (Coord num * Coord num)) : list num :=
  normalize_coords st l.2.1 ++ normalize_coords st l.2.2 ++ [volume_slot volumes l.1].

(** [[0] * n]; empty when [n] is negative. *)
Definition zeros (n : Z) : list num := replicate (Z.to_nat n) (num_of_Z 0).

(** Lines 197-206. *)
Definition current_traffic_volume (volumes : dict Link num)
    (ls : list (Link * (Coord num * Coord num))) : list num :=
  flat_map (link_features volumes) ls ++ zeros ((20 - Z.of_nat (length ls)) * 5).

(** Lines 214-219: the label before clamping. *)
Definition raw_label (estimates : dict (Coord num) (gmap string num))
    (background : gmap string num) (coord : Coord num) (poll : string) : result num :=
  match dict_get estimates coord with
  | Some by_pollutant =>
      match by_pollutant !! poll with
      | Some estimate =>
          match background !! poll with
          | Some b => Ok (nsub estimate b)
          | None => Raise KeyError
          end
      | None => Ok (num_of_Z 0)
      end
  | None => Ok (num_of_Z 0)
  end.

(** Line 220: [value = 0 if value < -1 else value]. *)
Definition clamp (value : num) : num :=
  if nltb value (num_of_Z (-1)) then num_of_Z 0 else value.

Definition label (estimates : dict (Coord num) (gmap string num))
    (background : gmap string num) (coord : Coord num) (poll : string) : result num :=
  value ← raw_label estimates background coord poll; Ok (clamp value).

(** Lines 208-221: [current_estimates]. *)
Definition current_estimates (estimates : dict (Coord num) (gmap string num))
    (background : gmap string num) (receptors : list (Coord num)) : result (list num) :=
  per_receptor ← result_map (fun coord => result_map (label estimates background coord) Pollutant)
                            receptors;
  Ok (concat per_receptor).

(** Lines 208-211: [current_receptors]. *)
Definition current_receptors (receptors : list (Coord num)) : list num :=
  flat_map (normalize_coords st) receptors.

(** Lines 190-232: the record of one sub-domain at one timestamp. *)
Definition assemble (current_timestamp : Z) (current_weather_data : Weather num)
    (volumes : dict Link num) (estimates : dict (Coord num) (gmap string num))
    (background : gmap string num) (sub_domain_id : Z) (sub_domain : SubDomain Area)
  : result (ProcessedRecord num) :=
  ls ← links_and_coords sub_domain;
  labels ← current_estimates estimates background (receptors_of sub_domain_id);
  let input_data :=
    [normalize_time st (timestamp current_timestamp)]
    ++ normalize_weather st current_weather_data
    ++ current_traffic_volume volumes ls
    ++ current_receptors (receptors_of sub_domain_id) in
  Ok (mkRecord (length mesh) sub_domain_id input_data labels).

(** *** Batched writer (lines 234-239, 245-246) *)

Definition append_entry (data : ProcessedRecord num) : M num unit := fun s =>
  let entries := collection_of_pre_processed_entries s ++ [data] in
  if Z.of_nat (length entries) <? max_collection_size
  then (Ok tt, mkState (current_background_pollution s) entries (collection_pre s))
  else (Ok tt, mkState (current_background_pollution s) [] (collection_pre s ++ [entries])).

Definition final_flush : M num unit := fun s =>
  match collection_of_pre_processed_entries s with
  | [] => (Ok tt, s)
  | entries => (Ok tt, mkState (current_background_pollution s) entries
                               (collection_pre s ++ [entries]))
  end.

(** *** Temporal alignment (lines 168-242) *)

(** Lines 180-183. *)
Definition update_background (current_timestamp : Z) : M num unit := fun s =>
  match dict_get background_pollution current_timestamp with
  | Some update =>
      (Ok tt, mkState (map_fold (fun pol value background => <[pol := value]> background)
                                (current_background_pollution s) update)
                      (collection_of_pre_processed_entries s) (collection_pre s))
  | None => (Ok tt, s)
  end.

(** Lines 186-240: the body of [for sub_domain_id, sub_domain in mesh.items()]. *)
Definition sub_domain_step (current_timestamp : Z) (current_weather_data : Weather num)
    (volumes : dict Link num) (item : Z * SubDomain Area) : M num unit :=
  match dict_get caline_estimates current_timestamp with
  | None => ret tt
  | Some estimates => fun s =>
      (data <- lift (assemble current_timestamp current_weather_data volumes estimates
                              (current_background_pollution s) item.1 item.2) ;;
       append_entry data)%loop s
  end.

(** Lines 169-240: the body of the [while] loop, up to the increment of
    [date_current]. *)
Definition iteration (current_timestamp : Z) : M num unit :=
  match dict_get weather_data current_timestamp with
  | None => ret tt
  | Some current_weather_data =>
      match dict_get traffic_volumes current_timestamp with
      | None => ret tt
      | Some volumes =>
          (update_background current_timestamp ;;
           for_each (sub_domain_step current_timestamp current_weather_data volumes) mesh)%loop
      end
  end.

(** Lines 168-242: [while date_current <= date_end]. *)
Fixpoint while_loop (fuel : nat) (date_current : Z) : M num unit :=
  if date_current <=? date_end then
    match fuel with
    | O => raise OutOfFuel
    | S fuel' => (iteration date_current ;; while_loop fuel' (date_current + time_step))%loop
    end
  else ret tt.
End Assembler.

Definition initial_state : State num :=
  mkState get_empirical_background_pollution [] [].

(** The whole function: how it ends, and the batches it has given to
    [collection_pre.insert_many], in order. *)
Definition pre_process : result unit * list (list (ProcessedRecord num)) :=
  match statistics date_start date_end weather_data traffic_volumes utilities with
  | Raise e => (Raise e, [])
  | Ok st =>
      let run := (while_loop st (Z.to_nat (date_end - date_start + 1)) date_start ;;
                  final_flush)%loop in
      let (r, s) := run initial_state in
      (r, collection_pre s)
  end.
End PreProcess.

(** ** The assembled records

    The sequence of the records that a run assembles, in assembly order,
    and the way the run ends, written without the writer: what the batches
    given to [insert_many] are compared with. *)

Section Assembled.
Context {num : Type} `{Num num} {Area : Type}.
Variable is_point_in_area : Coord num -> Area -> bool.
Variable Pollutant : list string.
Variable get_empirical_background_pollution : gmap string num.
Variable date_start date_end : Z.
Variable mesh : dict Z (SubDomain Area).
Variable weather_data : dict Z (Weather num).
Variable background_pollution : dict Z (gmap string num).
Variable traffic_volumes : dict Z (dict Link num).
Variable utilities : Utilities num.
Variable caline_estimates : dict Z (dict (Coord num) (gmap string num)).
Variable receptor_list : list (Coord num).
Variable st : NormalizationStats num.

(** One record per sub-domain, up to the first exception. *)
Fixpoint assembled_for_mesh (t : Z) (w : Weather num) (volumes : dict Link num)
    (estimates : dict (Coord num) (gmap string num)) (background : gmap string num)
    (items : dict Z (SubDomain Area)) : list (ProcessedRecord num) * result unit :=
  match items with
  | [] => ([], Ok tt)
  | item :: items' =>
      match assemble is_point_in_area Pollutant mesh utilities receptor_list st
                     t w volumes estimates background item.1 item.2 with
      | Ok r =>
          let (rs, res) := assembled_for_mesh t w volumes estimates background items' in
          (r :: rs, res)
      | Raise e => ([], Raise e)
      end
  end.

(** The records of one timestamp and the background mapping after it. *)
Definition assembled_at (t : Z) (background : gmap string num)
  : list (ProcessedRecord num) * result unit * gmap string num :=
  match dict_get weather_data t, dict_get traffic_volumes t with
  | Some w, Some volumes =>
      let background' := match dict_get background_pollution t with
                         | Some update => update ∪ background
                         | None => background
                         end in
      match dict_get caline_estimates t with
      | Some estimates => (assembled_for_mesh t w volumes estimates background' mesh, background')
      | None => ([], Ok tt, background')
      end
  | _, _ => ([], Ok tt, background)
  end.

(** The records of the hours from [date_current] to [date_end]. *)
Fixpoint assembled_from (fuel : nat) (date_current : Z) (background : gmap string num)
  : list (ProcessedRecord num) * result unit :=
  if date_current <=? date_end then
    match fuel with
    | O => ([], Raise OutOfFuel)
    | S fuel' =>
        let '(rs, res, background') := assembled_at date_current background in
        match res with
        | Ok _ =>
            let (rs', res') := assembled_from fuel' (date_current + time_step) background' in
            (rs ++ rs', res')
        | Raise e => (rs, Raise e)
        end
    end
  else ([], Ok tt).
End Assembled.

Section AssembledRun.
Context {num : Type} `{Num num} {Area : Type}.
Variable is_point_in_area : Coord num -> Area -> bool.
Variable Pollutant : list string.
Variable get_empirical_background_pollution : gmap string num.
Variable date_start date_end : Z.
Variable mesh : dict Z (SubDomain Area).
Variable weather_data : dict Z (Weather num).
Variable background_pollution : dict Z (gmap string num).
Variable traffic_volumes : dict Z (dict Link num).
Variable utilities : Utilities num.
Variable caline_estimates : dict Z (dict (Coord num) (gmap string num)).
Variable receptor_list : list (Coord num).

Definition assembled_records : list (ProcessedRecord num) * result unit :=
  match statistics date_start date_end weather_data traffic_volumes utilities with
  | Raise e => ([], Raise e)
  | Ok st =>
      assembled_from is_point_in_area Pollutant date_end mesh weather_data
                     background_pollution traffic_volumes utilities caline_estimates
                     receptor_list st (Z.to_nat (date_end - date_start + 1)) date_start
                     get_empirical_background_pollution
  end.
End AssembledRun.

(** ** Vocabulary of the specification *)

Section Vocabulary.
Context {num : Type} `{Num num}.

(** The records handed to the writer so far, in assembly order: those
    already given to [insert_many], then those still in the buffer. *)
Definition persisted (s : State num) : list (ProcessedRecord num) :=
  concat (collection_pre s) ++ collection_of_pre_processed_entries s.

(** The state after appending the records [rs], one by one. *)
Definition writes (rs : list (ProcessedRecord num)) (s : State num) : State num :=
  (for_each append_entry rs s).2.

(** The state of the writer is the buffer and the output collection. *)
Definition same_writer (s s' : State num) : Prop :=
  collection_of_pre_processed_entries s' = collection_of_pre_processed_entries s
  /\ collection_pre s' = collection_pre s.

(** The writer keeps full batches in the collection and a buffer below the
    threshold. *)
Definition writer_invariant (s : State num) : Prop :=
  Forall (fun batch => length batch = Z.to_nat max_collection_size) (collection_pre s)
  /\ (length (collection_of_pre_processed_entries s) < Z.to_nat max_collection_size)%nat.

(** Sizes of the batches when [n] records are written with a flush at every
    [max_collection_size]-th record and a final flush of the remainder. *)
Definition batch_sizes (n : nat) : list nat :=
  replicate (n / Z.to_nat max_collection_size) (Z.to_nat max_collection_size)
  ++ (if decide (n mod Z.to_nat max_collection_size = 0)%nat then []
      else [(n mod Z.to_nat max_collection_size)%nat]).

(** All emitted records have inputs of one length. *)
Definition run_constant_input_length (batches : list (list (ProcessedRecord num))) : Prop :=
  exists n : nat, Forall (fun r => length (input r) = n) (concat batches).

(** The link block as the specification words it: for each link the
    normalized start coordinate, the normalized end coordinate and the
    normalized volume, where a link absent from the traffic volumes of the
    timestamp has volume 0 (data model of the specification); then five zeros
    for each link missing up to 20. *)
Definition link_block_as_specified (st : NormalizationStats num) (utilities : Utilities num)
    (volumes : dict Link num) (links : list Link) : list num :=
  flat_map (fun link =>
              match dict_get (links_in_area utilities) link with
              | Some coords =>
                  normalize_coords st coords.1 ++ normalize_coords st coords.2
                  ++ [normalize_traffic st (default (num_of_Z 0)
                                                    (dict_get volumes (sorted_link link)))]
              | None => []
              end) links
  ++ replicate ((20 - length links) * 5) (num_of_Z 0).
End Vocabulary.

(** ** The hourly timeline

    The values that [date_current] takes in the loop of [pre_process]. *)

Fixpoint hours_from (n : nat) (date_current : Z) : list Z :=
  match n with
  | O => []
  | S n' => date_current :: hours_from n' (date_current + time_step)
  end.

Definition hours (date_start date_end : Z) : list Z :=
  if date_start <=? date_end
  then hours_from (Z.to_nat ((date_end - date_start) / time_step + 1)) date_start
  else [].

(** ** [get_parameters] and [main] *)

(** [param]: the dictionary returned by [get_parameters].  The two dates
    are read as UTC. *)
Record Parameters : Type := mkParameters {
  param_mesh_size : Z;                  (* ['mesh size'] *)
  param_date_start : Z;                 (* ['date start'] *)
  param_date_end : Z;                   (* ['date end'] *)
  param_sub_domain_selection : list Z;  (* ['sub domain selection'] *)
  param_runs : list string;             (* ['runs'] *)
}.

Definition get_parameters : Parameters :=
  let tag := "2019-05-21 10 "%string in
  let distances := [5; 6; 7; 8; 9; 10; 11; 13; 17; 27; 53; 103] in
  {| param_mesh_size := 2;
     param_date_start := 1498867200;    (* 2017-07-01 00:00 *)
     param_date_end := 1525302000;      (* 2018-05-02 23:00 *)
     param_sub_domain_selection := [6; 7];
     param_runs := map (fun dist : Z => tag +:+ pretty dist) distances |}.

Section Main.
Context {num : Type} `{Num num} {Area : Type}.
Variable is_point_in_area : Coord num -> Area -> bool.
Variable Pollutant : list string.
Variable get_empirical_background_pollution : gmap string num.

(** Code of the repository outside this file, [util.util_db_access], with
    the collection it reads left implicit.  [get_utilities_from_collection]
    gives the utilities of a run and their ['domain_dict'], or [None] for
    the empty dictionary of a run without utility data.  The bounding box of
    the one-tile mesh is used as an area through [area_of_bounding_box]. *)
Variable get_weather_data : Z -> Z -> dict Z (Weather num).
Variable get_background_pollution : Z -> Z -> dict Z (gmap string num).
Variable get_utilities_from_collection :
  string -> option (Utilities num * dict Z (SubDomain Area)).
Variable get_traffic_volumes : Z -> Z -> list Link -> dict Z (dict Link num).
Variable get_caline_estimates :
  Z -> Z -> string -> dict Z (dict (Coord num) (gmap string num)) * list (Coord num).
Variable area_of_bounding_box : dict string (Coord num) -> Area.

Variable param : Parameters.

(** Lines 302-303: the sub-domains of the selection, in their order. *)
Definition select_sub_domains (domain_dict : dict Z (SubDomain Area))
  : dict Z (SubDomain Area) :=
  List.filter (fun item : Z * SubDomain Area =>
                 bool_decide (item.1 ∈ param_sub_domain_selection param))
              domain_dict.

(** Line 310. *)
Definition traffic_links_of (domain_dict : dict Z (SubDomain Area)) : list Link :=
  flat_map (fun tile : SubDomain Area => links tile) (dict_values domain_dict).

(** Lines 319-325. *)
Definition mesh_of (utilities : Utilities num) (domain_dict : dict Z (SubDomain Area))
  : dict Z (SubDomain Area) :=
  if param_mesh_size param =? 1
  then [(1, mkSubDomain (area_of_bounding_box (bounding_box utilities))
                        (traffic_links_of domain_dict))]
  else domain_dict.

(** Lines 293-333: the body of [for run_tag in param['runs']]; [None] when
    the run is skipped by one of the two [continue]. *)
Definition process_run (run_tag : string)
  : option (result unit * list (list (ProcessedRecord num))) :=
  let weather_data := get_weather_data (param_date_start param) (param_date_end param) in
  let background_pollution :=
    get_background_pollution (param_date_start param) (param_date_end param) in
  match get_utilities_from_collection run_tag with
  | None => None
  | Some (utilities, domain_dict) =>
      let domain_dict := select_sub_domains domain_dict in
      if decide (domain_dict = []) then None else
      let traffic_links := traffic_links_of domain_dict in
      let traffic_links_sorted := map sorted_link traffic_links in
      let traffic_volumes :=
        get_traffic_volumes (param_date_start param) (param_date_end param)
                            traffic_links_sorted in
      let '(caline_estimates, receptor_list) :=
        get_caline_estimates (param_date_start param) (param_date_end param) run_tag in
      Some (pre_process is_point_in_area Pollutant get_empirical_background_pollution
                        (param_date_start param) (param_date_end param)
                        (mesh_of utilities domain_dict) weather_data background_pollution
                        traffic_volumes utilities caline_estimates receptor_list)
  end.

(** The loop over the runs: how it ends, and the batches given to
    [insert_many] on the one output collection, in order.  An exception of
    [pre_process] ends [main]. *)
Fixpoint main_runs (run_tags : list string)
  : result unit * list (list (ProcessedRecord num)) :=
  match run_tags with
  | [] => (Ok tt, [])
  | run_tag :: run_tags' =>
      match process_run run_tag with
      | None => main_runs run_tags'
      | Some (Ok _, batches) =>
          let (r, batches') := main_runs run_tags' in (r, batches ++ batches')
      | Some (Raise e, batches) => (Raise e, batches)
      end
  end.

Definition main : result unit * list (list (ProcessedRecord num)) :=
  main_runs (param_runs param).
End Main.

(** ** Order of the receptors *)

(** [(a.lat, a.lon) <= (b.lat, b.lon)] in the lexicographic order of the
    reals. *)
Definition key_le (a b : Coord R) : Prop :=
  (a.1 < b.1)%R \/ (a.1 = b.1 /\ (a.2 <= b.2)%R).

(** ** Binary64 numbers

    Vocabulary for the specification of the IEEE 754 operations
    ([SpecFloat]): the numbers [N * 2^p] with [0 < N < 2^53], which binary64
    represents exactly, and the numbers of moderate magnitude, whose
    quotients neither overflow nor underflow. *)

Module Dyadic.
(** The number of binary digits of a positive integer. *)
Definition digits (n : Z) : Z := Z.log2 n + 1.

(** The float of sign [s] and value [N * 2^p], for [0 < N < 2^53]. *)
Definition finite_of (s : bool) (N p : Z) : spec_float :=
  S754_finite s (Z.to_pos (N * 2 ^ (53 - digits N))) (p + digits N - 53).

(** The float of value [n / 4], for [|n| < 2^53]. *)
Definition dy (n : Z) : spec_float :=
  match n with
  | 0 => S754_zero false
  | Zpos _ => finite_of false n (-2)
  | Zneg _ => finite_of true (- n) (-2)
  end.

(** [2^-500 <= |x| <= 2^500] *)
Definition moderate (x : float) : bool :=
  (0x1p-500 <=? abs x)%float && (abs x <=? 0x1p+500)%float.
End Dyadic.

(** ** Concrete inputs

    Small inputs on which the embedding is evaluated.  The area of a
    sub-domain is an axis-aligned rectangle (south-west and north-east
    corners), with its containment test in the place of
    [udd.is_point_in_area]; the pollutants are those of the docstring of the
    script. *)

Module Scenario.
Local Open Scope string_scope.
Local Open Scope float_scope.

Definition Box : Type := Coord float * Coord float.

Definition in_box (p : Coord float) (b : Box) : bool :=
  (b.1.1 <=? p.1) && (p.1 <=? b.2.1) && (b.1.2 <=? p.2) && (p.2 <=? b.2.2).

Definition pollutants : list string := ["NO2"; "PM10"; "PM25"].

Definition empirical_background : gmap string float :=
  {[ "NO2" := 2; "PM10" := 1; "PM25" := 0.5 ]}.

(** Two sub-domains: 6 with one link and two receptors, 7 with no link and
    one receptor. *)
Definition mesh : dict Z (SubDomain Box) :=
  [ (6%Z, mkSubDomain ((0, 0), (2, 2)) [(2, 1)%Z]);
    (7%Z, mkSubDomain ((2.5, 2.5), (4, 4)) []) ].

Definition utilities : Utilities float :=
  mkUtilities [("sw", (0, 0)); ("ne", (4, 4))]
              [((2, 1)%Z, ((0.5, 0.5), (1.5, 1.5)))].

Definition receptor_list : list (Coord float) := [(1, 1); (3, 3); (0.5, 1.5)].

Definition weather_data : dict Z (Weather float) :=
  [ (0%Z, mkWeather 10 2 0.5 15); (3600%Z, mkWeather 12 3 0.25 16) ].

Definition traffic_volumes : dict Z (dict Link float) :=
  [ (0%Z, [((1, 2)%Z, 100)]); (3600%Z, []) ].

Definition caline_estimates : dict Z (dict (Coord float) (gmap string float)) :=
  [ (0%Z, [((1, 1), {[ "NO2" := 5 ]})]);
    (3600%Z, [((1, 1), {[ "NO2" := 0.5; "PM10" := 1.75 ]})]) ].

Definition background_pollution : dict Z (gmap string float) :=
  [ (3600%Z, {[ "NO2" := 3 ]}) ].

(** Two hours, both with all data. *)
Definition two_hours : result unit * list (list (ProcessedRecord float)) :=
  pre_process in_box pollutants empirical_background 0 3600 mesh weather_data
              background_pollution traffic_volumes utilities caline_estimates receptor_list.

(** A degenerate run: one hour, so that the two bounds of the time interval
    coincide, and a bounding box reduced to one point. *)
Definition point_mesh : dict Z (SubDomain Box) := [ (6%Z, mkSubDomain ((1, 1), (1, 1)) []) ].

Definition point_utilities : Utilities float :=
  mkUtilities [("sw", (1, 1)); ("ne", (1, 1))] [].

Definition point_weather : dict Z (Weather float) := [ (0%Z, mkWeather 10 2 0.5 15) ].

Definition point_traffic : dict Z (dict Link float) := [ (0%Z, []) ].

Definition point_caline : dict Z (dict (Coord float) (gmap string float)) :=
  [ (0%Z, [((1, 1), {[ "NO2" := 5 ]})]) ].

Definition degenerate : result unit * list (list (ProcessedRecord float)) :=
  pre_process in_box pollutants empirical_background 0 0 point_mesh
              point_weather [] point_traffic point_utilities point_caline [(1, 1)].

(** The statistics of the degenerate run. *)
Definition point_stats : NormalizationStats float :=
  mkStats 0 0 (mkWeather 10 2 0.5 15) (mkWeather 0 0 0 0) nan nan (1, 1) (0, 0).

(** Three hours; the second has a background update but no weather entry. *)
Definition gap_weather : dict Z (Weather float) :=
  [ (0%Z, mkWeather 10 2 0.5 15); (7200%Z, mkWeather 12 3 0.25 16) ].

Definition gap_traffic : dict Z (dict Link float) :=
  [ (0%Z, [((1, 2)%Z, 100)]); (3600%Z, [((1, 2)%Z, 50)]); (7200%Z, []) ].

Definition gap_background : dict Z (gmap string float) :=
  [ (3600%Z, {[ "NO2" := 9 ]}) ].

Definition gap_caline : dict Z (dict (Coord float) (gmap string float)) :=
  [ (7200%Z, [((3, 3), {[ "NO2" := 10 ]})]) ].

Definition gap : result unit * list (list (ProcessedRecord float)) :=
  pre_process in_box pollutants empirical_background 0 7200 mesh gap_weather
              gap_background gap_traffic utilities gap_caline receptor_list.

(** Statistics for evaluating single steps of the loop. *)
Definition unit_stats : NormalizationStats float :=
  mkStats 0 1 (mkWeather 0 0 0 0) (mkWeather 1 1 1 1) 0 1 (0, 0) (1, 1).

Definition start_state : State float := mkState empirical_background [] [].
End Scenario.

(** The same on the reals, for the equations of the specification. *)
Module RealScenario.
Local Open Scope string_scope.
Local Open Scope R_scope.

Definition weather_data : dict Z (Weather R) := [ (0%Z, mkWeather 10 2 (1 / 2) 15) ].

Definition utilities : Utilities R :=
  mkUtilities [("sw", (0, 0)); ("ne", (4, 4))] [].

Definition unit_stats : NormalizationStats R :=
  mkStats 0 1 (mkWeather 0 0 0 0) (mkWeather 1 1 1 1) 40 20 (0, 0) (1, 1).
End RealScenario.

(** Inputs for the edges of the assembly and for [main]. *)
Module EdgeScenario.
Local Open Scope string_scope.
Local Open Scope float_scope.

(** The geometry of the link of sub-domain 6 stored under the reversed
    pair. *)
Definition reversed_utilities : Utilities float :=
  mkUtilities [("sw", (0, 0)); ("ne", (4, 4))]
              [((1, 2)%Z, ((0.5, 0.5), (1.5, 1.5)))].

Definition reversed : result unit * list (list (ProcessedRecord float)) :=
  pre_process Scenario.in_box Scenario.pollutants Scenario.empirical_background 0 3600
              Scenario.mesh Scenario.weather_data Scenario.background_pollution
              Scenario.traffic_volumes reversed_utilities Scenario.caline_estimates
              Scenario.receptor_list.

(** The mesh of [Scenario.mesh] in the other order: with the reversed
    geometry, sub-domain 7 is assembled and sub-domain 6 raises. *)
Definition raising_mesh : dict Z (SubDomain Scenario.Box) :=
  [ (7%Z, mkSubDomain ((2.5, 2.5), (4, 4)) []);
    (6%Z, mkSubDomain ((0, 0), (2, 2)) [(2, 1)%Z]) ].

(** A run over one hour on a mesh of 100001 sub-domains without links,
    followed by sub-domain 6, whose link has its geometry stored under the
    reversed pair. *)
Definition crowd : dict Z (SubDomain Scenario.Box) :=
  map (fun i : nat => ((Z.of_nat i + 100)%Z, mkSubDomain ((5, 5), (6, 6)) []))
      (seq 0 (Z.to_nat 100001)).

Definition reversed_sub_domain : Z * SubDomain Scenario.Box :=
  (6%Z, mkSubDomain ((0, 0), (2, 2)) [(2, 1)%Z]).

Definition crowded_mesh : dict Z (SubDomain Scenario.Box) :=
  (crowd ++ [reversed_sub_domain])%list.

Definition crowded : result unit * list (list (ProcessedRecord float)) :=
  pre_process Scenario.in_box Scenario.pollutants Scenario.empirical_background 0 0
              crowded_mesh Scenario.weather_data Scenario.background_pollution
              Scenario.traffic_volumes reversed_utilities Scenario.caline_estimates
              Scenario.receptor_list.

(** Sub-domain 6 with a second link, (3, 4), for which no volume is
    recorded, and the statistics of the run [Scenario.gap]. *)
Definition two_links_utilities : Utilities float :=
  mkUtilities [("sw", (0, 0)); ("ne", (4, 4))]
              [((2, 1)%Z, ((0.5, 0.5), (1.5, 1.5))); ((3, 4)%Z, ((2, 2), (4, 4)))].

Definition two_links_sub_domain : SubDomain Scenario.Box :=
  mkSubDomain ((0, 0), (2, 2)) [(2, 1)%Z; (3, 4)%Z].

Definition gap_stats : NormalizationStats float :=
  mkStats 3600 3600 (mkWeather 11 2.5 0.375 15.5) (mkWeather 1 0.5 0.125 0.5)
          75 25 (2, 2) (2, 2).

(** A run on sub-domain 6 with its two links, where the volume [v] is
    recorded for the link (1, 2) at 0 and the volume 0 at 3600; nothing is
    recorded for the link (3, 4). *)
Definition huge_traffic (v : float) : dict Z (dict Link float) :=
  [ (0%Z, [((1, 2)%Z, v)]); (3600%Z, [((1, 2)%Z, 0)]) ].

Definition huge (v : float) : result unit * list (list (ProcessedRecord float)) :=
  pre_process Scenario.in_box Scenario.pollutants Scenario.empirical_background 0 3600
              [ (6%Z, two_links_sub_domain) ] Scenario.weather_data
              Scenario.background_pollution (huge_traffic v) two_links_utilities
              Scenario.caline_estimates Scenario.receptor_list.

(** A sub-domain with 21 links. *)
Definition many_links : list Link :=
  map (fun i : nat => (Z.of_nat i, Z.of_nat i + 1)%Z) (seq 1 21).

Definition many_links_utilities : Utilities float :=
  mkUtilities [("sw", (0, 0)); ("ne", (4, 4))]
              (map (fun link : Link => (link, ((0.5, 0.5), (1.5, 1.5)))) many_links).

Definition many_links_sub_domain : SubDomain Scenario.Box :=
  mkSubDomain ((0, 0), (2, 2)) many_links.

(** The store of [main]: run "a" has no utility data, run "b" has the
    sub-domains 5, 6 and 7, run "c" has the reversed geometry. *)
Definition domain_dict : dict Z (SubDomain Scenario.Box) :=
  (5%Z, mkSubDomain ((5, 5), (6, 6)) []) :: Scenario.mesh.

Definition get_utilities (run_tag : string)
  : option (Utilities float * dict Z (SubDomain Scenario.Box)) :=
  if String.eqb run_tag "b" then Some (Scenario.utilities, domain_dict)
  else if String.eqb run_tag "c" then Some (reversed_utilities, domain_dict)
  else None.

Definition param : Parameters :=
  mkParameters 2 0 3600 [6; 7]%Z ["a"; "b"; "c"; "b"].

Definition box_area (bounding_box : dict string (Coord float)) : Scenario.Box :=
  ((0, 0), (4, 4)).

Definition main_of (tags : list string)
  : result unit * list (list (ProcessedRecord float)) :=
  main_runs Scenario.in_box Scenario.pollutants Scenario.empirical_background
            (fun _ _ => Scenario.weather_data) (fun _ _ => Scenario.background_pollution)
            get_utilities (fun _ _ _ => Scenario.traffic_volumes)
            (fun _ _ _ => (Scenario.caline_estimates, Scenario.receptor_list))
            box_area param tags.
End EdgeScenario.

(** * Properties *)

(** ** The loop monad *)

Section LoopFacts.
Context {num : Type} `{Num num}.

Lemma bind_ok {A B : Type} (m : M num A) (f : A -> M num B) s a s' :
  m s = (Ok a, s') -> bind m f s = f a s'.
Proof. unfold bind. intros ->. reflexivity. Qed.

Lemma for_each_skip {A : Type} (f : A -> M num unit) (l : list A) s :
  (forall x, x ∈ l -> f x s = (Ok tt, s)) -> for_each f l s = (Ok tt, s).
Proof.
  induction l as [|x l IH]; intros Hf; [reflexivity|].
  simpl. rewrite (bind_ok _ _ s tt s) by (apply Hf; left).
  apply IH. intros y Hy. apply Hf. right. exact Hy.
Qed.

(** A property of the state that every call of the body preserves, whether
    it returns or raises, holds after the loop. *)
Lemma for_each_preserves {A : Type} (I : State num -> Prop) (f : A -> M num unit) (l : list A) :
  (forall x s, x ∈ l -> I s -> I (f x s).2) ->
  forall s, I s -> I (for_each f l s).2.
Proof.
  induction l as [|x l IH]; intros Hf s Hs; [exact Hs|].
  simpl. unfold bind.
  pose proof (Hf x s ltac:(left) Hs) as Hx.
  destruct (f x s) as [[[]|e] s1]; simpl in *; [|exact Hx].
  apply IH; [|exact Hx]. intros y s2 Hy. apply Hf. right. exact Hy.
Qed.
End LoopFacts.

(** ** Carried background pollution *)

Section Background.
Context {num : Type} `{Num num}.

(** The loop of lines 182-183 writes the update over the carried mapping. *)
Lemma background_fold_union (update background : gmap string num) :
  map_fold (fun pol value bg => <[pol := value]> bg) background update = update ∪ background.
Proof.
  apply (map_fold_weak_ind (fun r m => r = m ∪ background)).
  - symmetry. apply (left_id_L ∅ (∪)).
  - intros i x m r _ ->. apply insert_union_l.
Qed.

Lemma append_entry_background (data : ProcessedRecord num) s :
  current_background_pollution (append_entry data s).2 = current_background_pollution s.
Proof. unfold append_entry. case_match; reflexivity. Qed.
End Background.

(** ** Temporal alignment *)

Section TemporalAligner.
Context {num : Type} `{Num num} {Area : Type}.
Variable is_point_in_area : Coord num -> Area -> bool.
Variable Pollutant : list string.
Variable date_end : Z.
Variable mesh : dict Z (SubDomain Area).
Variable weather_data : dict Z (Weather num).
Variable background_pollution : dict Z (gmap string num).
Variable traffic_volumes : dict Z (dict Link num).
Variable utilities : Utilities num.
Variable caline_estimates : dict Z (dict (Coord num) (gmap string num)).
Variable receptor_list : list (Coord num).
Variable st : NormalizationStats num.

Local Abbreviation step :=
  (sub_domain_step is_point_in_area Pollutant mesh utilities caline_estimates receptor_list st).
Local Abbreviation iter :=
  (iteration is_point_in_area Pollutant mesh weather_data background_pollution traffic_volumes
             utilities caline_estimates receptor_list st).
Local Abbreviation loop :=
  (while_loop is_point_in_area Pollutant date_end mesh weather_data background_pollution
              traffic_volumes utilities caline_estimates receptor_list st).

Lemma sub_domain_step_background t w volumes item s :
  current_background_pollution (step t w volumes item s).2 = current_background_pollution s.
Proof.
  unfold sub_domain_step. destruct (dict_get caline_estimates t); [|reflexivity].
  unfold bind, lift. destruct (assemble _ _ _ _ _ _ _ _ _ _ _ _ _); [|reflexivity].
  apply append_entry_background.
Qed.

Lemma for_each_step_background t w volumes items s :
  current_background_pollution (for_each (step t w volumes) items s).2
  = current_background_pollution s.
Proof.
  apply (for_each_preserves
           (fun s' => current_background_pollution s' = current_background_pollution s));
    [|reflexivity].
  intros item s' _ <-. apply sub_domain_step_background.
Qed.

(** The background mapping after the iteration of a timestamp. *)
Lemma iteration_background t s :
  current_background_pollution (iter t s).2
  = match dict_get weather_data t, dict_get traffic_volumes t, dict_get background_pollution t with
    | Some _, Some _, Some update => update ∪ current_background_pollution s
    | _, _, _ => current_background_pollution s
    end.
Proof.
  unfold iteration.
  destruct (dict_get weather_data t) as [w|]; [|reflexivity].
  destruct (dict_get traffic_volumes t) as [volumes|]; [|reflexivity].
  unfold bind at 1. unfold update_background.
  destruct (dict_get background_pollution t) as [update|].
  - rewrite for_each_step_background. simpl. apply background_fold_union.
  - rewrite for_each_step_background. reflexivity.
Qed.

(** C6: a timestamp without weather entry, or without traffic-volume entry,
    emits no record for any sub-domain and raises nothing: the iteration
    leaves the whole state as it is, and the loop goes on with the next
    hour. *)
Theorem missing_weather_or_traffic_skips_timestamp (t : Z) (s : State num) (fuel : nat) :
  dict_get weather_data t = None \/ dict_get traffic_volumes t = None ->
  iter t s = (Ok tt, s)
  /\ (t <= date_end -> loop (S fuel) t s = loop fuel (t + time_step) s).
Proof.
  intros Hmissing.
  assert (Hskip : iter t s = (Ok tt, s)).
  { unfold iteration. destruct Hmissing as [-> | Htraffic]; [reflexivity|].
    destruct (dict_get weather_data t); [|reflexivity].
    rewrite Htraffic. reflexivity. }
  split; [exact Hskip|].
  intros Hle. simpl. apply Z.leb_le in Hle. rewrite Hle.
  unfold bind. fold iter. rewrite Hskip. reflexivity.
Qed.

(** C7: at a timestamp with weather and traffic entries but no entry in the
    Caline estimates, the test of line 187 fails for every sub-domain alike:
    each pass of the inner loop does nothing, and the iteration ends without
    exception with the buffer and the output collection unchanged. *)
Theorem missing_caline_skips_every_sub_domain (t : Z) (w : Weather num)
    (volumes : dict Link num) (s : State num) :
  dict_get weather_data t = Some w ->
  dict_get traffic_volumes t = Some volumes ->
  dict_get caline_estimates t = None ->
  (forall item s', step t w volumes item s' = (Ok tt, s'))
  /\ iter t s = update_background background_pollution t s
  /\ (iter t s).1 = Ok tt
  /\ same_writer s (iter t s).2.
Proof.
  intros Hw Hv Hc.
  assert (Hstep : forall item s', step t w volumes item s' = (Ok tt, s')).
  { intros item s'. unfold sub_domain_step. rewrite Hc. reflexivity. }
  assert (Hiter : iter t s = update_background background_pollution t s).
  { unfold iteration. rewrite Hw, Hv. unfold bind at 1.
    destruct (update_background background_pollution t s) as [[[]|e] s1] eqn:Hu.
    - apply for_each_skip. intros item _. apply Hstep.
    - reflexivity. }
  split; [exact Hstep|]. split; [exact Hiter|].
  rewrite Hiter. unfold update_background, same_writer.
  destruct (dict_get background_pollution t); simpl; auto.
Qed.

(** The background mapping at the end of the loop started at
    [date_current], when no timestamp from there on applies an update. *)
Lemma while_loop_background_unchanged (fuel : nat) : forall (date_current : Z) (s : State num),
  (forall t, date_current <= t <= date_end ->
     dict_get weather_data t = None \/ dict_get traffic_volumes t = None
     \/ dict_get background_pollution t = None) ->
  current_background_pollution (loop fuel date_current s).2 = current_background_pollution s.
Proof.
  induction fuel as [|fuel IH]; intros date_current s Hnone; simpl.
  - destruct (date_current <=? date_end); reflexivity.
  - destruct (date_current <=? date_end) eqn:Hle; [|reflexivity].
    apply Z.leb_le in Hle.
    assert (Hit : current_background_pollution (iter date_current s).2
                  = current_background_pollution s).
    { rewrite iteration_background.
      destruct (Hnone date_current ltac:(lia)) as [-> | [Hv | Hb]]; [reflexivity| |].
      - destruct (dict_get weather_data date_current); [|reflexivity].
        rewrite Hv. reflexivity.
      - rewrite Hb. destruct (dict_get weather_data date_current); [|reflexivity].
        destruct (dict_get traffic_volumes date_current); reflexivity. }
    unfold bind. fold iter.
    destruct (iter date_current s) as [[[]|e] s1]; simpl in Hit; [|exact Hit].
    rewrite IH; [exact Hit|].
    intros t Ht. apply Hnone. unfold time_step in Ht. lia.
Qed.

(** C4 (amended): the background mapping is one running state.  At a
    timestamp that has weather and traffic entries and a background update,
    exactly the pollutants of the update are overwritten and the others keep
    their carried value.  At a timestamp without update, and also at a
    timestamp skipped for lack of weather or traffic data even when it has an
    update, the mapping is left untouched.  The inner loop over the
    sub-domains never changes it, and it is the same at both ends of any
    stretch of the timeline in which no update is applied. *)
Theorem background_is_carried_forward (t : Z) (s : State num) :
  (forall w volumes update,
      dict_get weather_data t = Some w ->
      dict_get traffic_volumes t = Some volumes ->
      dict_get background_pollution t = Some update ->
      forall pol : string,
        current_background_pollution (iter t s).2 !! pol
        = match update !! pol with
          | Some value => Some value
          | None => current_background_pollution s !! pol
          end)
  /\ (dict_get background_pollution t = None
      \/ dict_get weather_data t = None \/ dict_get traffic_volumes t = None ->
      current_background_pollution (iter t s).2 = current_background_pollution s)
  /\ (forall w volumes items,
      current_background_pollution (for_each (step t w volumes) items s).2
      = current_background_pollution s)
  /\ (forall fuel,
      (forall t', t <= t' <= date_end ->
         dict_get weather_data t' = None \/ dict_get traffic_volumes t' = None
         \/ dict_get background_pollution t' = None) ->
      current_background_pollution (loop fuel t s).2 = current_background_pollution s).
Proof.
  split; [|split; [|split]].
  - intros w volumes update Hw Hv Hb pol.
    rewrite iteration_background, Hw, Hv, Hb, lookup_union.
    destruct (update !! pol), (current_background_pollution s !! pol); reflexivity.
  - intros Hskip. rewrite iteration_background.
    destruct Hskip as [Hb | [-> | Hv]]; [|reflexivity|].
    + rewrite Hb. destruct (dict_get weather_data t); [|reflexivity].
      destruct (dict_get traffic_volumes t); reflexivity.
    + destruct (dict_get weather_data t); [|reflexivity]. rewrite Hv. reflexivity.
  - intros w volumes items. apply for_each_step_background.
  - intros fuel Hnone. apply while_loop_background_unchanged. exact Hnone.
Qed.
End TemporalAligner.

(** ** Feature vector assembly *)

Section ResultMap.
Context {A B : Type}.

Lemma result_map_Forall2 (f : A -> result B) (l : list A) : forall ys,
  result_map f l = Ok ys -> Forall2 (fun x y => f x = Ok y) l ys.
Proof.
  induction l as [|x l IH]; simpl; intros ys Hys.
  - injection Hys as <-. constructor.
  - unfold mbind, result_bind in Hys.
    destruct (f x) as [y|] eqn:Hx; [|discriminate].
    destruct (result_map f l) as [ys'|]; [|discriminate].
    injection Hys as <-. constructor; [exact Hx | apply IH; reflexivity].
Qed.

Lemma result_map_length (f : A -> result B) (l : list A) ys :
  result_map f l = Ok ys -> length ys = length l.
Proof. intros Hys. symmetry. eapply Forall2_length, result_map_Forall2, Hys. Qed.

Lemma result_map_ok (f : A -> result B) (l : list A) :
  (forall x, x ∈ l -> exists y, f x = Ok y) -> exists ys, result_map f l = Ok ys.
Proof.
  induction l as [|x l IH]; intros Hf; simpl.
  - eexists. reflexivity.
  - destruct (Hf x ltac:(left)) as [y ->].
    destruct IH as [ys ->]; [intros z Hz; apply Hf; right; exact Hz|].
    eexists. reflexivity.
Qed.
End ResultMap.

Lemma flat_map_constant_length {A B : Type} (f : A -> list B) (n : nat) (l : list A) :
  Forall (fun x => length (f x) = n) l -> length (flat_map f l) = (n * length l)%nat.
Proof.
  induction 1 as [|x l Hx _ IH]; simpl; [lia|].
  rewrite length_app, Hx, IH. lia.
Qed.

Lemma concat_constant_length {B : Type} (n : nat) (ls : list (list B)) :
  Forall (fun l => length l = n) ls -> length (concat ls) = (length ls * n)%nat.
Proof.
  induction 1 as [|x l Hx _ IH]; simpl; [lia|].
  rewrite length_app, Hx, IH. lia.
Qed.

Lemma result_map_all_ok {A B : Type} (f : A -> result B) (l : list A) ys :
  result_map f l = Ok ys -> forall x, x ∈ l -> exists y, f x = Ok y.
Proof.
  intros Hys x Hx. apply result_map_Forall2 in Hys.
  apply list_elem_of_lookup in Hx as [i Hi].
  destruct (Forall2_lookup_l _ _ _ _ _ Hys Hi) as (y & _ & Hy).
  exists y. exact Hy.
Qed.

Lemma lookup_concat_constant {B : Type} (n : nat) (ls : list (list B)) :
  Forall (fun l => length l = n) ls ->
  forall i j row, ls !! i = Some row -> (j < n)%nat ->
  concat ls !! (i * n + j)%nat = row !! j.
Proof.
  induction 1 as [|l ls Hl _ IH]; intros i j row Hrow Hj; [discriminate|].
  destruct i as [|i]; simpl in *.
  - injection Hrow as ->. apply lookup_app_l. lia.
  - rewrite lookup_app_r by lia. rewrite <- (IH i j row Hrow Hj). f_equal. lia.
Qed.

Section Assembly.
Context {num : Type} `{Num num} {Area : Type}.
Variable is_point_in_area : Coord num -> Area -> bool.
Variable Pollutant : list string.
Variable mesh : dict Z (SubDomain Area).
Variable utilities : Utilities num.
Variable receptor_list : list (Coord num).
Variable st : NormalizationStats num.

Lemma length_normalize_coords (c : Coord num) : length (normalize_coords st c) = 2%nat.
Proof. reflexivity. Qed.

Lemma length_normalize_weather (w : Weather num) : length (normalize_weather st w) = 4%nat.
Proof. reflexivity. Qed.

Lemma length_link_features volumes (l : Link * (Coord num * Coord num)) :
  length (link_features st volumes l) = 5%nat.
Proof. reflexivity. Qed.

Lemma length_current_traffic_volume volumes (ls : list (Link * (Coord num * Coord num))) :
  length (current_traffic_volume st volumes ls) = (5 * Nat.max 20 (length ls))%nat.
Proof.
  unfold current_traffic_volume, zeros.
  rewrite length_app, length_replicate.
  rewrite (flat_map_constant_length _ 5) by (apply Forall_forall; intros; reflexivity).
  lia.
Qed.

Lemma length_current_receptors (receptors : list (Coord num)) :
  length (current_receptors st receptors) = (2 * length receptors)%nat.
Proof.
  unfold current_receptors. apply flat_map_constant_length.
  apply Forall_forall. intros. reflexivity.
Qed.

Lemma length_current_estimates estimates background receptors (labels : list num) :
  current_estimates Pollutant estimates background receptors = Ok labels ->
  length labels = (length receptors * length Pollutant)%nat.
Proof.
  unfold current_estimates, mbind, result_bind.
  destruct (result_map _ receptors) as [per_receptor|] eqn:Hmap; [|discriminate].
  intros [= <-].
  rewrite (concat_constant_length (length Pollutant)).
  - rewrite (result_map_length _ _ _ Hmap). reflexivity.
  - apply result_map_Forall2 in Hmap.
    induction Hmap as [|coord row receptors' rows Hrow _ IH]; constructor; [|exact IH].
    apply (result_map_length _ _ _ Hrow).
Qed.

Lemma links_and_coords_Forall2 (sd : SubDomain Area) ls :
  links_and_coords utilities sd = Ok ls ->
  Forall2 (fun link l => l.1 = sorted_link link
                         /\ dict_get (links_in_area utilities) link = Some l.2)
          (links sd) ls.
Proof.
  intros Hls. apply result_map_Forall2 in Hls.
  eapply Forall2_impl; [exact Hls|].
  intros link l. simpl.
  destruct (dict_get (links_in_area utilities) link); [|discriminate].
  intros [= <-]. split; reflexivity.
Qed.

Lemma result_map_clamped {A : Type} (f : A -> result num) (l : list A) : forall ys,
  result_map (fun x => value ← f x; Ok (clamp value)) l = Ok ys ->
  exists vs, result_map f l = Ok vs /\ ys = map clamp vs.
Proof.
  induction l as [|x l IH]; simpl; intros ys Hys.
  - injection Hys as <-. exists []. split; reflexivity.
  - unfold mbind, result_bind in *.
    destruct (f x) as [v|]; [|discriminate].
    destruct (result_map _ l) as [ys'|]; [|discriminate].
    destruct (IH ys' eq_refl) as (vs & -> & ->).
    injection Hys as <-. exists (v :: vs). split; reflexivity.
Qed.

(** The labels are the clamped raw labels, receptor by receptor and, for
    each receptor, pollutant by pollutant. *)
Lemma current_estimates_clamped estimates background (receptors : list (Coord num)) : forall labels,
  current_estimates Pollutant estimates background receptors = Ok labels ->
  exists raw,
    result_map (fun coord => result_map (raw_label estimates background coord) Pollutant)
               receptors = Ok raw
    /\ labels = map clamp (concat raw).
Proof.
  unfold current_estimates, mbind, result_bind.
  induction receptors as [|coord receptors IH]; simpl; intros labels Hlabels.
  - injection Hlabels as <-. exists []. split; reflexivity.
  - unfold mbind, result_bind in *.
    destruct (result_map (label estimates background coord) Pollutant) as [row|] eqn:Hrow;
      [|discriminate].
    destruct (result_map _ receptors) as [rows|]; [|discriminate].
    injection Hlabels as <-.
    destruct (result_map_clamped _ _ _ Hrow) as (vs & -> & ->).
    destruct (IH _ eq_refl) as (raw & -> & Hrows).
    exists (vs :: raw). split; [reflexivity|].
    simpl. rewrite map_app, Hrows. reflexivity.
Qed.

(** Shape of an assembled record. *)
Lemma assemble_shape t w volumes estimates background id (sd : SubDomain Area) r :
  assemble is_point_in_area Pollutant mesh utilities receptor_list st
           t w volumes estimates background id sd = Ok r ->
  sub_domain r = id
  /\ length (input r)
     = (5 + 5 * Nat.max 20 (length (links sd))
        + 2 * length (receptors_of is_point_in_area mesh receptor_list id))%nat
  /\ length (labels r)
     = (length (receptors_of is_point_in_area mesh receptor_list id) * length Pollutant)%nat.
Proof.
  unfold assemble, mbind, result_bind.
  destruct (links_and_coords utilities sd) as [ls|] eqn:Hls; [|discriminate].
  destruct (current_estimates _ _ _ _) as [labels|] eqn:Hlabels; [|discriminate].
  intros [= <-]. simpl. split; [reflexivity|]. split.
  - rewrite !length_app, length_current_traffic_volume, length_current_receptors.
    rewrite (result_map_length _ _ _ Hls). simpl. lia.
  - apply (length_current_estimates _ _ _ _ Hlabels).
Qed.

Lemma assemble_labels t w volumes estimates background id (sd : SubDomain Area) r :
  assemble is_point_in_area Pollutant mesh utilities receptor_list st
           t w volumes estimates background id sd = Ok r ->
  exists raw,
    result_map (fun coord => result_map (raw_label estimates background coord) Pollutant)
               (receptors_of is_point_in_area mesh receptor_list id) = Ok raw
    /\ labels r = map clamp (concat raw).
Proof.
  unfold assemble, mbind, result_bind.
  destruct (links_and_coords utilities sd) as [ls|]; [|discriminate].
  destruct (current_estimates _ _ _ _) as [labels|] eqn:Hlabels; [|discriminate].
  intros [= <-]. simpl. apply current_estimates_clamped. exact Hlabels.
Qed.

(** [assemble] raises only for a link without geometry or for an estimated
    pollutant without background value. *)
Lemma assemble_ok t w volumes estimates background id (sd : SubDomain Area) :
  (forall link, link ∈ links sd -> is_Some (dict_get (links_in_area utilities) link)) ->
  (forall poll, poll ∈ Pollutant -> is_Some (background !! poll)) ->
  exists r, assemble is_point_in_area Pollutant mesh utilities receptor_list st
                     t w volumes estimates background id sd = Ok r
            /\ input r !! 0%nat = Some (normalize_time st (timestamp t)).
Proof.
  intros Hgeometry Hbackground. unfold assemble.
  destruct (result_map_ok
              (fun link => match dict_get (links_in_area utilities) link with
                           | Some coords => Ok (sorted_link link, coords)
                           | None => Raise KeyError
                           end) (links sd)) as [ls Hls].
  { intros link Hlink. destruct (Hgeometry link Hlink) as [coords ->]. eexists. reflexivity. }
  unfold links_and_coords. rewrite Hls.
  destruct (result_map_ok
              (fun coord => result_map (label estimates background coord) Pollutant)
              (receptors_of is_point_in_area mesh receptor_list id)) as [rows Hrows].
  { intros coord _. apply result_map_ok. intros poll Hpoll.
    unfold label, raw_label, mbind, result_bind.
    destruct (dict_get estimates coord) as [by_pollutant|]; [|eexists; reflexivity].
    destruct (by_pollutant !! poll); [|eexists; reflexivity].
    destruct (Hbackground poll Hpoll) as [b ->]. eexists. reflexivity. }
  unfold current_estimates. rewrite Hrows. simpl.
  eexists. split; reflexivity.
Qed.

(** The input of an assembled record: the time, the weather, the link
    block and the receptor block. *)
Lemma assemble_input t w volumes estimates background id (sd : SubDomain Area) r :
  assemble is_point_in_area Pollutant mesh utilities receptor_list st
           t w volumes estimates background id sd = Ok r ->
  exists ls,
    links_and_coords utilities sd = Ok ls
    /\ input r
       = [normalize_time st (timestamp t)]
         ++ normalize_weather st w
         ++ current_traffic_volume st volumes ls
         ++ current_receptors st (receptors_of is_point_in_area mesh receptor_list id).
Proof.
  unfold assemble, mbind, result_bind.
  destruct (links_and_coords utilities sd) as [ls|]; [|discriminate].
  destruct (current_estimates _ _ _ _); [|discriminate].
  intros [= <-]. exists ls. split; reflexivity.
Qed.

(** The five scalars of each link, read from the links of the sub-domain:
    the geometry under the pair as given, the volume under the sorted pair. *)
Lemma link_features_of_links (sd : SubDomain Area) volumes ls :
  links_and_coords utilities sd = Ok ls ->
  map (link_features st volumes) ls
  = map (fun link =>
           match dict_get (links_in_area utilities) link with
           | Some coords =>
               [ normalize coords.1.1 (coord_mean st).1 (coord_std st).1;
                 normalize coords.1.2 (coord_mean st).2 (coord_std st).2;
                 normalize coords.2.1 (coord_mean st).1 (coord_std st).1;
                 normalize coords.2.2 (coord_mean st).2 (coord_std st).2;
                 match dict_get volumes (sorted_link link) with
                 | Some volume => normalize volume (volumes_mean st) (volumes_std st)
                 | None => num_of_Z 0
                 end ]
           | None => []
           end) (links sd).
Proof.
  intros Hls. apply links_and_coords_Forall2 in Hls.
  induction Hls as [|link l links' ls' [Hkey Hcoords] _ IH]; [reflexivity|].
  cbn [map]. rewrite IH, Hcoords. f_equal.
  unfold link_features, normalize_coords, volume_slot, normalize_traffic. rewrite Hkey.
  reflexivity.
Qed.

(** The volume slot of the [i]-th link of the sub-domain is the input at
    index [9 + 5 i]. *)
Lemma volume_slot_position t w volumes estimates background id (sd : SubDomain Area) r
    (i : nat) (link : Link) :
  assemble is_point_in_area Pollutant mesh utilities receptor_list st
           t w volumes estimates background id sd = Ok r ->
  links sd !! i = Some link ->
  input r !! (9 + 5 * i)%nat
  = Some match dict_get volumes (sorted_link link) with
         | Some volume => normalize volume (volumes_mean st) (volumes_std st)
         | None => num_of_Z 0
         end.
Proof.
  intros Hr Hlink.
  destruct (assemble_input _ _ _ _ _ _ _ _ Hr) as (ls & Hls & ->).
  pose proof (links_and_coords_Forall2 sd ls Hls) as Hall.
  destruct (Forall2_lookup_l _ _ _ _ _ Hall Hlink) as (l & Hl & Hkey & _).
  pose proof (lookup_lt_Some _ _ _ Hl) as Hi.
  assert (Hrows : Forall (fun row : list num => length row = 5%nat)
                         (map (link_features st volumes) ls)).
  { clear. induction ls; simpl; constructor; [reflexivity | assumption]. }
  rewrite lookup_app_r by (simpl; lia).
  rewrite lookup_app_r by (rewrite length_normalize_weather; simpl; lia).
  rewrite lookup_app_l
    by (rewrite length_normalize_weather, length_current_traffic_volume; simpl; lia).
  unfold current_traffic_volume. rewrite flat_map_concat_map.
  rewrite lookup_app_l
    by (rewrite (concat_constant_length 5 _ Hrows), length_map, length_normalize_weather;
        simpl; lia).
  replace (9 + 5 * i - length [normalize_time st (timestamp t)]
           - length (normalize_weather st w))%nat with (i * 5 + 4)%nat
    by (rewrite length_normalize_weather; simpl; lia).
  rewrite (lookup_concat_constant 5 _ Hrows i 4 (link_features st volumes l)); [| |lia].
  - unfold link_features, normalize_coords, volume_slot, normalize_traffic.
    rewrite Hkey. reflexivity.
  - change (map (link_features st volumes)) with (fmap (M:=list) (link_features st volumes)).
    rewrite list_lookup_fmap, Hl. reflexivity.
Qed.

(** C5 (amended): in the input of a record assembled for a sub-domain with
    [k <= 20] links, the 100 scalars that follow the time and the four
    weather values are the link block: for each link, in order, the
    normalized latitude and longitude of its start, those of its end, and
    its volume slot, which is the normalized volume recorded under the sorted
    pair at the timestamp, or the constant 0 when none is recorded; then
    [(20 - k) * 5] zeros.  Such a record is assembled as soon as every link
    has its geometry and every pollutant its background value. *)
Theorem link_block_of_an_assembled_record
    (t : Z) (w : Weather num) (volumes : dict Link num)
    (estimates : dict (Coord num) (gmap string num)) (background : gmap string num)
    (id : Z) (sd : SubDomain Area) :
  (length (links sd) <= 20)%nat ->
  let scalars := fun link : Link =>
    match dict_get (links_in_area utilities) link with
    | Some coords =>
        [ normalize coords.1.1 (coord_mean st).1 (coord_std st).1;
          normalize coords.1.2 (coord_mean st).2 (coord_std st).2;
          normalize coords.2.1 (coord_mean st).1 (coord_std st).1;
          normalize coords.2.2 (coord_mean st).2 (coord_std st).2;
          match dict_get volumes (sorted_link link) with
          | Some volume => normalize volume (volumes_mean st) (volumes_std st)
          | None => num_of_Z 0
          end ]
    | None => []
    end in
  (forall r,
      assemble is_point_in_area Pollutant mesh utilities receptor_list st
               t w volumes estimates background id sd = Ok r ->
      Forall (fun link => length (scalars link) = 5%nat) (links sd)
      /\ take 100 (drop 5 (input r))
         = flat_map scalars (links sd)
           ++ replicate ((20 - length (links sd)) * 5) (num_of_Z 0)
      /\ length (take 100 (drop 5 (input r))) = 100%nat)
  /\ ((forall link, link ∈ links sd -> is_Some (dict_get (links_in_area utilities) link)) ->
      (forall poll, poll ∈ Pollutant -> is_Some (background !! poll)) ->
      exists r, assemble is_point_in_area Pollutant mesh utilities receptor_list st
                         t w volumes estimates background id sd = Ok r).
Proof.
  intros Hk scalars. split.
  - intros r Hr.
    destruct (assemble_input _ _ _ _ _ _ _ _ Hr) as (ls & Hls & Hinput).
    pose proof (result_map_length _ _ _ Hls) as Hlen.
    assert (Hblock : length (current_traffic_volume st volumes ls) = 100%nat).
    { rewrite length_current_traffic_volume, Hlen. lia. }
    assert (Htake : take 100 (drop 5 (input r)) = current_traffic_volume st volumes ls).
    { rewrite Hinput. cbn [app normalize_weather drop]. apply take_app_length'.
      symmetry. exact Hblock. }
    split; [|split].
    + apply list.Forall_forall. intros link Hlink.
      destruct (result_map_all_ok _ _ _ Hls link Hlink) as [l Hl].
      subst scalars. cbv beta.
      destruct (dict_get (links_in_area utilities) link); [reflexivity | discriminate].
    + rewrite Htake. unfold current_traffic_volume, zeros.
      rewrite !flat_map_concat_map, (link_features_of_links sd volumes ls Hls).
      f_equal. f_equal. lia.
    + rewrite Htake. exact Hblock.
  - intros Hgeometry Hbackground.
    destruct (assemble_ok t w volumes estimates background id sd Hgeometry Hbackground)
      as (r & Hr & _).
    exists r. exact Hr.
Qed.
End Assembly.

(** ** Batched writer *)

Section Writer.
Context {num : Type} `{Num num}.

Lemma max_collection_size_pos : (0 < Z.to_nat max_collection_size)%nat.
Proof. unfold max_collection_size. lia. Qed.

Lemma append_entry_ok (data : ProcessedRecord num) s : (append_entry data s).1 = Ok tt.
Proof. unfold append_entry. case_match; reflexivity. Qed.

(** Appending puts the record at the end of the written sequence, whether
    or not the buffer is flushed. *)
Lemma append_entry_persisted (data : ProcessedRecord num) s :
  persisted (append_entry data s).2 = persisted s ++ [data].
Proof.
  unfold append_entry, persisted. case_match; simpl.
  - apply app_assoc.
  - rewrite concat_app. simpl. rewrite !app_nil_r. apply app_assoc.
Qed.

Lemma append_entry_invariant (data : ProcessedRecord num) s :
  writer_invariant s -> writer_invariant (append_entry data s).2.
Proof.
  intros [Hfull Hbuffer]. unfold append_entry.
  destruct (Z.of_nat (length (collection_of_pre_processed_entries s ++ [data]))
            <? max_collection_size) eqn:Hlt; simpl.
  - split; [exact Hfull|]. simpl. apply Z.ltb_lt in Hlt. lia.
  - split; simpl; [|apply max_collection_size_pos].
    apply Forall_app. split; [exact Hfull|]. constructor; [|constructor].
    apply Z.ltb_ge in Hlt. rewrite length_app in *. simpl in *. lia.
Qed.

Lemma batch_sizes_full_and_rest (batches : list (list (ProcessedRecord num)))
    (rest : list (ProcessedRecord num)) :
  Forall (fun batch => length batch = Z.to_nat max_collection_size) batches ->
  (length rest < Z.to_nat max_collection_size)%nat ->
  batch_sizes (length (concat batches ++ rest))
  = map length batches ++ (if decide (rest = []) then [] else [length rest]).
Proof.
  intros Hfull Hrest. unfold batch_sizes.
  pose proof max_collection_size_pos as Hpos.
  set (m := Z.to_nat max_collection_size) in *.
  rewrite length_app, (concat_constant_length m _ Hfull).
  assert (Hdiv : ((length batches * m + length rest) / m = length batches)%nat).
  { symmetry. apply (Nat.div_unique _ m _ (length rest)); lia. }
  assert (Hmod : ((length batches * m + length rest) mod m = length rest)%nat).
  { symmetry. apply (Nat.mod_unique _ m (length batches)); lia. }
  rewrite Hdiv, Hmod. f_equal.
  - clear Hdiv Hmod. induction Hfull as [|b bs Hb _ IH]; simpl; [reflexivity|].
    rewrite Hb, IH. reflexivity.
  - destruct rest; simpl; [reflexivity|].
    destruct (decide (S (length rest) = 0%nat)); [lia|reflexivity].
Qed.

(** The writer alone, on a sequence of records: every record is written
    once, in order, in batches of the threshold and a last smaller one. *)
Lemma writer_run (rs : list (ProcessedRecord num)) : forall s,
  writer_invariant s ->
  exists s',
    bind (for_each append_entry rs) (fun _ => final_flush) s = (Ok tt, s')
    /\ concat (collection_pre s') = persisted s ++ rs
    /\ map length (collection_pre s') = batch_sizes (length (persisted s ++ rs)).
Proof.
  induction rs as [|r rs IH]; intros s Hs.
  - unfold bind. simpl. unfold final_flush, persisted. rewrite app_nil_r.
    destruct Hs as [Hfull Hbuffer].
    rewrite (batch_sizes_full_and_rest _ _ Hfull Hbuffer).
    destruct (collection_of_pre_processed_entries s) as [|e es] eqn:He.
    + eexists. split; [reflexivity|]. rewrite !app_nil_r. split; reflexivity.
    + eexists. split; [reflexivity|]. simpl. rewrite concat_app, map_app. simpl.
      rewrite app_nil_r. split; reflexivity.
  - destruct (IH (append_entry r s).2 (append_entry_invariant r s Hs)) as (s' & Hrun & Hcat & Hlen).
    exists s'. rewrite append_entry_persisted, <- app_assoc in Hcat, Hlen.
    split; [|split; assumption].
    unfold bind in *. simpl. unfold bind.
    pose proof (append_entry_ok r s) as Hok.
    destruct (append_entry r s) as [[[]|e] s1]; simpl in *; [exact Hrun|discriminate].
Qed.
Lemma writes_cons (r : ProcessedRecord num) rs s :
  writes (r :: rs) s = writes rs (append_entry r s).2.
Proof.
  unfold writes. simpl. unfold bind. pose proof (append_entry_ok r s) as Hok.
  destruct (append_entry r s) as [[[]|e] s1]; simpl in *; [reflexivity|discriminate].
Qed.

Lemma writes_app (rs rs' : list (ProcessedRecord num)) : forall s,
  writes (rs ++ rs') s = writes rs' (writes rs s).
Proof.
  induction rs as [|r rs IH]; intros s; [reflexivity|].
  simpl. rewrite !writes_cons. apply IH.
Qed.

Lemma writes_background (rs : list (ProcessedRecord num)) : forall s,
  current_background_pollution (writes rs s) = current_background_pollution s.
Proof.
  induction rs as [|r rs IH]; intros s; [reflexivity|].
  rewrite writes_cons, IH. apply append_entry_background.
Qed.

Lemma writes_persisted (rs : list (ProcessedRecord num)) : forall s,
  persisted (writes rs s) = persisted s ++ rs.
Proof.
  induction rs as [|r rs IH]; intros s.
  - unfold writes. simpl. rewrite app_nil_r. reflexivity.
  - rewrite writes_cons, IH, append_entry_persisted, <- app_assoc. reflexivity.
Qed.

Lemma writes_invariant (rs : list (ProcessedRecord num)) : forall s,
  writer_invariant s -> writer_invariant (writes rs s).
Proof.
  induction rs as [|r rs IH]; intros s Hs; [exact Hs|].
  rewrite writes_cons. apply IH, append_entry_invariant, Hs.
Qed.

Lemma same_writer_trans (s1 s2 s3 : State num) :
  same_writer s1 s2 -> same_writer s2 s3 -> same_writer s1 s3.
Proof. unfold same_writer. intros [-> ->] [-> ->]. split; reflexivity. Qed.

Lemma append_entry_same_writer (r : ProcessedRecord num) s1 s2 :
  same_writer s1 s2 -> same_writer (append_entry r s1).2 (append_entry r s2).2.
Proof.
  unfold same_writer, append_entry. intros [-> ->].
  case_match; simpl; split; reflexivity.
Qed.

Lemma writes_same_writer (rs : list (ProcessedRecord num)) : forall s1 s2,
  same_writer s1 s2 -> same_writer (writes rs s1) (writes rs s2).
Proof.
  induction rs as [|r rs IH]; intros s1 s2 Hs; [exact Hs|].
  rewrite !writes_cons. apply IH, append_entry_same_writer, Hs.
Qed.

(** The batches after the final flush of a state reached by appending
    records to the empty writer. *)
Lemma final_flush_batches (rs : list (ProcessedRecord num)) (background : gmap string num) s :
  same_writer (writes rs (mkState background [] [])) s ->
  (final_flush s).1 = Ok tt
  /\ concat (collection_pre (final_flush s).2) = rs
  /\ map length (collection_pre (final_flush s).2) = batch_sizes (length rs)
  /\ exists rest, concat (collection_pre s) ++ rest = rs.
Proof.
  intros [Hentries Hbatches].
  pose proof (writes_persisted rs (mkState background [] [])) as Hpersisted.
  destruct (writes_invariant rs (mkState background [] [])) as [Hfull Hbuffer].
  { split; [constructor | apply max_collection_size_pos]. }
  unfold persisted in Hpersisted. simpl in Hpersisted.
  rewrite <- Hentries in Hpersisted, Hbuffer. rewrite <- Hbatches in Hpersisted, Hfull.
  clear Hentries Hbatches. subst rs.
  rewrite (batch_sizes_full_and_rest _ _ Hfull Hbuffer).
  unfold final_flush.
  destruct (collection_of_pre_processed_entries s) as [|e es]; simpl.
  - rewrite !app_nil_r. repeat split. exists []. apply app_nil_r.
  - rewrite concat_app, map_app. simpl. rewrite app_nil_r.
    repeat split. eexists. reflexivity.
Qed.
End Writer.

(** ** The whole run *)

Lemma result_map_raise {A B : Type} (f : A -> result B) (l : list A) e :
  result_map f l = Raise e -> exists x, x ∈ l /\ f x = Raise e.
Proof.
  induction l as [|x l IH]; simpl; [discriminate|].
  unfold mbind, result_bind.
  destruct (f x) as [y|e'] eqn:Hx.
  - destruct (result_map f l) as [ys|e'']; [discriminate|].
    intros [= ->]. destruct (IH eq_refl) as (z & Hz & Hfz).
    exists z. split; [right; exact Hz | exact Hfz].
  - intros [= ->]. exists x. split; [left | exact Hx].
Qed.

Section Run.
Context {num : Type} `{Num num} {Area : Type}.
Variable is_point_in_area : Coord num -> Area -> bool.
Variable Pollutant : list string.
Variable get_empirical_background_pollution : gmap string num.
Variable date_start date_end : Z.
Variable mesh : dict Z (SubDomain Area).
Variable weather_data : dict Z (Weather num).
Variable background_pollution : dict Z (gmap string num).
Variable traffic_volumes : dict Z (dict Link num).
Variable utilities : Utilities num.
Variable caline_estimates : dict Z (dict (Coord num) (gmap string num)).
Variable receptor_list : list (Coord num).

Local Abbreviation assemble_ :=
  (assemble is_point_in_area Pollutant mesh utilities receptor_list).
Local Abbreviation step :=
  (sub_domain_step is_point_in_area Pollutant mesh utilities caline_estimates receptor_list).
Local Abbreviation iter :=
  (iteration is_point_in_area Pollutant mesh weather_data background_pollution traffic_volumes
             utilities caline_estimates receptor_list).
Local Abbreviation loop :=
  (while_loop is_point_in_area Pollutant date_end mesh weather_data background_pollution
              traffic_volumes utilities caline_estimates receptor_list).
Local Abbreviation run :=
  (pre_process is_point_in_area Pollutant get_empirical_background_pollution
               date_start date_end mesh weather_data background_pollution traffic_volumes
               utilities caline_estimates receptor_list).

(** *** Exceptions *)

Lemma assemble_raises_KeyError st t w volumes estimates background id sd e :
  assemble_ st t w volumes estimates background id sd = Raise e -> e = KeyError.
Proof.
  unfold assemble, mbind, result_bind.
  destruct (links_and_coords utilities sd) as [ls|e1] eqn:Hls.
  - destruct (current_estimates _ _ _ _) as [labels|e2] eqn:Hlabels; [discriminate|].
    intros [= <-]. unfold current_estimates, mbind, result_bind in Hlabels.
    destruct (result_map _ _) as [rows|e3] eqn:Hrows; [discriminate|].
    injection Hlabels as ->.
    apply result_map_raise in Hrows as (coord & _ & Hrow).
    apply result_map_raise in Hrow as (poll & _ & Hlabel).
    unfold label, raw_label, mbind, result_bind in Hlabel.
    repeat case_match; congruence.
  - intros [= <-]. apply result_map_raise in Hls as (link & _ & Hlink).
    case_match; congruence.
Qed.

Lemma sub_domain_step_raises_KeyError st t w volumes item s e :
  (step st t w volumes item s).1 = Raise e -> e = KeyError.
Proof.
  unfold sub_domain_step. destruct (dict_get caline_estimates t); [|discriminate].
  unfold bind, lift.
  destruct (assemble _ _ _ _ _ _ _ _ _ _ _ _ _) as [r|e'] eqn:Hr.
  - rewrite append_entry_ok. discriminate.
  - simpl. intros [= <-]. eapply assemble_raises_KeyError, Hr.
Qed.

Lemma for_each_raises {A : Type} (f : A -> M num unit) (l : list A) (e0 : exn) :
  (forall x s e, (f x s).1 = Raise e -> e = e0) ->
  forall s e, (for_each f l s).1 = Raise e -> e = e0.
Proof.
  intros Hf. induction l as [|x l IH]; intros s e; simpl; [discriminate|].
  unfold bind. destruct (f x s) as [[[]|e'] s1] eqn:Hx.
  - apply IH.
  - simpl. intros [= <-]. apply (Hf x s). rewrite Hx. reflexivity.
Qed.

Lemma iteration_raises_KeyError st t s e : (iter st t s).1 = Raise e -> e = KeyError.
Proof.
  unfold iteration.
  destruct (dict_get weather_data t); [|discriminate].
  destruct (dict_get traffic_volumes t); [|discriminate].
  unfold bind at 1. unfold update_background.
  destruct (dict_get background_pollution t);
    apply for_each_raises; intros; eapply sub_domain_step_raises_KeyError; eassumption.
Qed.

(** The fuel given by [pre_process] is never exhausted: the loop ends by
    its test [date_current <= date_end]. *)
Lemma while_loop_raises_KeyError st (fuel : nat) : forall date_current s e,
  (Z.to_nat (date_end - date_current + 1) <= fuel)%nat ->
  (loop st fuel date_current s).1 = Raise e -> e = KeyError.
Proof.
  induction fuel as [|fuel IH]; intros date_current s e Hfuel; simpl.
  - destruct (date_current <=? date_end) eqn:Hle; [|discriminate].
    apply Z.leb_le in Hle. lia.
  - destruct (date_current <=? date_end) eqn:Hle; [|discriminate].
    apply Z.leb_le in Hle. unfold bind. fold (iter st).
    destruct (iter st date_current s) as [[[]|e'] s1] eqn:Hit.
    + apply IH. unfold time_step. lia.
    + simpl. intros [= <-]. apply (iteration_raises_KeyError st date_current s).
      rewrite Hit. reflexivity.
Qed.

Lemma final_flush_ok (s : State num) : (final_flush s).1 = Ok tt.
Proof. unfold final_flush. case_match; reflexivity. Qed.

(** [pre_process] never ends for lack of fuel. *)
Lemma pre_process_terminates : run.1 <> Raise OutOfFuel.
Proof.
  unfold pre_process.
  destruct (statistics _ _ _ _ _) as [st|e] eqn:Hst.
  - unfold bind.
    destruct (while_loop _ _ _ _ _ _ _ _ _ _ st _ date_start _) as [[[]|e] s1] eqn:Hloop.
    + pose proof (final_flush_ok s1). destruct (final_flush s1) as [r s2].
      simpl in *. congruence.
    + simpl. intros [= ->].
      assert (OutOfFuel = KeyError); [|discriminate].
      eapply (while_loop_raises_KeyError st _ date_start); [reflexivity|].
      rewrite Hloop. reflexivity.
  - simpl. unfold statistics in Hst. repeat case_match; congruence.
Qed.

(** *** Invariants of the writer state along the run *)

Section Invariant.
Variable I : State num -> Prop.
Hypothesis I_background : forall s background,
  I s -> I (mkState background (collection_of_pre_processed_entries s) (collection_pre s)).
Hypothesis I_append : forall st t w volumes estimates background item r s,
  item ∈ mesh ->
  assemble_ st t w volumes estimates background item.1 item.2 = Ok r ->
  I s -> I (append_entry r s).2.

Lemma sub_domain_step_invariant st t w volumes item s :
  item ∈ mesh -> I s -> I (step st t w volumes item s).2.
Proof.
  intros Hitem Hs. unfold sub_domain_step.
  destruct (dict_get caline_estimates t); [|exact Hs].
  unfold bind, lift.
  destruct (assemble _ _ _ _ _ _ _ _ _ _ _ _ _) as [r|e] eqn:Hr; [|exact Hs].
  eapply I_append; eassumption.
Qed.

Lemma iteration_invariant st t s : I s -> I (iter st t s).2.
Proof.
  intros Hs. unfold iteration.
  destruct (dict_get weather_data t); [|exact Hs].
  destruct (dict_get traffic_volumes t); [|exact Hs].
  unfold bind at 1. unfold update_background.
  destruct (dict_get background_pollution t).
  - apply for_each_preserves; [|apply I_background, Hs].
    intros item s' Hitem Hs'. apply sub_domain_step_invariant; assumption.
  - apply for_each_preserves; [|exact Hs].
    intros item s' Hitem Hs'. apply sub_domain_step_invariant; assumption.
Qed.

Lemma while_loop_invariant st (fuel : nat) : forall date_current s,
  I s -> I (loop st fuel date_current s).2.
Proof.
  induction fuel as [|fuel IH]; intros date_current s Hs; simpl.
  - destruct (date_current <=? date_end); exact Hs.
  - destruct (date_current <=? date_end); [|exact Hs].
    unfold bind. fold (iter st).
    pose proof (iteration_invariant st date_current s Hs) as Hit.
    destruct (iter st date_current s) as [[[]|e] s1]; simpl in Hit; [|exact Hit].
    apply IH. exact Hit.
Qed.
End Invariant.

(** What [pre_process] returns, in terms of the state at the end of the
    loop: after an exception the batches flushed so far, otherwise those and
    the flushed remainder. *)
Lemma pre_process_batches :
  run = (Raise AxisError, [])
  \/ exists st s,
       statistics date_start date_end weather_data traffic_volumes utilities = Ok st
       /\ (forall I : State num -> Prop,
             (forall s0 background, I s0 ->
                I (mkState background (collection_of_pre_processed_entries s0)
                           (collection_pre s0))) ->
             (forall st t w volumes estimates background item r s0,
                item ∈ mesh ->
                assemble_ st t w volumes estimates background item.1 item.2 = Ok r ->
                I s0 -> I (append_entry r s0).2) ->
             I (mkState get_empirical_background_pollution [] []) -> I s)
       /\ (run = (Raise KeyError, collection_pre s)
           \/ run = (Ok tt, collection_pre s
                            ++ (if decide (collection_of_pre_processed_entries s = [])
                                then [] else [collection_of_pre_processed_entries s]))).
Proof.
  unfold pre_process.
  destruct (statistics _ _ _ _ _) as [st|e] eqn:Hst.
  - right. exists st.
    unfold bind.
    destruct (while_loop _ _ _ _ _ _ _ _ _ _ st _ date_start _) as [[[]|e] s1] eqn:Hloop.
    + exists s1. split; [reflexivity|]. split.
      * intros I HIb HIa HI0.
        pose proof (while_loop_invariant I HIb HIa st
                      (Z.to_nat (date_end - date_start + 1)) date_start _ HI0) as Hinv.
        unfold initial_state in Hloop. rewrite Hloop in Hinv. exact Hinv.
      * right. unfold final_flush.
        destruct (collection_of_pre_processed_entries s1); simpl.
        -- rewrite app_nil_r. reflexivity.
        -- reflexivity.
    + exists s1. split; [reflexivity|]. split.
      * intros I HIb HIa HI0.
        pose proof (while_loop_invariant I HIb HIa st
                      (Z.to_nat (date_end - date_start + 1)) date_start _ HI0) as Hinv.
        unfold initial_state in Hloop. rewrite Hloop in Hinv. exact Hinv.
      * left. f_equal. f_equal.
        eapply (while_loop_raises_KeyError st _ date_start); [reflexivity|].
        rewrite Hloop. reflexivity.
  - left. unfold statistics in Hst. repeat case_match; congruence.
Qed.

(** C1 (amended): every record emitted by a run, in whatever batch and
    however the run ends, belongs to a sub-domain of the mesh; its labels
    have (number of receptors of that sub-domain) times (size of the
    pollutant enumeration) elements, a multiple of that size; its input has
    [5 + 5 * max 20 k + 2 * r] elements for a sub-domain with [k] links and
    [r] receptors, that is [105 + 2 * r] when [k <= 20].  The links are
    padded, the receptors are not: the input length is constant over the
    records of one sub-domain, not over the run. *)
Theorem record_lengths_follow_the_sub_domain :
  Forall (fun r =>
            exists sd : SubDomain Area,
              (sub_domain r, sd) ∈ mesh
              /\ length (labels r)
                 = (length (receptors_of is_point_in_area mesh receptor_list (sub_domain r))
                    * length Pollutant)%nat
              /\ length (input r)
                 = (5 + 5 * Nat.max 20 (length (links sd))
                    + 2 * length (receptors_of is_point_in_area mesh receptor_list
                                               (sub_domain r)))%nat
              /\ ((length (links sd) <= 20)%nat ->
                  length (input r)
                  = (105 + 2 * length (receptors_of is_point_in_area mesh receptor_list
                                                    (sub_domain r)))%nat))
         (concat run.2).
Proof.
  set (P := fun r : ProcessedRecord num => exists sd : SubDomain Area, _).
  destruct pre_process_batches as [-> | (st & s & _ & Hinv & Hrun)]; [constructor|].
  assert (Hall : Forall P (persisted s)).
  { apply (Hinv (fun s0 => Forall P (persisted s0))).
    - intros s0 background Hs0. exact Hs0.
    - intros st' t w volumes estimates background [id sd] r s0 Hitem Hr Hs0.
      rewrite append_entry_persisted. apply Forall_app. split; [exact Hs0|].
      constructor; [|constructor].
      apply assemble_shape in Hr as (Hid & Hinput & Hlabels). simpl in *.
      exists sd. rewrite Hid. split; [exact Hitem|]. split; [exact Hlabels|].
      split; [exact Hinput|]. intros Hk. rewrite Hinput. lia.
    - constructor. }
  unfold persisted in Hall. apply Forall_app in Hall as [Hflushed Hbuffer].
  destruct Hrun as [-> | ->]; simpl; [exact Hflushed|].
  rewrite concat_app. apply Forall_app. split; [exact Hflushed|].
  case_match; simpl; [constructor|]. rewrite app_nil_r. exact Hbuffer.
Qed.

(** *** The run writes the assembled records *)

Local Abbreviation trace_mesh :=
  (assembled_for_mesh is_point_in_area Pollutant mesh utilities receptor_list).
Local Abbreviation trace_at :=
  (assembled_at is_point_in_area Pollutant mesh weather_data background_pollution
                traffic_volumes utilities caline_estimates receptor_list).
Local Abbreviation trace_from :=
  (assembled_from is_point_in_area Pollutant date_end mesh weather_data background_pollution
                  traffic_volumes utilities caline_estimates receptor_list).
Local Abbreviation trace :=
  (assembled_records is_point_in_area Pollutant get_empirical_background_pollution
                     date_start date_end mesh weather_data background_pollution
                     traffic_volumes utilities caline_estimates receptor_list).

Lemma for_mesh_refines st t w volumes estimates (items : dict Z (SubDomain Area)) : forall s,
  dict_get caline_estimates t = Some estimates ->
  for_each (step st t w volumes) items s
  = ((trace_mesh st t w volumes estimates (current_background_pollution s) items).2,
     writes (trace_mesh st t w volumes estimates (current_background_pollution s) items).1 s).
Proof.
  intros s Hc. revert s.
  induction items as [|item items IH]; intros s; [reflexivity|].
  simpl. unfold bind. unfold sub_domain_step at 1. rewrite Hc. unfold bind, lift.
  destruct (assemble _ _ _ _ _ _ _ _ _ _ _ _ _) as [r|e]; [|reflexivity].
  pose proof (append_entry_ok r s) as Hok.
  pose proof (append_entry_background r s) as Hbg.
  pose proof (writes_cons r (trace_mesh st t w volumes estimates
                                        (current_background_pollution s) items).1 s) as Hcons.
  destruct (append_entry r s) as [[[]|e] s1]; simpl in Hok, Hbg, Hcons; [|discriminate].
  rewrite IH, Hbg.
  destruct (trace_mesh st t w volumes estimates (current_background_pollution s) items)
    as [rs res].
  simpl in *. rewrite Hcons. reflexivity.
Qed.

Lemma iteration_refines st t s :
  (iter st t s).1 = (trace_at st t (current_background_pollution s)).1.2
  /\ same_writer (writes (trace_at st t (current_background_pollution s)).1.1 s) (iter st t s).2
  /\ current_background_pollution (iter st t s).2
     = (trace_at st t (current_background_pollution s)).2.
Proof.
  unfold iteration, assembled_at.
  destruct (dict_get weather_data t) as [w|]; [|repeat split].
  destruct (dict_get traffic_volumes t) as [volumes|]; [|repeat split].
  unfold bind at 1. unfold bind at 1. unfold bind at 1. unfold update_background.
  set (background' := match dict_get background_pollution t with
                      | Some update => update ∪ current_background_pollution s
                      | None => current_background_pollution s
                      end).
  set (s1 := mkState background' (collection_of_pre_processed_entries s) (collection_pre s)).
  assert (Hupdate : (match dict_get background_pollution t with
                     | Some update =>
                         (Ok tt, mkState (map_fold (fun pol value background =>
                                                      <[pol := value]> background)
                                                   (current_background_pollution s) update)
                                         (collection_of_pre_processed_entries s)
                                         (collection_pre s))
                     | None => (Ok tt, s)
                     end) = (Ok tt, s1) \/ (dict_get background_pollution t = None)).
  { destruct (dict_get background_pollution t); [left|right; reflexivity].
    rewrite background_fold_union. reflexivity. }
  assert (Hs1 : same_writer s s1) by (split; reflexivity).
  assert (Hrun : forall s0, same_writer s s0 -> current_background_pollution s0 = background' ->
            (for_each (step st t w volumes) mesh s0).1
            = (match dict_get caline_estimates t with
               | Some estimates => (trace_mesh st t w volumes estimates background' mesh,
                                    background')
               | None => ([], Ok tt, background')
               end).1.2
            /\ same_writer
                 (writes (match dict_get caline_estimates t with
                          | Some estimates => (trace_mesh st t w volumes estimates background'
                                                          mesh, background')
                          | None => ([], Ok tt, background')
                          end).1.1 s)
                 (for_each (step st t w volumes) mesh s0).2
            /\ current_background_pollution (for_each (step st t w volumes) mesh s0).2
               = (match dict_get caline_estimates t with
                  | Some estimates => (trace_mesh st t w volumes estimates background' mesh,
                                       background')
                  | None => ([], Ok tt, background')
                  end).2).
  { intros s0 Hs0 Hbg0.
    destruct (dict_get caline_estimates t) as [estimates|] eqn:Hc.
    - rewrite (for_mesh_refines st t w volumes estimates mesh s0 Hc), Hbg0. simpl.
      split; [reflexivity|]. split.
      + apply writes_same_writer. exact Hs0.
      + rewrite writes_background. exact Hbg0.
    - rewrite for_each_skip.
      + simpl. split; [reflexivity|]. split; [exact Hs0 | exact Hbg0].
      + intros item _. unfold sub_domain_step. rewrite Hc. reflexivity. }
  destruct Hupdate as [-> | Hnone].
  - apply Hrun; [exact Hs1 | reflexivity].
  - subst background' s1. rewrite Hnone in *. apply Hrun; split; reflexivity.
Qed.

Lemma while_loop_refines st (fuel : nat) : forall date_current s,
  (loop st fuel date_current s).1
  = (trace_from st fuel date_current (current_background_pollution s)).2
  /\ same_writer (writes (trace_from st fuel date_current (current_background_pollution s)).1 s)
                 (loop st fuel date_current s).2.
Proof.
  induction fuel as [|fuel IH]; intros date_current s; simpl.
  - destruct (date_current <=? date_end); split; try reflexivity; split; reflexivity.
  - destruct (date_current <=? date_end); [|split; [reflexivity | split; reflexivity]].
    unfold bind. fold (iter st).
    destruct (iteration_refines st date_current s) as (Hres & Hwriter & Hbg).
    destruct (trace_at st date_current (current_background_pollution s)) as [[rs res] bg'].
    destruct (iter st date_current s) as [[[]|e] s1]; simpl in Hres, Hwriter, Hbg; subst res.
    + destruct (IH (date_current + time_step) s1) as (Hres' & Hwriter').
      rewrite Hbg in Hres', Hwriter'.
      destruct (trace_from st fuel (date_current + time_step) bg') as [rs' res'].
      simpl in *. split; [exact Hres'|].
      rewrite writes_app. eapply same_writer_trans; [|exact Hwriter'].
      apply writes_same_writer. exact Hwriter.
    + simpl. split; [reflexivity | exact Hwriter].
Qed.

(** The run ends as the assembly does; the batches written are a prefix of
    the assembled records, and all of them when the run ends normally. *)
Lemma pre_process_refines :
  run.1 = trace.2
  /\ (exists rest, concat run.2 ++ rest = trace.1)
  /\ (run.1 = Ok tt ->
      concat run.2 = trace.1 /\ map length run.2 = batch_sizes (length trace.1)).
Proof.
  unfold pre_process, assembled_records.
  destruct (statistics _ _ _ _ _) as [st|e].
  2:{ simpl. split; [reflexivity|]. split; [exists []; reflexivity | discriminate]. }
  unfold bind.
  destruct (while_loop_refines st (Z.to_nat (date_end - date_start + 1)) date_start
                               (initial_state get_empirical_background_pollution))
    as (Hres & Hwriter).
  unfold initial_state in *. simpl in Hres, Hwriter.
  destruct (trace_from st _ date_start get_empirical_background_pollution) as [rs res].
  simpl in Hres, Hwriter.
  destruct (final_flush_batches rs _ _ Hwriter) as (Hok & Hcat & Hsizes & Hprefix).
  destruct (while_loop _ _ _ _ _ _ _ _ _ _ st _ date_start _) as [[[]|e] s1];
    cbn [fst snd] in *; subst res.
  - destruct (final_flush s1) as [r s2]. cbn [fst snd] in *. subst r.
    split; [reflexivity|]. split; [exists []; rewrite app_nil_r; exact Hcat|].
    intros _. split; [exact Hcat | exact Hsizes].
  - split; [reflexivity|]. split; [exact Hprefix | discriminate].
Qed.

(** C9: the writer appends each assembled record to the buffer; the buffer
    is given to [insert_many] and emptied exactly when its count reaches
    100000, and the remainder, when not empty, is given to [insert_many] at
    the end of the run.  A record appended is written once, at the end of
    the sequence written so far.  The batches of a run are, in order, the
    records it assembles: a prefix of them if the run is ended by an
    exception, all of them if it ends normally, and then in batches of
    100000 records and a last smaller one; with 100001 records, two batches
    of 100000 and 1. *)
Theorem batched_writer_flushes_at_threshold :
  (forall (data : ProcessedRecord num) (s : State num),
      writer_invariant s ->
      let entries := collection_of_pre_processed_entries s ++ [data] in
      (Z.of_nat (length entries) <= max_collection_size)
      /\ (Z.of_nat (length entries) < max_collection_size ->
          append_entry data s
          = (Ok tt, mkState (current_background_pollution s) entries (collection_pre s)))
      /\ (Z.of_nat (length entries) = max_collection_size ->
          append_entry data s
          = (Ok tt, mkState (current_background_pollution s) []
                            (collection_pre s ++ [entries])))
      /\ persisted (append_entry data s).2 = persisted s ++ [data]
      /\ writer_invariant (append_entry data s).2)
  /\ (forall (rs : list (ProcessedRecord num)) (background : gmap string num),
      exists s',
        bind (for_each append_entry rs) (fun _ => final_flush) (mkState background [] [])
        = (Ok tt, s')
        /\ concat (collection_pre s') = rs
        /\ map length (collection_pre s') = batch_sizes (length rs)
        /\ (Z.of_nat (length rs) = 100001 ->
            map (fun batch => Z.of_nat (length batch)) (collection_pre s') = [100000; 1]))
  /\ run.1 = trace.2
  /\ (exists rest, concat run.2 ++ rest = trace.1)
  /\ Forall (fun batch => 1 <= Z.of_nat (length batch) <= max_collection_size) run.2
  /\ (run.1 = Ok tt ->
      concat run.2 = trace.1
      /\ map length run.2 = batch_sizes (length trace.1)
      /\ (Z.of_nat (length trace.1) = 100001 ->
          map (fun batch => Z.of_nat (length batch)) run.2 = [100000; 1])).
Proof.
  assert (Hscenario : forall sizes : list nat,
             sizes = batch_sizes (Z.to_nat 100001) -> map Z.of_nat sizes = [100000; 1]).
  { intros sizes ->. unfold batch_sizes.
    assert (Hdiv : (Z.to_nat 100001 / Z.to_nat max_collection_size = 1)%nat).
    { symmetry. apply (Nat.div_unique _ _ _ 1%nat); unfold max_collection_size in *; lia. }
    assert (Hmod : (Z.to_nat 100001 mod Z.to_nat max_collection_size = 1)%nat).
    { symmetry. apply (Nat.mod_unique _ _ 1%nat); unfold max_collection_size in *; lia. }
    rewrite Hdiv, Hmod. simpl.
    rewrite Z2Nat.id by (unfold max_collection_size; lia). reflexivity. }
  split; [|split].
  - intros data s Hs entries. pose proof Hs as [Hfull Hbuffer].
    assert (Hle : Z.of_nat (length entries) <= max_collection_size).
    { subst entries. rewrite length_app. simpl. lia. }
    split; [exact Hle|]. split; [|split; [|split]].
    + intros Hlt. unfold append_entry. fold entries.
      apply Z.ltb_lt in Hlt. rewrite Hlt. reflexivity.
    + intros Heq. unfold append_entry. fold entries.
      assert (Hge : (Z.of_nat (length entries) <? max_collection_size) = false)
        by (apply Z.ltb_ge; lia).
      rewrite Hge. reflexivity.
    + apply append_entry_persisted.
    + apply append_entry_invariant. exact Hs.
  - intros rs background.
    destruct (writer_run rs (mkState background [] [])) as (s' & Hrun & Hcat & Hlen).
    { split; [constructor | apply max_collection_size_pos]. }
    exists s'. split; [exact Hrun|]. split; [exact Hcat|]. split; [exact Hlen|].
    intros Hn. rewrite <- (map_map length Z.of_nat). apply Hscenario.
    rewrite Hlen. simpl. f_equal. lia.
  - destruct pre_process_refines as (Hend & Hprefix & Hnormal).
    split; [exact Hend|]. split; [exact Hprefix|]. split.
    + destruct pre_process_batches as [-> | (st & s & _ & Hinv & Hrun)]; [constructor|].
      destruct (Hinv writer_invariant) as [Hfull Hbuffer].
      * intros s0 background Hs0. exact Hs0.
      * intros. apply append_entry_invariant. assumption.
      * split; [constructor | apply max_collection_size_pos].
      * assert (Hbounds : Forall (fun batch : list (ProcessedRecord num) =>
                                    1 <= Z.of_nat (length batch) <= max_collection_size)
                                 (collection_pre s)).
        { eapply Forall_impl; [exact Hfull|]. intros batch Hb. simpl in Hb.
          pose proof max_collection_size_pos. unfold max_collection_size in *. lia. }
        destruct Hrun as [-> | ->]; simpl; [exact Hbounds|].
        apply Forall_app. split; [exact Hbounds|].
        case_match; constructor; [|constructor].
        destruct (collection_of_pre_processed_entries s); [congruence|].
        simpl in *. unfold max_collection_size in *. lia.
    + intros Hok. destruct (Hnormal Hok) as [Hcat Hsizes].
      split; [exact Hcat|]. split; [exact Hsizes|].
      intros Hn. rewrite <- (map_map length Z.of_nat). apply Hscenario.
      rewrite Hsizes. f_equal. lia.
Qed.
End Run.

(** ** IEEE 754 arithmetic *)

Module FloatFacts.
Local Open Scope float_scope.

Lemma float_of_spec (x : float) (sf : spec_float) : Prim2SF x = sf -> x = SF2Prim sf.
Proof. intros <-. symmetry. apply SF2Prim_Prim2SF. Qed.

Lemma Prim2SF_zero : Prim2SF 0 = S754_zero false.
Proof. vm_compute. reflexivity. Qed.

Lemma Prim2SF_minus_one : Prim2SF (-1) = S754_finite true 4503599627370496 (-52).
Proof. vm_compute. reflexivity. Qed.

(** A quotient by zero is an infinity or a NaN. *)
Lemma div_by_zero (x : float) :
  x / 0 = infinity \/ x / 0 = neg_infinity \/ x / 0 = nan.
Proof.
  pose proof (div_spec x 0) as Hdiv.
  rewrite Prim2SF_zero in Hdiv.
  unfold SF64div, SFdiv in Hdiv.
  destruct (Prim2SF x) as [s|s| |s m e]; apply float_of_spec in Hdiv; rewrite Hdiv.
  - right. right. vm_compute. reflexivity.
  - destruct s; [right; left | left]; vm_compute; reflexivity.
  - right. right. vm_compute. reflexivity.
  - destruct s; [right; left | left]; vm_compute; reflexivity.
Qed.

Lemma SFcompare_minus_one (x : spec_float) :
  SFleb (S754_finite true 4503599627370496 (-52)) x = true ->
  SFltb x (S754_finite true 4503599627370496 (-52)) = false.
Proof.
  unfold SFleb, SFltb.
  generalize 4503599627370496%positive (-52)%Z. intros m1 e1.
  destruct x as [s|s| |s m e]; cbn [SFcompare].
  - reflexivity.
  - destruct s; [discriminate|reflexivity].
  - reflexivity.
  - destruct s; [|reflexivity].
    rewrite (Z.compare_antisym e e1).
    destruct (e ?= e1)%Z; cbn; try reflexivity; try discriminate.
    change (Pos.compare_cont Eq m1 m) with (Pos.compare_cont (CompOpp Eq) m1 m).
    rewrite <- (Pos.compare_cont_antisym m m1 Eq).
    destruct (Pos.compare_cont Eq m m1); cbn; try reflexivity; discriminate.
Qed.

(** [v >= -1] excludes [v < -1]. *)
Lemma geb_minus_one_not_ltb (v : float) : (-1 <=? v) = true -> (v <? -1) = false.
Proof. rewrite leb_spec, ltb_spec, Prim2SF_minus_one. apply SFcompare_minus_one. Qed.

Lemma zero_is_not_minus_one : (0 : float) <> -1.
Proof.
  intros Heq. apply (f_equal Prim2SF) in Heq.
  rewrite Prim2SF_zero, Prim2SF_minus_one in Heq. discriminate.
Qed.

Lemma clamp_spec (v : float) :
  ((-1 <=? v) = true -> clamp v = v)
  /\ ((v <? -1) = true -> clamp v = 0 /\ clamp v <> -1).
Proof.
  unfold clamp. simpl. change (FloatNum.of_Z (-1)) with (-1). change (FloatNum.of_Z 0) with 0.
  split.
  - intros Hge. rewrite (geb_minus_one_not_ltb v Hge). reflexivity.
  - intros ->. split; [reflexivity | apply zero_is_not_minus_one].
Qed.
End FloatFacts.

(** ** Exact binary64 arithmetic on small dyadic numbers *)

Module Binary64.
Import Dyadic.

Lemma digits2_pos_size p : digits2_pos p = Pos.size p.
Proof. induction p; simpl; congruence. Qed.

Lemma Zdigits2_digits n : 0 < n -> Zdigits2 n = digits n.
Proof.
  destruct n as [|p|p]; try lia. intros _. unfold digits. simpl Zdigits2.
  rewrite digits2_pos_size. destruct p; simpl; lia.
Qed.

Lemma digits_bounds n : 0 < n -> 2 ^ (digits n - 1) <= n < 2 ^ digits n.
Proof.
  intros Hn. unfold digits. replace (Z.log2 n + 1 - 1) with (Z.log2 n) by lia.
  apply (Z.log2_spec n Hn).
Qed.

Lemma digits_pos n : 0 < n -> 1 <= digits n.
Proof. intros Hn. unfold digits. pose proof (Z.log2_nonneg n). lia. Qed.

Lemma digits_le n b : 0 < n -> n < 2 ^ b -> digits n <= b.
Proof. intros Hn Hb. unfold digits. apply (Z.log2_lt_pow2 n b Hn) in Hb. lia. Qed.

Lemma digits_shift n k : 0 < n -> 0 <= k -> digits (n * 2 ^ k) = digits n + k.
Proof. intros Hn Hk. unfold digits. rewrite Z.log2_mul_pow2 by lia. lia. Qed.

Lemma digits_unique n d : 0 < d -> 2 ^ (d - 1) <= n < 2 ^ d -> digits n = d.
Proof.
  intros Hd Hn. unfold digits. rewrite (Z.log2_unique n (d - 1)); [lia | lia |].
  replace (Z.succ (d - 1)) with d by lia. exact Hn.
Qed.

Lemma iter_pos_iter {A : Type} (f : A -> A) p : forall x, SpecFloat.iter_pos f p x = Pos.iter f x p.
Proof.
  induction p as [p IH|p IH|]; intros x; simpl.
  - rewrite !IH, !Pos.iter_swap. reflexivity.
  - rewrite !IH. reflexivity.
  - reflexivity.
Qed.

Lemma iter_shr_1_exact p : forall m,
  Pos.iter shr_1 (Build_shr_record (Zpos (Pos.iter xO m p)) false false) p
  = Build_shr_record (Zpos m) false false.
Proof.
  induction p as [|p IH] using Pos.peano_ind; intros m.
  - reflexivity.
  - rewrite (Pos.iter_succ p _ shr_1), <- Pos.iter_swap, (Pos.iter_succ p _ xO).
    cbn [shr_1 orb]. apply IH.
Qed.

Lemma Zpos_iter_xO m p : Zpos (Pos.iter xO m p) = Zpos m * 2 ^ Zpos p.
Proof.
  induction p as [|p IH] using Pos.peano_ind.
  - simpl. lia.
  - rewrite Pos.iter_succ, Pos2Z.inj_succ, Z.pow_succ_r by lia.
    rewrite Pos2Z.inj_xO, IH. lia.
Qed.

Lemma finite_of_shift s N p j :
  0 < N -> 0 <= j -> N * 2 ^ j < 2 ^ 53 -> finite_of s (N * 2 ^ j) (p - j) = finite_of s N p.
Proof.
  intros HN Hj Hlt. unfold finite_of.
  assert (Hd : digits (N * 2 ^ j) <= 53) by (apply digits_le; [nia | exact Hlt]).
  rewrite digits_shift in * by lia.
  f_equal; [|lia]. f_equal.
  rewrite <- Z.mul_assoc, <- Z.pow_add_r by lia. f_equal. f_equal. lia.
Qed.

Lemma fexp_normal e : -1021 <= e -> fexp prec emax e = e - 53.
Proof. intros He. unfold fexp, emin, prec, emax. lia. Qed.

(** A mantissa of 53 digits is not shifted. *)
Lemma shr_fexp_normal mm e :
  digits (Zpos mm) = 53 -> -1074 <= e ->
  shr_fexp prec emax (Zpos mm) e loc_Exact = (Build_shr_record (Zpos mm) false false, e).
Proof.
  intros Hd He. unfold shr_fexp.
  rewrite Zdigits2_digits, Hd, fexp_normal by lia.
  replace (53 + e - 53 - e) with 0 by lia. reflexivity.
Qed.

(** Rounding a mantissa that holds the value exactly, with digits to spare. *)
Lemma binary_round_aux_exact s N k p :
  0 < N < 2 ^ 53 -> 0 <= k -> 53 <= digits N + k -> -1021 <= p + digits N <= 1024 ->
  binary_round_aux prec emax s (N * 2 ^ k) (p - k) loc_Exact = finite_of s N p.
Proof.
  intros HN Hk Hdigits Hp.
  pose proof (digits_le N 53 ltac:(lia) ltac:(lia)) as Hd53.
  pose proof (digits_pos N ltac:(lia)) as Hd1.
  set (d := digits N) in *.
  assert (HR : finite_of s N p = S754_finite s (Z.to_pos (N * 2 ^ (53 - d))) (p + d - 53))
    by reflexivity.
  remember (N * 2 ^ (53 - d)) as m eqn:Hmdef.
  assert (Hm : 0 < m) by (subst m; apply Z.mul_pos_pos; [lia | apply Z.pow_pos_nonneg; lia]).
  assert (Hdm : digits m = 53) by (subst m; rewrite digits_shift by lia; lia).
  assert (HM : N * 2 ^ k = m * 2 ^ (d + k - 53)).
  { subst m. rewrite <- Z.mul_assoc, <- Z.pow_add_r by lia. f_equal. f_equal. lia. }
  destruct m as [|mm|mm]; try lia.
  assert (Hle : (p + d - 53 <=? emax - prec) = true)
    by (apply Z.leb_le; unfold emax, prec; lia).
  rewrite HR, HM. simpl Z.to_pos.
  destruct (d + k - 53) as [|j|j] eqn:Hj; try lia.
  - rewrite Z.mul_1_r. replace (p - k) with (p + d - 53) by lia.
    unfold binary_round_aux. rewrite shr_fexp_normal by lia.
    cbn [loc_of_shr_record shr_m round_nearest_even].
    rewrite shr_fexp_normal by lia. cbn [shr_m]. rewrite Hle. reflexivity.
  - rewrite <- Zpos_iter_xO.
    assert (HdM : Zdigits2 (Zpos (Pos.iter xO mm j)) = 53 + Zpos j).
    { rewrite Zdigits2_digits, Zpos_iter_xO, digits_shift, Hdm by lia. reflexivity. }
    unfold binary_round_aux. unfold shr_fexp at 1.
    rewrite HdM, fexp_normal by lia.
    replace (53 + Zpos j + (p - k) - 53 - (p - k)) with (Zpos j) by lia.
    cbn [shr shr_record_of_loc]. rewrite iter_pos_iter, iter_shr_1_exact.
    cbn [loc_of_shr_record shr_m round_nearest_even].
    replace (p - k + Zpos j) with (p + d - 53) by lia.
    rewrite shr_fexp_normal by lia. cbn [shr_m]. rewrite Hle. reflexivity.
Qed.

(** Normalizing a mantissa that holds the value exactly. *)
Lemma binary_round_exact s N k p :
  0 < N < 2 ^ 53 -> 0 <= k -> -1021 <= p + digits N <= 1024 ->
  binary_round prec emax s (Z.to_pos (N * 2 ^ k)) (p - k) = finite_of s N p.
Proof.
  intros HN Hk Hp.
  pose proof (digits_le N 53 ltac:(lia) ltac:(lia)) as Hd53.
  pose proof (digits_pos N ltac:(lia)) as Hd1.
  assert (HM : 0 < N * 2 ^ k) by (apply Z.mul_pos_pos; [lia | apply Z.pow_pos_nonneg; lia]).
  unfold binary_round.
  assert (Hdigits : Zpos (digits2_pos (Z.to_pos (N * 2 ^ k))) = digits N + k).
  { rewrite <- (digits_shift N k) by lia. rewrite <- (Zdigits2_digits _ HM).
    destruct (N * 2 ^ k); try lia. reflexivity. }
  rewrite Hdigits, fexp_normal by lia. unfold shl_align.
  destruct (digits N + k + (p - k) - 53 - (p - k)) as [|j|j] eqn:Hj.
  - rewrite Z2Pos.id by lia. apply binary_round_aux_exact; lia.
  - rewrite Z2Pos.id by lia. apply binary_round_aux_exact; lia.
  - rewrite Zpos_iter_xO, Z2Pos.id by lia.
    rewrite <- Z.mul_assoc, <- Z.pow_add_r by lia.
    replace (digits N + k + (p - k) - 53) with (p - (k + Zpos j)) by lia.
    apply binary_round_aux_exact; lia.
Qed.

Lemma binary_normalize_exact n k :
  Z.abs n < 2 ^ 53 -> 0 <= k ->
  binary_normalize prec emax (n * 2 ^ k) (-2 - k) false = dy n.
Proof.
  intros Hn Hk.
  assert (H2k : 0 < 2 ^ k) by (apply Z.pow_pos_nonneg; lia).
  destruct n as [|q|q].
  - reflexivity.
  - assert (Hd := digits_le (Zpos q) 53 ltac:(lia) ltac:(lia)).
    assert (Hd1 := digits_pos (Zpos q) ltac:(lia)).
    assert (HM : 0 < Zpos q * 2 ^ k) by lia.
    unfold binary_normalize, dy.
    destruct (Zpos q * 2 ^ k) as [|M|M] eqn:HMeq; try lia.
    replace M with (Z.to_pos (Zpos q * 2 ^ k)) by (rewrite HMeq; reflexivity).
    apply binary_round_exact; lia.
  - assert (Hd := digits_le (Zpos q) 53 ltac:(lia) ltac:(lia)).
    assert (Hd1 := digits_pos (Zpos q) ltac:(lia)).
    assert (HM : Zneg q * 2 ^ k < 0) by lia.
    unfold binary_normalize, dy.
    destruct (Zneg q * 2 ^ k) as [|M|M] eqn:HMeq; try lia.
    replace M with (Z.to_pos (Zpos q * 2 ^ k)) by lia.
    change (- Zneg q) with (Zpos q).
    apply binary_round_exact; lia.
Qed.

Lemma dy_finite n :
  n <> 0 -> Z.abs n < 2 ^ 53 ->
  exists m, dy n = S754_finite (n <? 0) m (digits (Z.abs n) - 55)
            /\ Zpos m = Z.abs n * 2 ^ (53 - digits (Z.abs n))
            /\ digits (Zpos m) = 53.
Proof.
  intros Hn Hlt.
  assert (Hd := digits_le (Z.abs n) 53 ltac:(lia) Hlt).
  assert (Hpos : 0 < Z.abs n * 2 ^ (53 - digits (Z.abs n)))
    by (apply Z.mul_pos_pos; [lia | apply Z.pow_pos_nonneg; lia]).
  exists (Z.to_pos (Z.abs n * 2 ^ (53 - digits (Z.abs n)))).
  split; [|split].
  - destruct n as [|q|q]; try lia; unfold dy, finite_of.
    + change (Z.abs (Zpos q)) with (Zpos q). change (Zpos q <? 0) with false.
      f_equal. lia.
    + change (Z.abs (Zneg q)) with (Zpos q). change (Zneg q <? 0) with true.
      change (- Zneg q) with (Zpos q). f_equal. lia.
  - rewrite Z2Pos.id by lia. reflexivity.
  - rewrite Z2Pos.id by lia. rewrite digits_shift by lia. lia.
Qed.

Lemma dy_opp n : SFopp (dy n) = match n with 0 => S754_zero true | _ => dy (- n) end.
Proof. destruct n; reflexivity. Qed.

Lemma shl_align_value mx ex ez :
  ez <= ex -> Zpos (fst (shl_align mx ex ez)) = Zpos mx * 2 ^ (ex - ez).
Proof.
  intros Hle. unfold shl_align.
  destruct (ez - ex) as [|j|j] eqn:Hj; try lia.
  - replace (ex - ez) with 0 by lia. simpl fst. lia.
  - simpl fst. rewrite Zpos_iter_xO. f_equal. f_equal. lia.
Qed.

(** The mantissa of [dy n], aligned at an exponent [ez] below its own, is
    [n * 2^(-2 - ez)] up to the sign. *)
Lemma dy_aligned n m e ez :
  n <> 0 -> Z.abs n < 2 ^ 53 ->
  dy n = S754_finite (n <? 0) m e -> ez <= e ->
  cond_Zopp (n <? 0) (Zpos (fst (shl_align m e ez))) = n * 2 ^ (-2 - ez).
Proof.
  intros Hn Hlt Hdy Hle.
  destruct (dy_finite n Hn Hlt) as (m' & Hdy' & Hm & _).
  rewrite Hdy in Hdy'. injection Hdy' as -> ->.
  assert (Hd := digits_le (Z.abs n) 53 ltac:(lia) Hlt).
  rewrite shl_align_value, Hm by lia.
  rewrite <- Z.mul_assoc, <- Z.pow_add_r by lia.
  replace (53 - digits (Z.abs n) + (digits (Z.abs n) - 55 - ez)) with (-2 - ez) by lia.
  unfold cond_Zopp. destruct (n <? 0) eqn:Hsign.
  - apply Z.ltb_lt in Hsign. rewrite Z.abs_neq by lia. lia.
  - apply Z.ltb_ge in Hsign. rewrite Z.abs_eq by lia. reflexivity.
Qed.

Lemma SFadd_dy n1 n2 :
  Z.abs n1 < 2 ^ 53 -> Z.abs n2 < 2 ^ 53 -> Z.abs (n1 + n2) < 2 ^ 53 ->
  SFadd prec emax (dy n1) (dy n2) = dy (n1 + n2).
Proof.
  intros H1 H2 H12.
  destruct (Z.eq_dec n1 0) as [->|Hn1].
  { destruct (Z.eq_dec n2 0) as [->|Hn2]; [reflexivity|].
    rewrite Z.add_0_l. destruct (dy_finite n2 Hn2 H2) as (m2 & -> & _). reflexivity. }
  destruct (Z.eq_dec n2 0) as [->|Hn2].
  { rewrite Z.add_0_r. destruct (dy_finite n1 Hn1 H1) as (m1 & -> & _). reflexivity. }
  destruct (dy_finite n1 Hn1 H1) as (m1 & Hdy1 & _).
  destruct (dy_finite n2 Hn2 H2) as (m2 & Hdy2 & _).
  assert (Hd1 := digits_le (Z.abs n1) 53 ltac:(lia) H1).
  assert (Hd2 := digits_le (Z.abs n2) 53 ltac:(lia) H2).
  rewrite Hdy1, Hdy2. unfold SFadd.
  set (ez := Z.min (digits (Z.abs n1) - 55) (digits (Z.abs n2) - 55)).
  rewrite (dy_aligned n1 m1 _ ez Hn1 H1 Hdy1) by lia.
  rewrite (dy_aligned n2 m2 _ ez Hn2 H2 Hdy2) by lia.
  rewrite <- Z.mul_add_distr_r.
  replace ez with (-2 - (-2 - ez)) at 2 by lia.
  apply binary_normalize_exact; lia.
Qed.

Lemma SFsub_dy n1 n2 :
  Z.abs n1 < 2 ^ 53 -> Z.abs n2 < 2 ^ 53 -> Z.abs (n1 - n2) < 2 ^ 53 ->
  SFsub prec emax (dy n1) (dy n2) = dy (n1 - n2).
Proof.
  intros H1 H2 H12.
  destruct (Z.eq_dec n1 0) as [->|Hn1].
  { destruct (Z.eq_dec n2 0) as [->|Hn2]; [reflexivity|].
    destruct n2 as [|q|q]; try lia; reflexivity. }
  destruct (Z.eq_dec n2 0) as [->|Hn2].
  { rewrite Z.sub_0_r. destruct (dy_finite n1 Hn1 H1) as (m1 & -> & _). reflexivity. }
  destruct (dy_finite n1 Hn1 H1) as (m1 & Hdy1 & _).
  destruct (dy_finite n2 Hn2 H2) as (m2 & Hdy2 & _).
  assert (Hd1 := digits_le (Z.abs n1) 53 ltac:(lia) H1).
  assert (Hd2 := digits_le (Z.abs n2) 53 ltac:(lia) H2).
  rewrite Hdy1, Hdy2. unfold SFsub.
  set (ez := Z.min (digits (Z.abs n1) - 55) (digits (Z.abs n2) - 55)).
  rewrite (dy_aligned n1 m1 _ ez Hn1 H1 Hdy1) by lia.
  rewrite (dy_aligned n2 m2 _ ez Hn2 H2 Hdy2) by lia.
  rewrite <- Z.mul_sub_distr_r.
  replace ez with (-2 - (-2 - ez)) at 2 by lia.
  apply binary_normalize_exact; lia.
Qed.

Lemma Prim2SF_two : dy 8 = S754_finite false 4503599627370496 (-51).
Proof. reflexivity. Qed.

Lemma div_eucl_exact a b : 0 < b -> Z.div_eucl (a * b) b = (a, 0).
Proof.
  intros Hb. pose proof (Z.div_mul a b ltac:(lia)) as Hq.
  pose proof (Z.mod_mul a b ltac:(lia)) as Hr.
  unfold Z.div, Z.modulo in *. destruct (Z.div_eucl (a * b) b). congruence.
Qed.

Lemma new_location_zero m : new_location m 0 = loc_Exact.
Proof. unfold new_location. destruct (Z.even m); reflexivity. Qed.

(** Half of [n / 4], for an even [n]. *)
Lemma SFdiv_dy_two n :
  Z.abs (2 * n) < 2 ^ 53 ->
  SFdiv prec emax (dy (2 * n)) (dy 8) = dy n.
Proof.
  intros Habs.
  destruct (Z.eq_dec n 0) as [->|Hn]; [reflexivity|].
  destruct (dy_finite (2 * n) ltac:(lia) Habs) as (m & Hdy & Hm & Hdm).
  assert (Hd := digits_le (Z.abs (2 * n)) 53 ltac:(lia) Habs).
  assert (Hd1 := digits_pos (Z.abs (2 * n)) ltac:(lia)).
  assert (Hdn : digits (Z.abs (2 * n)) = digits (Z.abs n) + 1).
  { replace (Z.abs (2 * n)) with (Z.abs n * 2 ^ 1) by lia. apply digits_shift; lia. }
  set (d := digits (Z.abs (2 * n))) in *.
  rewrite Hdy, Prim2SF_two. unfold SFdiv, SFdiv_core_binary.
  rewrite (Zdigits2_digits (Zpos m)), Hdm by lia.
  change (Zdigits2 4503599627370496) with 53.
  replace (53 + (d - 55) - (53 + -51)) with (d - 4) by lia.
  rewrite fexp_normal by lia.
  replace (Z.min (d - 4 - 53) (d - 55 - -51)) with (d - 57) by lia.
  replace (d - 55 - -51 - (d - 57)) with 53 by lia.
  rewrite Z.shiftl_mul_pow2 by lia.
  replace (Zpos m * 2 ^ 53) with (Zpos m * 2 * 4503599627370496) by lia.
  rewrite div_eucl_exact by lia. rewrite new_location_zero.
  rewrite Bool.xorb_false_r.
  assert (Hvalue : Zpos m * 2 = Z.abs n * 2 ^ (55 - d)).
  { rewrite Hm. replace (55 - d) with (1 + 1 + (53 - d)) by lia.
    rewrite !Z.pow_add_r by lia. change (2 ^ 1) with 2. lia. }
  rewrite Hvalue. replace (d - 57) with (-2 - (55 - d)) by lia.
  assert (Hsign : (2 * n <? 0) = (n <? 0)).
  { destruct (2 * n <? 0) eqn:H1; destruct (n <? 0) eqn:H2; try reflexivity;
      rewrite ?Z.ltb_lt, ?Z.ltb_ge in *; lia. }
  rewrite Hsign.
  replace (dy n) with (finite_of (n <? 0) (Z.abs n) (-2))
    by (destruct n; try lia; reflexivity).
  apply binary_round_aux_exact; lia.
Qed.

(** A quotient of two floats of the same magnitude. *)
Lemma SFdiv_same s1 s2 m e :
  digits (Zpos m) = 53 ->
  SFdiv prec emax (S754_finite s1 m e) (S754_finite s2 m e) = finite_of (xorb s1 s2) 4 (-2).
Proof.
  intros Hdm. unfold SFdiv, SFdiv_core_binary.
  rewrite (Zdigits2_digits (Zpos m)), Hdm by lia.
  replace (53 + e - (53 + e)) with 0 by lia. rewrite Z.sub_diag.
  change (Z.min (fexp prec emax 0) 0) with (-53). change (0 - -53) with 53.
  rewrite Z.shiftl_mul_pow2 by lia. rewrite (Z.mul_comm (Zpos m)).
  rewrite div_eucl_exact by lia. rewrite new_location_zero.
  change (2 ^ 53) with (4 * 2 ^ 51). change (-53) with (-2 - 51).
  apply binary_round_aux_exact; try lia.
  - change (digits 4) with 3. lia.
  - change (digits 4) with 3. lia.
Qed.

Lemma dy_pos n : 0 < n -> dy n = finite_of false n (-2).
Proof. destruct n; try lia. reflexivity. Qed.

Lemma dy_neg n : n < 0 -> dy n = finite_of true (- n) (-2).
Proof. destruct n; try lia. reflexivity. Qed.

(** [int] to [float] is exact below [2^51]. *)
Lemma Prim2SF_of_Z z : Z.abs z < 2 ^ 51 -> Prim2SF (FloatNum.of_Z z) = dy (4 * z).
Proof.
  intros Hz.
  assert (Hpos : forall p, Zpos p < 2 ^ 51 ->
            Prim2SF (of_uint63 (Uint63.of_Z (Zpos p))) = finite_of false (Zpos p) 0).
  { intros p Hp.
    assert (Hw : 2 ^ 51 < Uint63Axioms.wB) by reflexivity.
    rewrite of_uint63_spec, Uint63.of_Z_spec, Z.mod_small by lia.
    pose proof (digits_le (Zpos p) 53 ltac:(lia) ltac:(lia)) as Hd.
    pose proof (digits_pos (Zpos p) ltac:(lia)) as Hd1.
    pose proof (binary_round_exact false (Zpos p) 0 0 ltac:(lia) ltac:(lia) ltac:(lia))
      as Hround.
    change (2 ^ 0) with 1 in Hround. rewrite Z.mul_1_r in Hround. exact Hround. }
  assert (Hshift : forall s p, Zpos p < 2 ^ 51 ->
            finite_of s (Zpos p) 0 = finite_of s (4 * Zpos p) (-2)).
  { intros s p Hp. replace (4 * Zpos p) with (Zpos p * 2 ^ 2) by lia.
    change (-2) with (0 - 2). symmetry. apply finite_of_shift; lia. }
  destruct z as [|p|p].
  - vm_compute. reflexivity.
  - unfold FloatNum.of_Z. rewrite Hpos, (Hshift false), dy_pos by lia. reflexivity.
  - unfold FloatNum.of_Z. rewrite opp_spec, Hpos, dy_neg by lia.
    replace (- (4 * Zneg p)) with (4 * Zpos p) by lia.
    rewrite <- (Hshift true) by lia. reflexivity.
Qed.

Lemma shr_1_m mrs : 0 <= shr_m mrs -> shr_m (shr_1 mrs) = Z.div2 (shr_m mrs).
Proof. destruct mrs as [[|[p|p|]|p] r s]; cbn [shr_m]; intros Hm; try lia; reflexivity. Qed.

Lemma loc_of_shr_record_of_loc m l : loc_of_shr_record (shr_record_of_loc m l) = l.
Proof. destruct l as [|[]]; reflexivity. Qed.

Lemma shr_m_of_loc m l : shr_m (shr_record_of_loc m l) = m.
Proof. destruct l as [|[]]; reflexivity. Qed.

Lemma round_nearest_even_bounds m l :
  m <= round_nearest_even m l <= m + 1.
Proof. destruct l as [|[]]; simpl; try destruct (Z.even m); lia. Qed.

(** *** Rounding to nearest *)

Lemma shr_1_spec m r s :
  0 <= m -> shr_1 (Build_shr_record m r s) = Build_shr_record (m / 2) (Z.odd m) (r || s).
Proof.
  intros Hm. rewrite <- Z.div2_div.
  destruct m as [|[p|p|]|p]; try lia; reflexivity.
Qed.

(** What [j] shifts keep of [M]: the quotient by [2^j], the bit below it
    and whether anything is left below that bit. *)
Lemma iter_shr_1_spec M j :
  0 <= M ->
  exists q r s t,
    Pos.iter shr_1 (Build_shr_record M false false) j = Build_shr_record q r s
    /\ 0 <= q /\ 0 <= t < 2 ^ (Zpos j - 1)
    /\ M = q * 2 ^ Zpos j + Z.b2z r * 2 ^ (Zpos j - 1) + t
    /\ s = negb (t =? 0).
Proof.
  intros HM. induction j as [|j IH] using Pos.peano_ind.
  - cbn [Pos.iter]. rewrite shr_1_spec by lia.
    exists (M / 2), (Z.odd M), false, 0.
    change (2 ^ (1 - 1)) with 1. change (2 ^ 1) with 2.
    pose proof (Z.div_mod M 2 ltac:(lia)) as Hdiv. rewrite Zmod_odd in Hdiv.
    repeat split; try lia.
    + apply Z.div_pos; lia.
    + destruct (Z.odd M); cbn [Z.b2z]; lia.
  - destruct IH as (q & r & s & t & Hiter & Hq & Ht & HMeq & Hs).
    rewrite Pos.iter_succ, Hiter, shr_1_spec by lia.
    exists (q / 2), (Z.odd q), (r || s), (Z.b2z r * 2 ^ (Zpos j - 1) + t).
    rewrite Pos2Z.inj_succ.
    replace (Z.succ (Zpos j) - 1) with (Zpos j) by lia.
    rewrite Z.pow_succ_r by lia.
    assert (Hpow : 2 ^ Zpos j = 2 * 2 ^ (Zpos j - 1)).
    { rewrite <- Z.pow_succ_r by lia. f_equal. lia. }
    assert (Hpos : 0 < 2 ^ (Zpos j - 1)) by (apply Z.pow_pos_nonneg; lia).
    pose proof (Z.div_mod q 2 ltac:(lia)) as Hdiv. rewrite Zmod_odd in Hdiv.
    repeat split.
    + apply Z.div_pos; lia.
    + destruct r; cbn [Z.b2z]; lia.
    + destruct r; cbn [Z.b2z]; lia.
    + set (T := 2 ^ (Zpos j - 1)) in *. rewrite Hpow.
      destruct (Z.odd q); cbn [Z.b2z]; nia.
    + subst s. destruct r; cbn [Z.b2z orb].
      * symmetry. apply negb_true_iff, Z.eqb_neq. lia.
      * rewrite Z.mul_0_l, Z.add_0_l. reflexivity.
Qed.

(** Rounding to nearest, ties to even, after [j] shifts: the mantissa kept
    is within half a unit of [M / 2^j]. *)
Lemma round_shifted M j :
  0 <= M ->
  let mrs := Pos.iter shr_1 (Build_shr_record M false false) j in
  Z.abs (round_nearest_even (shr_m mrs) (loc_of_shr_record mrs) * 2 ^ Zpos j - M)
  <= 2 ^ (Zpos j - 1).
Proof.
  intros HM mrs. subst mrs.
  destruct (iter_shr_1_spec M j HM) as (q & r & s & t & -> & Hq & Ht & HMeq & Hs).
  assert (Hpow : 2 ^ Zpos j = 2 * 2 ^ (Zpos j - 1)).
  { rewrite <- Z.pow_succ_r by lia. f_equal. lia. }
  rewrite Hpow in *. set (T := 2 ^ (Zpos j - 1)) in *.
  cbn [shr_m]. unfold loc_of_shr_record.
  destruct r, s; cbn [Z.b2z round_nearest_even] in *.
  - symmetry in Hs. apply negb_true_iff, Z.eqb_neq in Hs. nia.
  - symmetry in Hs. apply negb_false_iff, Z.eqb_eq in Hs.
    destruct (Z.even q); nia.
  - nia.
  - symmetry in Hs. apply negb_false_iff, Z.eqb_eq in Hs. nia.
Qed.

(** Rounding a mantissa of [53 + j] digits that is not within half a unit
    of the next power of two: [j] digits are dropped. *)
Lemma binary_round_aux_shift s M e j :
  digits M = 53 + Zpos j -> 0 < M -> M + 2 ^ (Zpos j - 1) < 2 ^ (53 + Zpos j) ->
  -1021 <= 53 + Zpos j + e -> e + Zpos j <= 971 ->
  exists mq,
    binary_round_aux prec emax s M e loc_Exact = S754_finite s mq (e + Zpos j)
    /\ digits (Zpos mq) = 53
    /\ Z.abs (Zpos mq * 2 ^ Zpos j - M) <= 2 ^ (Zpos j - 1).
Proof.
  intros Hd HM Hcarry Hlow Hhigh.
  pose proof (digits_bounds M HM) as [HMlow _]. rewrite Hd in HMlow.
  pose proof (round_shifted M j ltac:(lia)) as Hround. cbv zeta in Hround.
  unfold binary_round_aux. unfold shr_fexp at 1.
  rewrite Zdigits2_digits, Hd, fexp_normal by lia.
  replace (53 + Zpos j + e - 53 - e) with (Zpos j) by lia.
  cbn [shr shr_record_of_loc]. rewrite iter_pos_iter.
  set (mrs := Pos.iter shr_1 (Build_shr_record M false false) j) in *.
  set (mq := round_nearest_even (shr_m mrs) (loc_of_shr_record mrs)) in *.
  assert (Hpow : 2 ^ Zpos j = 2 * 2 ^ (Zpos j - 1)).
  { rewrite <- Z.pow_succ_r by lia. f_equal. lia. }
  assert (Hpow52 : 2 ^ (53 + Zpos j - 1) = 2 ^ 53 * 2 ^ (Zpos j - 1)).
  { rewrite <- Z.pow_add_r by lia. f_equal. lia. }
  assert (Hpow53 : 2 ^ (53 + Zpos j) = 2 ^ 54 * 2 ^ (Zpos j - 1)).
  { rewrite <- Z.pow_add_r by lia. f_equal. lia. }
  assert (Hpos : 0 < 2 ^ (Zpos j - 1)) by (apply Z.pow_pos_nonneg; lia).
  rewrite Hpow in Hround. rewrite Hpow52 in HMlow. rewrite Hpow53 in Hcarry.
  change (2 ^ 53) with 9007199254740992 in *.
  change (2 ^ 54) with 18014398509481984 in *.
  set (T := 2 ^ (Zpos j - 1)) in *.
  assert (Hmq : 4503599627370496 <= mq < 9007199254740992) by nia.
  assert (Hdq : digits mq = 53).
  { apply digits_unique; [lia|]. change (2 ^ (53 - 1)) with 4503599627370496.
    change (2 ^ 53) with 9007199254740992. exact Hmq. }
  destruct mq as [|mm|mm] eqn:Hmm; try lia.
  exists mm. split; [|split].
  - rewrite shr_fexp_normal by lia. cbn [shr_m].
    replace (e + Zpos j <=? emax - prec) with true
      by (symmetry; apply Z.leb_le; unfold emax, prec; lia).
    reflexivity.
  - exact Hdq.
  - rewrite Hpow. exact Hround.
Qed.

(** The square of a normal number, rounded: the mantissa kept is within
    half a unit of [m * m / 2^n], where [n] is 52 or 53. *)
Lemma SFmul_square s m e :
  digits (Zpos m) = 53 -> -500 <= e <= 400 ->
  exists mq n,
    SFmul prec emax (S754_finite s m e) (S754_finite s m e)
    = S754_finite false mq (2 * e + n)
    /\ digits (Zpos mq) = 53
    /\ (n = 52 \/ n = 53 /\ 2 ^ 52 < Zpos m)
    /\ Z.abs (Zpos mq * 2 ^ n - Zpos m * Zpos m) <= 2 ^ (n - 1).
Proof.
  intros Hdm He.
  pose proof (digits_bounds (Zpos m) ltac:(lia)) as [Hlow Hup]. rewrite Hdm in *.
  change (2 ^ (53 - 1)) with 4503599627370496 in Hlow.
  change (2 ^ 53) with 9007199254740992 in Hup.
  unfold SFmul. rewrite Bool.xorb_nilpotent, Pos2Z.inj_mul.
  replace (e + e) with (2 * e) by lia.
  destruct (Z_lt_le_dec (Zpos m) 6369051672525773) as [Hsmall|Hlarge].
  - assert (HP : 20282409603651670423947251286016 <= Zpos m * Zpos m
                 <= 40564819207303333655658004195984) by nia.
    destruct (binary_round_aux_shift false (Zpos m * Zpos m) (2 * e) 52) as (mq & Heq & Hdq & Hq).
    + apply digits_unique; [lia|].
      change (2 ^ (53 + 52 - 1)) with 20282409603651670423947251286016.
      change (2 ^ (53 + 52)) with 40564819207303340847894502572032. lia.
    + lia.
    + change (2 ^ (52 - 1)) with 2251799813685248.
      change (2 ^ (53 + 52)) with 40564819207303340847894502572032. lia.
    + lia.
    + lia.
    + exists mq, 52. repeat split; [exact Heq | exact Hdq | left; reflexivity | exact Hq].
  - assert (HP : 40564819207303340847894502572032 <= Zpos m * Zpos m
                 <= 81129638414606663681390495662081) by nia.
    destruct (binary_round_aux_shift false (Zpos m * Zpos m) (2 * e) 53) as (mq & Heq & Hdq & Hq).
    + apply digits_unique; [lia|].
      change (2 ^ (53 + 53 - 1)) with 40564819207303340847894502572032.
      change (2 ^ (53 + 53)) with 81129638414606681695789005144064. lia.
    + lia.
    + change (2 ^ (53 - 1)) with 4503599627370496.
      change (2 ^ (53 + 53)) with 81129638414606681695789005144064. lia.
    + lia.
    + lia.
    + exists mq, 53. repeat split; [exact Heq | exact Hdq | | exact Hq].
      right. split; [reflexivity|]. change (2 ^ 52) with 4503599627370496. lia.
Qed.

(** Twice a normal number. *)
Lemma SFadd_same s m e :
  digits (Zpos m) = 53 -> -1021 <= e + 54 <= 1024 ->
  SFadd prec emax (S754_finite s m e) (S754_finite s m e) = S754_finite s m (e + 1).
Proof.
  intros Hdm He. unfold SFadd. rewrite Z.min_id.
  unfold shl_align. rewrite Z.sub_diag. cbn [fst snd].
  assert (Hsum : cond_Zopp s (Zpos m) + cond_Zopp s (Zpos m) = cond_Zopp s (Zpos m * 2 ^ 1)).
  { change (2 ^ 1) with 2. destruct s; cbn [cond_Zopp]; lia. }
  rewrite Hsum. unfold binary_normalize.
  pose proof (binary_round_exact s (Zpos m) 1 (e + 1) ltac:(split; [lia|];
    pose proof (digits_bounds (Zpos m) ltac:(lia)) as [_ Hup]; rewrite Hdm in Hup; exact Hup)
    ltac:(lia) ltac:(lia)) as Hround.
  replace (e + 1 - 1) with e in Hround by lia.
  unfold finite_of in Hround. rewrite Hdm in Hround.
  change (2 ^ (53 - 53)) with 1 in Hround. rewrite Z.mul_1_r in Hround.
  replace (e + 1 + 53 - 53) with (e + 1) in Hround by lia.
  change (Z.to_pos (Zpos m)) with m in Hround.
  change (2 ^ 1) with 2 in *.
  destruct s; cbn [cond_Zopp].
  - change (- (Zpos m * 2)) with (Zneg (m * 2)).
    change (Z.to_pos (Zpos m * 2)) with (m * 2)%positive in Hround. exact Hround.
  - change (Zpos m * 2) with (Zpos (m * 2)).
    change (Z.to_pos (Zpos m * 2)) with (m * 2)%positive in Hround. exact Hround.
Qed.

(** Half of a normal number. *)
Lemma SFdiv_two s m e :
  digits (Zpos m) = 53 -> -1021 <= e + 51 -> e + 52 <= 1024 ->
  SFdiv prec emax (S754_finite s m e) (dy 8) = S754_finite s m (e - 1).
Proof.
  intros Hdm He He'.
  pose proof (digits_bounds (Zpos m) ltac:(lia)) as [_ Hup]. rewrite Hdm in Hup.
  rewrite Prim2SF_two. unfold SFdiv, SFdiv_core_binary.
  rewrite (Zdigits2_digits (Zpos m)), Hdm by lia.
  change (Zdigits2 4503599627370496) with 53.
  replace (53 + e - (53 + -51)) with (e + 51) by lia.
  rewrite fexp_normal by lia.
  replace (Z.min (e + 51 - 53) (e - -51)) with (e - 2) by lia.
  replace (e - -51 - (e - 2)) with 53 by lia.
  rewrite Z.shiftl_mul_pow2 by lia.
  replace (Zpos m * 2 ^ 53) with (Zpos m * 2 * 4503599627370496) by lia.
  rewrite div_eucl_exact by lia. rewrite new_location_zero.
  rewrite Bool.xorb_false_r.
  pose proof (binary_round_aux_exact s (Zpos m) 1 (e - 1) ltac:(lia) ltac:(lia) ltac:(lia)
                ltac:(lia)) as Hround.
  change (2 ^ 1) with 2 in Hround. replace (e - 1 - 1) with (e - 2) in Hround by lia.
  rewrite Hround. unfold finite_of. rewrite Hdm.
  change (2 ^ (53 - 53)) with 1. rewrite Z.mul_1_r.
  f_equal. lia.
Qed.

(** A mantissa of 53 digits with nothing, or less than half a unit, below
    it is kept. *)
Lemma binary_round_aux_down s m e l :
  digits (Zpos m) = 53 -> -1074 <= e <= 971 ->
  l = loc_Exact \/ l = loc_Inexact Lt ->
  binary_round_aux prec emax s (Zpos m) e l = S754_finite s m e.
Proof.
  intros Hdm He Hl. unfold binary_round_aux. unfold shr_fexp at 1.
  rewrite Zdigits2_digits, Hdm, fexp_normal by lia.
  replace (53 + e - 53 - e) with 0 by lia. cbn [shr].
  rewrite loc_of_shr_record_of_loc, shr_m_of_loc.
  replace (round_nearest_even (Zpos m) l) with (Zpos m)
    by (destruct Hl as [-> | ->]; reflexivity).
  rewrite shr_fexp_normal by lia. cbn [shr_m].
  replace (e <=? emax - prec) with true
    by (symmetry; apply Z.leb_le; unfold emax, prec; lia).
  reflexivity.
Qed.

(** A mantissa of 53 digits with more than half a unit below it is
    incremented. *)
Lemma binary_round_aux_up s m e :
  digits (Zpos m - 1) = 53 -> digits (Zpos m) = 53 -> -1074 <= e <= 971 ->
  binary_round_aux prec emax s (Zpos m - 1) e (loc_Inexact Gt) = S754_finite s m e.
Proof.
  intros Hdm1 Hdm He. unfold binary_round_aux. unfold shr_fexp at 1.
  assert (Hpos : 0 < Zpos m - 1).
  { destruct (Z.eq_dec (Zpos m - 1) 0) as [Heq|]; [|lia].
    rewrite Heq in Hdm1. discriminate. }
  rewrite Zdigits2_digits, Hdm1, fexp_normal by lia.
  replace (53 + e - 53 - e) with 0 by lia. cbn [shr].
  rewrite loc_of_shr_record_of_loc, shr_m_of_loc. cbn [round_nearest_even].
  replace (Zpos m - 1 + 1) with (Zpos m) by lia.
  rewrite shr_fexp_normal by lia. cbn [shr_m].
  replace (e <=? emax - prec) with true
    by (symmetry; apply Z.leb_le; unfold emax, prec; lia).
  reflexivity.
Qed.

(** The integer square root of a number within [2^52] of a square [m * m],
    for [m] of 53 digits: [m] or [m - 1], with the remainder. *)
Lemma sqrtrem_near_square m delta :
  2 ^ 52 <= m -> Z.abs delta <= 2 ^ 52 ->
  let '(q, r) := Z.sqrtrem (m * m + delta) in
  (0 <= delta /\ q = m /\ r = delta)
  \/ (delta < 0 /\ q = m - 1 /\ r = 2 * m - 1 + delta).
Proof.
  intros Hm Hdelta. change (2 ^ 52) with 4503599627370496 in *.
  pose proof (Z.sqrtrem_spec (m * m + delta) ltac:(nia)) as Hspec.
  destruct (Z.sqrtrem (m * m + delta)) as [q r]. destruct Hspec as [Heq Hr].
  assert (Hq0 : 0 <= q) by lia.
  assert (Hupper : q < m + 1).
  { destruct (Z_lt_le_dec q (m + 1)) as [|Hge]; [assumption|].
    assert ((m + 1) * (m + 1) <= q * q) by nia. nia. }
  assert (Hlower : m - 1 <= q).
  { destruct (Z_lt_le_dec q (m - 1)) as [Hlt|]; [|assumption].
    assert (q * q <= (m - 2) * (m - 2)) by nia. nia. }
  destruct (Z.eq_dec q m) as [->|Hne].
  - left. lia.
  - right. assert (q = m - 1) by lia. subst q. nia.
Qed.

(** The square root of a rounded square is the number squared. *)
Lemma SFsqrt_rounded_square m e mq n :
  digits (Zpos m) = 53 -> digits (Zpos mq) = 53 -> -500 <= e <= 400 ->
  (n = 52 \/ n = 53 /\ 2 ^ 52 < Zpos m) ->
  Z.abs (Zpos mq * 2 ^ n - Zpos m * Zpos m) <= 2 ^ (n - 1) ->
  SFsqrt prec emax (S754_finite false mq (2 * e + n)) = S754_finite false m e.
Proof.
  intros Hdm Hdq He Hn Hnear.
  pose proof (digits_bounds (Zpos m) ltac:(lia)) as [Hlow Hup]. rewrite Hdm in *.
  change (2 ^ (53 - 1)) with 4503599627370496 in Hlow.
  change (2 ^ 53) with 9007199254740992 in Hup.
  unfold SFsqrt, SFsqrt_core_binary.
  rewrite (Zdigits2_digits (Zpos mq)), Hdq, !Z.div2_div by lia.
  assert (Hhalf : (53 + (2 * e + n) + 1) / 2 = e + 53).
  { destruct Hn as [-> | [-> _]].
    - replace (53 + (2 * e + 52) + 1) with ((e + 53) * 2) by lia. apply Z.div_mul. lia.
    - replace (53 + (2 * e + 53) + 1) with (1 + (e + 53) * 2) by lia.
      rewrite Z.div_add by lia. reflexivity. }
  assert (Hhalf' : (2 * e + n) / 2 = e + 26).
  { destruct Hn as [-> | [-> _]].
    - replace (2 * e + 52) with ((e + 26) * 2) by lia. apply Z.div_mul. lia.
    - replace (2 * e + 53) with (1 + (e + 26) * 2) by lia.
      rewrite Z.div_add by lia. reflexivity. }
  rewrite Hhalf, Hhalf', fexp_normal by lia.
  replace (Z.min (e + 53 - 53) (e + 26)) with e by lia.
  replace (2 * e + n - 2 * e) with n by lia.
  assert (Hshift : match n with
                   | 0 => Zpos mq
                   | Zpos _ => Z.shiftl (Zpos mq) n
                   | Zneg _ => 0
                   end = Zpos m * Zpos m + (Zpos mq * 2 ^ n - Zpos m * Zpos m)).
  { destruct Hn as [-> | [-> _]]; rewrite Z.shiftl_mul_pow2 by lia; lia. }
  rewrite Hshift.
  set (delta := Zpos mq * 2 ^ n - Zpos m * Zpos m) in *.
  assert (Hdelta : Z.abs delta <= 2 ^ 52).
  { destruct Hn as [-> | [-> _]]; [|exact Hnear].
    change (2 ^ (52 - 1)) with 2251799813685248 in Hnear.
    change (2 ^ 52) with 4503599627370496. lia. }
  assert (Hstrict : delta <> 0 -> Z.abs delta < Zpos m /\ 4503599627370496 < Zpos m).
  { intros Hne. destruct Hn as [-> | [-> Hm]].
    - change (2 ^ (52 - 1)) with 2251799813685248 in Hnear.
      split; [lia|].
      destruct (Z.eq_dec (Zpos m) 4503599627370496) as [Heq|]; [|lia].
      exfalso. apply Hne. subst delta. rewrite Heq in *.
      change (2 ^ 52) with 4503599627370496 in *. lia.
    - change (2 ^ 52) with 4503599627370496 in *.
      change (2 ^ (53 - 1)) with 4503599627370496 in Hnear. lia. }
  pose proof (sqrtrem_near_square (Zpos m) delta
                ltac:(change (2 ^ 52) with 4503599627370496; lia) Hdelta) as Hsqrt.
  destruct (Z.sqrtrem (Zpos m * Zpos m + delta)) as [q r].
  destruct Hsqrt as [(Hsign & -> & ->) | (Hsign & -> & ->)].
  - apply binary_round_aux_down; [exact Hdm | lia |].
    destruct (Z.eqb_spec delta 0) as [|Hne]; [left; reflexivity|].
    right. replace (delta <=? Zpos m) with true; [reflexivity|].
    symmetry. apply Z.leb_le. specialize (Hstrict Hne). lia.
  - specialize (Hstrict ltac:(lia)).
    replace (2 * Zpos m - 1 + delta =? 0) with false
      by (symmetry; apply Z.eqb_neq; lia).
    replace (2 * Zpos m - 1 + delta <=? Zpos m - 1) with false
      by (symmetry; apply Z.leb_gt; lia).
    apply binary_round_aux_up; [|exact Hdm | lia].
    apply digits_unique; [lia|].
    change (2 ^ (53 - 1)) with 4503599627370496.
    change (2 ^ 53) with 9007199254740992. lia.
Qed.

Lemma SFmul_sign m e :
  SFmul prec emax (S754_finite true m e) (S754_finite true m e)
  = SFmul prec emax (S754_finite false m e) (S754_finite false m e).
Proof. reflexivity. Qed.

(** The mean and the standard deviation of two integers [s < e], and the
    two integers normalized with them, computed on binary64: the mean and
    the two deviations [-(e - s) / 2] and [(e - s) / 2] are exact, the square
    of the deviation is rounded once, and the square root of that rounded
    square is the deviation again. *)
Lemma SF_normalize_pair (s e : Z) :
  - 2 ^ 50 < s -> s < e -> e < 2 ^ 50 ->
  let mean := SF64div (SF64add (SF64add (dy 0) (dy (4 * s))) (dy (4 * e))) (dy 8) in
  let square := fun x => SF64mul (SF64sub x mean) (SF64sub x mean) in
  let std := SF64sqrt (SF64div (SF64add (SF64add (dy 0) (square (dy (4 * s))))
                                        (square (dy (4 * e)))) (dy 8)) in
  SF64div (SF64sub (dy (4 * s)) mean) std = dy (-4)
  /\ SF64div (SF64sub (dy (4 * e)) mean) std = dy 4.
Proof.
  intros Hs Hlt He mean square std.
  change (2 ^ 50) with 1125899906842624 in *.
  assert (H53 : 2 ^ 53 = 9007199254740992) by reflexivity.
  set (D := e - s) in *.
  assert (Hmean : mean = dy (2 * s + 2 * e)).
  { subst mean. unfold SF64div, SF64add.
    rewrite SFadd_dy by (rewrite H53; lia).
    rewrite SFadd_dy by (rewrite H53; lia).
    replace (0 + 4 * s + 4 * e) with (2 * (2 * s + 2 * e)) by lia.
    apply SFdiv_dy_two. rewrite H53. lia. }
  assert (Hlow : SF64sub (dy (4 * s)) mean = dy (2 * (- D))).
  { rewrite Hmean. unfold SF64sub. rewrite SFsub_dy by (rewrite H53; lia).
    f_equal. subst D. lia. }
  assert (Hhigh : SF64sub (dy (4 * e)) mean = dy (2 * D)).
  { rewrite Hmean. unfold SF64sub. rewrite SFsub_dy by (rewrite H53; lia).
    f_equal. subst D. lia. }
  destruct (dy_finite (2 * D) ltac:(subst D; lia) ltac:(rewrite H53; subst D; lia))
    as (m & Hdy & Hm & Hdm).
  destruct (dy_finite (2 * - D) ltac:(subst D; lia) ltac:(rewrite H53; subst D; lia))
    as (m' & Hdy' & Hm' & _).
  assert (Hsame : Z.abs (2 * - D) = Z.abs (2 * D)) by lia.
  rewrite Hsame in Hdy', Hm'.
  assert (m' = m) by lia. subst m'.
  replace (2 * - D <? 0) with true in Hdy' by (symmetry; apply Z.ltb_lt; subst D; lia).
  replace (2 * D <? 0) with false in Hdy by (symmetry; apply Z.ltb_ge; subst D; lia).
  assert (Hd1 := digits_pos (Z.abs (2 * D)) ltac:(subst D; lia)).
  assert (Hd := digits_le (Z.abs (2 * D)) 53 ltac:(subst D; lia)
                  ltac:(rewrite H53; subst D; lia)).
  set (ex := digits (Z.abs (2 * D)) - 55) in *.
  assert (Hstd : std = S754_finite false m ex).
  { subst std square. cbv beta. rewrite Hlow, Hhigh, Hdy, Hdy'.
    unfold SF64sqrt, SF64div, SF64add, SF64mul.
    rewrite SFmul_sign.
    destruct (SFmul_square false m ex Hdm ltac:(lia)) as (mq & n & -> & Hdq & Hn & Hnear).
    change (SFadd prec emax (dy 0) (S754_finite false mq (2 * ex + n)))
      with (S754_finite false mq (2 * ex + n)).
    rewrite SFadd_same by (try exact Hdq; destruct Hn as [-> | [-> _]]; lia).
    rewrite SFdiv_two by (try exact Hdq; destruct Hn as [-> | [-> _]]; lia).
    replace (2 * ex + n + 1 - 1) with (2 * ex + n) by lia.
    apply SFsqrt_rounded_square; [exact Hdm | exact Hdq | lia | exact Hn | exact Hnear]. }
  rewrite Hlow, Hhigh, Hstd, Hdy, Hdy'. unfold SF64div.
  split; rewrite SFdiv_same by exact Hdm; reflexivity.
Qed.

(** On binary64, two bounds [s < e] are normalized to exactly -1 and 1. *)
Lemma normalize_pair (s e : Z) :
  - 2 ^ 50 < s -> s < e -> e < 2 ^ 50 ->
  let a : float := timestamp s in
  let b : float := timestamp e in
  normalize a (np_mean [a; b]) (np_std [a; b]) = (-1)%float
  /\ normalize b (np_mean [a; b]) (np_std [a; b]) = 1%float.
Proof.
  intros Hs Hlt He a b.
  pose proof (SF_normalize_pair s e Hs Hlt He) as [Hlow Hhigh].
  assert (Ha : Prim2SF a = dy (4 * s))
    by (apply Prim2SF_of_Z; change (2 ^ 51) with 2251799813685248;
        change (2 ^ 50) with 1125899906842624 in *; lia).
  assert (Hb : Prim2SF b = dy (4 * e))
    by (apply Prim2SF_of_Z; change (2 ^ 51) with 2251799813685248;
        change (2 ^ 50) with 1125899906842624 in *; lia).
  split; apply Prim2SF_inj.
  - unfold normalize, np_std, np_mean, np_sum.
    cbn [fold_left map length nadd nsub nmul ndiv nsqrt num_of_Z float_Num Z.of_nat
         Pos.of_succ_nat Pos.succ].
    rewrite !div_spec, !sqrt_spec, !div_spec, !add_spec, !mul_spec, !sub_spec, !div_spec,
      !add_spec.
    rewrite !Ha, !Hb.
    change (Prim2SF (FloatNum.of_Z 0)) with (dy 0).
    change (Prim2SF (FloatNum.of_Z 2)) with (dy 8).
    exact Hlow.
  - unfold normalize, np_std, np_mean, np_sum.
    cbn [fold_left map length nadd nsub nmul ndiv nsqrt num_of_Z float_Num Z.of_nat
         Pos.of_succ_nat Pos.succ].
    rewrite !div_spec, !sqrt_spec, !div_spec, !add_spec, !mul_spec, !sub_spec, !div_spec,
      !add_spec.
    rewrite !Ha, !Hb.
    change (Prim2SF (FloatNum.of_Z 0)) with (dy 0).
    change (Prim2SF (FloatNum.of_Z 2)) with (dy 8).
    exact Hhigh.
Qed.

(** *** Quotients that do not underflow *)

(** The second stage of the rounding leaves a mantissa of 53 or 54 digits
    positive. *)
Lemma round_stage_nonzero s M e :
  2 ^ 52 <= M <= 2 ^ 53 -> -1074 <= e ->
  forall sz,
    (let '(mrs, e') := shr_fexp prec emax M e loc_Exact in
     match shr_m mrs with
     | 0 => S754_zero s
     | Zpos m => if e' <=? emax - prec then S754_finite s m e' else S754_infinity s
     | Zneg _ => S754_nan
     end) <> S754_zero sz.
Proof.
  intros HM He sz. change (2 ^ 52) with 4503599627370496 in HM.
  change (2 ^ 53) with 9007199254740992 in HM.
  assert (Hd : digits M = 53 \/ (digits M = 54 /\ M = 9007199254740992)).
  { destruct (Z.eq_dec M 9007199254740992) as [->|Hne]; [right; split; reflexivity|].
    left. apply digits_unique; [lia|].
    change (2 ^ (53 - 1)) with 4503599627370496.
    change (2 ^ 53) with 9007199254740992. lia. }
  unfold shr_fexp. rewrite Zdigits2_digits by lia.
  destruct Hd as [Hd | [Hd ->]].
  - rewrite Hd, fexp_normal by lia. replace (53 + e - 53 - e) with 0 by lia.
    cbn [shr shr_record_of_loc shr_m].
    destruct M as [|m|m]; try lia. destruct (e <=? emax - prec); discriminate.
  - rewrite Hd, fexp_normal by lia. replace (54 + e - 53 - e) with 1 by lia.
    cbn. destruct (e + 1 <=? emax - prec); discriminate.
Qed.

(** Rounding a mantissa of at least 53 digits, in the normal range, never
    gives a zero. *)
Lemma binary_round_aux_nonzero s M e l :
  0 < M -> 53 <= digits M -> -1021 <= digits M + e ->
  forall sz, binary_round_aux prec emax s M e l <> S754_zero sz.
Proof.
  intros HM Hd He sz.
  pose proof (digits_bounds M HM) as [Hlow Hupper].
  unfold binary_round_aux, shr_fexp at 1.
  rewrite Zdigits2_digits, fexp_normal by lia.
  destruct (digits M + e - 53 - e) as [|j|j] eqn:Hj; try lia.
  - assert (Hd53 : digits M = 53) by lia. rewrite Hd53 in *.
    cbn [shr]. rewrite loc_of_shr_record_of_loc, shr_m_of_loc.
    pose proof (round_nearest_even_bounds M l) as Hround.
    apply round_stage_nonzero; [|lia].
    change (2 ^ (53 - 1)) with (2 ^ 52) in Hlow. lia.
  - cbn [shr]. rewrite iter_pos_iter.
    set (mrs := Pos.iter shr_1 (shr_record_of_loc M l) j).
    assert (Hm : shr_m mrs = M / 2 ^ Zpos j).
    { subst mrs. clear -HM.
      induction j as [|j IH] using Pos.peano_ind.
      - cbn [Pos.iter]. rewrite shr_1_m, shr_m_of_loc, Z.div2_div by (rewrite shr_m_of_loc; lia).
        reflexivity.
      - assert (H2j : 0 < 2 ^ Zpos j) by (apply Z.pow_pos_nonneg; lia).
        rewrite Pos.iter_succ, shr_1_m, IH, Z.div2_div
          by (rewrite IH; apply Z.div_pos; lia).
        rewrite Pos2Z.inj_succ, Z.pow_succ_r by lia.
        rewrite Z.div_div by lia. f_equal. lia. }
    assert (Hpow : 0 < 2 ^ Zpos j) by (apply Z.pow_pos_nonneg; lia).
    assert (Hsplit : 2 ^ (digits M - 1) = 2 ^ 52 * 2 ^ Zpos j).
    { rewrite <- Z.pow_add_r by lia. f_equal. lia. }
    assert (Hsplit' : 2 ^ digits M = 2 ^ 53 * 2 ^ Zpos j).
    { rewrite <- Z.pow_add_r by lia. f_equal. lia. }
    assert (Hq : 2 ^ 52 <= M / 2 ^ Zpos j < 2 ^ 53).
    { split.
      - apply Z.div_le_lower_bound; lia.
      - apply Z.div_lt_upper_bound; lia. }
    pose proof (round_nearest_even_bounds (shr_m mrs) (loc_of_shr_record mrs)) as Hround.
    rewrite Hm in Hround.
    apply round_stage_nonzero; [rewrite Hm; lia | lia].
Qed.

(** The quotient of two normal numbers whose exponents differ by less than
    1021 is not a zero. *)
Lemma SFdiv_nonzero sx mx ex sy my ey :
  digits (Zpos mx) = 53 -> digits (Zpos my) = 53 -> -1021 <= ex - ey ->
  forall sz,
    SFdiv prec emax (S754_finite sx mx ex) (S754_finite sy my ey) <> S754_zero sz.
Proof.
  intros Hdx Hdy He sz. unfold SFdiv, SFdiv_core_binary.
  rewrite !Zdigits2_digits, Hdx, Hdy by lia.
  replace (53 + ex - (53 + ey)) with (ex - ey) by lia.
  rewrite fexp_normal by lia.
  replace (Z.min (ex - ey - 53) (ex - ey)) with (ex - ey - 53) by lia.
  replace (ex - ey - (ex - ey - 53)) with 53 by lia.
  rewrite Z.shiftl_mul_pow2 by lia.
  pose proof (digits_bounds (Zpos mx) ltac:(lia)) as [Hxlow Hxup].
  pose proof (digits_bounds (Zpos my) ltac:(lia)) as [Hylow Hyup].
  rewrite Hdx in *. rewrite Hdy in *.
  change (2 ^ (53 - 1)) with 4503599627370496 in *.
  change (2 ^ 53) with 9007199254740992 in *.
  assert (Hquot : 4503599627370496 <= (Zpos mx * 9007199254740992) / Zpos my
                  < 18014398509481984).
  { split.
    - apply Z.div_le_lower_bound; lia.
    - apply Z.div_lt_upper_bound; lia. }
  pose proof (Z.div_eucl_eq (Zpos mx * 9007199254740992) (Zpos my) ltac:(lia)) as Heucl.
  unfold Z.div in Hquot.
  destruct (Z.div_eucl (Zpos mx * 9007199254740992) (Zpos my)) as [q r].
  assert (Hdq : 53 <= digits q).
  { destruct (Z_lt_le_dec (digits q) 53) as [Hsmall|]; [|assumption].
    pose proof (digits_bounds q ltac:(lia)) as [_ Hup].
    assert (2 ^ digits q <= 2 ^ 52) by (apply Z.pow_le_mono_r; lia).
    change (2 ^ 52) with 4503599627370496 in *. lia. }
  apply binary_round_aux_nonzero; lia.
Qed.

Lemma Prim2SF_low : Prim2SF 0x1p-500 = S754_finite false 4503599627370496 (-552).
Proof. vm_compute. reflexivity. Qed.

Lemma Prim2SF_high : Prim2SF 0x1p+500 = S754_finite false 4503599627370496 448.
Proof. vm_compute. reflexivity. Qed.

(** A number of moderate magnitude is a normal number. *)
Lemma moderate_finite (x : float) :
  moderate x = true ->
  exists s m e, Prim2SF x = S754_finite s m e /\ digits (Zpos m) = 53 /\ -552 <= e <= 448.
Proof.
  unfold moderate. intros Hx. apply andb_prop in Hx as [Hlow Hhigh].
  rewrite FloatAxioms.leb_spec, FloatAxioms.abs_spec in Hlow, Hhigh.
  rewrite Prim2SF_low in Hlow. rewrite Prim2SF_high in Hhigh.
  pose proof (Prim2SF_valid x) as Hvalid.
  destruct (Prim2SF x) as [s|s| |s m e]; try discriminate.
  exists s, m, e. split; [reflexivity|].
  assert (Hlow' : -552 <= e).
  { unfold SFleb, SFabs, SFcompare in Hlow.
    destruct (Z.compare_spec (-552) e); [lia | lia | discriminate]. }
  assert (Hhigh' : e <= 448).
  { unfold SFleb, SFabs, SFcompare in Hhigh.
    destruct (Z.compare_spec e 448); [lia | lia | discriminate]. }
  split; [|lia].
  unfold valid_binary, bounded, canonical_mantissa in Hvalid.
  apply andb_prop in Hvalid as [Hcanonical _]. apply Z.eqb_eq in Hcanonical.
  rewrite <- (Zdigits2_digits (Zpos m)) by lia. cbn [Zdigits2].
  unfold fexp, emin, prec, emax in Hcanonical. lia.
Qed.

(** With a mean and a std of moderate magnitude, the standardized zero
    volume [(0 - mean) / std] is not zero. *)
Lemma quotient_of_moderate (mean std : float) :
  moderate mean = true -> moderate std = true ->
  ((0 - mean) / std =? 0)%float = false.
Proof.
  intros Hmean Hstd.
  destruct (moderate_finite mean Hmean) as (s1 & m1 & e1 & Hx & Hd1 & He1).
  destruct (moderate_finite std Hstd) as (s2 & m2 & e2 & Hy & Hd2 & He2).
  rewrite FloatAxioms.eqb_spec, FloatAxioms.div_spec, FloatAxioms.sub_spec, Hx, Hy.
  change (Prim2SF 0) with (S754_zero false). cbn [SF64sub SFsub].
  pose proof (SFdiv_nonzero (negb s1) m1 e1 s2 m2 e2 Hd1 Hd2 ltac:(lia)) as Hnonzero.
  unfold SF64div. destruct (SFdiv prec emax _ _) as [sz|sz| |sz mz ez].
  - destruct (Hnonzero sz). reflexivity.
  - destruct sz; reflexivity.
  - reflexivity.
  - destruct sz; reflexivity.
Qed.
End Binary64.

Section FloatAssembly.
Context {Area : Type}.
Variable is_point_in_area : Coord float -> Area -> bool.
Variable Pollutant : list string.
Variable mesh : dict Z (SubDomain Area).
Variable utilities : Utilities float.
Variable receptor_list : list (Coord float).
Variable st : NormalizationStats float.

(** C3: in an assembled record, the label stored for a raw value [v] (the
    Caline estimate minus the current background, or 0 when the receptor or
    the pollutant is absent) is [v] when [v >= -1], and is 0, not -1, when
    [v < -1]. *)
Theorem labels_below_minus_one_are_reset_to_zero
    (t : Z) (w : Weather float) (volumes : dict Link float)
    (estimates : dict (Coord float) (gmap string float)) (background : gmap string float)
    (id : Z) (sd : SubDomain Area) (r : ProcessedRecord float) :
  assemble is_point_in_area Pollutant mesh utilities receptor_list st
           t w volumes estimates background id sd = Ok r ->
  exists raw : list (list float),
    result_map (fun coord => result_map (raw_label estimates background coord) Pollutant)
               (receptors_of is_point_in_area mesh receptor_list id) = Ok raw
    /\ Forall2 (fun v stored =>
                  ((-1 <=? v)%float = true -> stored = v)
                  /\ ((v <? -1)%float = true -> stored = 0%float /\ stored <> (-1)%float))
               (concat raw) (labels r).
Proof.
  intros Hr. destruct (assemble_labels _ _ _ _ _ _ _ _ _ _ _ _ _ _ Hr) as (raw & Hraw & ->).
  exists raw. split; [exact Hraw|].
  induction (concat raw) as [|v vs IH]; simpl; constructor; [|exact IH].
  apply FloatFacts.clamp_spec.
Qed.

(** C2 (amended): no standard deviation is checked.  Computing the
    statistics raises only for an empty weather series or an empty bounding
    box; with any statistics, a zero std included, a record is assembled
    unless a link lacks its geometry or a pollutant its background value;
    and [normalize] then divides by the zero std, which gives an infinity or
    a NaN: with a zero time std this is the first element of the input. *)
Theorem zero_std_is_divided_by_unchecked
    (t : Z) (w : Weather float) (volumes : dict Link float)
    (estimates : dict (Coord float) (gmap string float)) (background : gmap string float)
    (id : Z) (sd : SubDomain Area) :
  (forall val mean : float,
      normalize val mean 0%float = infinity
      \/ normalize val mean 0%float = neg_infinity
      \/ normalize val mean 0%float = nan)
  /\ (forall date_start date_end weather_data traffic_volumes,
      weather_data <> [] -> bounding_box utilities <> [] ->
      exists st', statistics date_start date_end weather_data traffic_volumes utilities = Ok st')
  /\ ((forall link, link ∈ links sd -> is_Some (dict_get (links_in_area utilities) link)) ->
      (forall poll, poll ∈ Pollutant -> is_Some (background !! poll)) ->
      time_std st = 0%float ->
      exists r x,
        assemble is_point_in_area Pollutant mesh utilities receptor_list st
                 t w volumes estimates background id sd = Ok r
        /\ input r !! 0%nat = Some x
        /\ (x = infinity \/ x = neg_infinity \/ x = nan)).
Proof.
  split; [|split].
  - intros val mean. unfold normalize. simpl. apply FloatFacts.div_by_zero.
  - intros date_start date_end weather_data traffic_volumes Hweather Hbox.
    unfold statistics.
    destruct (decide (dict_values weather_data = [])) as [Hnil|_].
    { destruct weather_data; [congruence | discriminate]. }
    destruct (decide (dict_values (bounding_box utilities) = [])) as [Hnil|_].
    { destruct (bounding_box utilities); [congruence | discriminate]. }
    eexists. reflexivity.
  - intros Hgeometry Hbackground Hstd.
    destruct (assemble_ok is_point_in_area Pollutant mesh utilities receptor_list st
                t w volumes estimates background id sd Hgeometry Hbackground)
      as (r & Hr & Hfirst).
    exists r, (normalize_time st (timestamp t)).
    split; [exact Hr|]. split; [exact Hfirst|].
    unfold normalize_time, normalize. rewrite Hstd. simpl. apply FloatFacts.div_by_zero.
Qed.
End FloatAssembly.

(** ** Real arithmetic *)

Module RealFacts.
Local Open Scope R_scope.

Lemma np_mean_pair (a b : R) : np_mean [a; b] = (a + b) / 2.
Proof. unfold np_mean, np_sum. simpl. change (Z.of_nat 2) with 2%Z. lra. Qed.

(** The standard deviation of two values is half their distance. *)
Lemma np_std_pair (a b : R) : np_std [a; b] = Rabs (b - a) / 2.
Proof.
  unfold np_std. rewrite np_mean_pair. unfold np_mean, np_sum. simpl.
  change (Z.of_nat 2) with 2%Z.
  replace ((0 + (a - (a + b) / 2) * (a - (a + b) / 2)
            + (b - (a + b) / 2) * (b - (a + b) / 2)) / 2)
    with (Rsqr ((b - a) / 2)) by (unfold Rsqr; lra).
  rewrite sqrt_Rsqr_abs. unfold Rdiv. rewrite Rabs_mult.
  rewrite (Rabs_right (/ 2)) by lra. reflexivity.
Qed.

Lemma normalize_pair_increasing (a b : R) :
  a < b ->
  normalize a (np_mean [a; b]) (np_std [a; b]) = -1
  /\ normalize b (np_mean [a; b]) (np_std [a; b]) = 1.
Proof.
  intros Hlt. unfold normalize. rewrite np_mean_pair, np_std_pair. simpl.
  rewrite (Rabs_right (b - a)) by lra. split; field; lra.
Qed.

Lemma statistics_time (date_start date_end : Z) weather_data traffic_volumes utilities
    (st : NormalizationStats R) :
  statistics date_start date_end weather_data traffic_volumes utilities = Ok st ->
  time_mean st = np_mean [timestamp date_start; timestamp date_end]
  /\ time_std st = np_std [timestamp date_start; timestamp date_end].
Proof.
  unfold statistics. repeat case_match; try discriminate.
  intros [= <-]. split; reflexivity.
Qed.
End RealFacts.

(** C10 (amended): when the canonical key of a link is absent from the
    traffic volumes of the timestamp, the volume slot emitted for it, the
    input at index [9 + 5 i] for the [i]-th link of the sub-domain, is the
    constant 0 and not the standardized zero volume [(0 - mean) / std], which
    is what a recorded volume 0 emits, a recorded volume [v] emitting
    [(v - mean) / std].  An absent volume and a recorded volume 0 thus give
    different features exactly when [(0 - mean) / std] is not zero: in
    binary64 whenever the std is zero, the quotient being an infinity or a
    NaN, and whenever the magnitudes of the mean and of the std lie between
    [2^-500] and [2^500], the quotient then not underflowing; in real
    arithmetic whenever the mean and the std are not zero. *)
Theorem absent_volume_is_the_constant_zero :
  (forall (num : Type) (N : Num num) (Area : Type)
          (is_point_in_area : Coord num -> Area -> bool) (Pollutant : list string)
          (mesh : dict Z (SubDomain Area)) (utilities : Utilities num)
          (receptor_list : list (Coord num)) (st : NormalizationStats num)
          (t : Z) (w : Weather num) (volumes : dict Link num)
          (estimates : dict (Coord num) (gmap string num)) (background : gmap string num)
          (id : Z) (sd : SubDomain Area) (r : ProcessedRecord num) (i : nat) (link : Link),
      assemble is_point_in_area Pollutant mesh utilities receptor_list st
               t w volumes estimates background id sd = Ok r ->
      links sd !! i = Some link ->
      (dict_get volumes (sorted_link link) = None ->
       input r !! (9 + 5 * i)%nat = Some (num_of_Z 0))
      /\ (forall volume : num,
            dict_get volumes (sorted_link link) = Some volume ->
            input r !! (9 + 5 * i)%nat
            = Some (ndiv (nsub volume (volumes_mean st)) (volumes_std st))))
  /\ (forall st : NormalizationStats float,
        let recorded := ndiv (nsub (num_of_Z 0) (volumes_mean st)) (volumes_std st) in
        (volumes_std st = 0%float ->
         (recorded = infinity \/ recorded = neg_infinity \/ recorded = nan)
         /\ PrimFloat.eqb recorded (num_of_Z 0) = false)
        /\ (Dyadic.moderate (volumes_mean st) = true ->
            Dyadic.moderate (volumes_std st) = true ->
            PrimFloat.eqb recorded (num_of_Z 0) = false))
  /\ (forall st : NormalizationStats R,
        volumes_mean st <> 0%R -> volumes_std st <> 0%R ->
        ndiv (nsub (num_of_Z 0) (volumes_mean st)) (volumes_std st) <> num_of_Z 0).
Proof.
  split; [|split].
  - intros num N Area is_point_in_area Pollutant mesh utilities receptor_list st
           t w volumes estimates background id sd r i link Hr Hlink.
    pose proof (volume_slot_position _ _ _ _ _ _ _ _ _ _ _ _ _ _ _ _ Hr Hlink) as Hslot.
    split.
    + intros Habsent. rewrite Hslot, Habsent. reflexivity.
    + intros volume Hrecorded. rewrite Hslot, Hrecorded. reflexivity.
  - intros st recorded. subst recorded. split.
    + intros Hstd. rewrite Hstd.
      change (ndiv (nsub (num_of_Z 0) (volumes_mean st)) 0%float)
        with ((0 - volumes_mean st) / 0)%float.
      change (@num_of_Z float _ 0) with 0%float.
      destruct (FloatFacts.div_by_zero (0 - volumes_mean st)%float) as [Hq | [Hq | Hq]];
        rewrite Hq; (split; [auto | vm_compute; reflexivity]).
    + apply Binary64.quotient_of_moderate.
  - intros st Hmean Hstd. simpl. intros Heq.
    apply Hmean.
    assert (Hz : (0 - volumes_mean st)%R = 0%R).
    { apply (Rmult_eq_reg_r (/ volumes_std st)); [|apply Rinv_neq_0_compat; exact Hstd].
      rewrite Rmult_0_l. exact Heq. }
    lra.
Qed.

(** * The properties on concrete inputs *)

Ltac elem_of_cases H :=
  repeat (apply elem_of_cons in H as [-> | H]; [vm_compute; eexists; reflexivity|]);
  inversion H.

(** C1, as stated, fails: in the run [Scenario.two_hours] the records of
    sub-domain 6 (two receptors) have 109 inputs and those of sub-domain 7
    (one receptor) have 107. *)
Lemma input_length_differs_between_sub_domains :
  map (fun r => (sub_domain r, length (input r))) (concat Scenario.two_hours.2)
  = [(6, 109%nat); (7, 107%nat); (6, 109%nat); (7, 107%nat)]
  /\ ~ run_constant_input_length Scenario.two_hours.2.
Proof.
  assert (Hlengths : map (fun r => length (input r)) (concat Scenario.two_hours.2)
                     = [109; 107; 109; 107]%nat) by (vm_compute; reflexivity).
  split; [vm_compute; reflexivity|].
  intros [n Hall].
  apply (proj2 (List.Forall_map (fun r : ProcessedRecord float => length (input r))
                                (fun k => k = n) _)) in Hall.
  rewrite Hlengths in Hall.
  inversion Hall as [|? ? H109 Hrest]; subst.
  inversion Hrest as [|? ? H107 _]; subst. discriminate.
Qed.

Lemma record_lengths_witness :
  Forall (fun r => (length (labels r) `mod` 3 = 0)%nat) (concat Scenario.two_hours.2).
Proof.
  eapply Forall_impl.
  - apply (record_lengths_follow_the_sub_domain
             Scenario.in_box Scenario.pollutants Scenario.empirical_background 0 3600
             Scenario.mesh Scenario.weather_data Scenario.background_pollution
             Scenario.traffic_volumes Scenario.utilities Scenario.caline_estimates
             Scenario.receptor_list).
  - intros r (sd & _ & Hlabels & _). rewrite Hlabels.
    change (length Scenario.pollutants) with 3%nat. apply Nat.Div0.mod_mul.
Defined.

(** C2, as stated, fails: in the run [Scenario.degenerate] the time std, a
    weather std and both coordinate stds are zero; the run ends normally and
    writes one record whose normalized slots are NaN. *)
Lemma degenerate_run_writes_a_nan_record :
  statistics 0 0 Scenario.point_weather Scenario.point_traffic Scenario.point_utilities
  = Ok Scenario.point_stats
  /\ time_std Scenario.point_stats = 0%float
  /\ coord_std Scenario.point_stats = (0, 0)%float
  /\ Scenario.degenerate.1 = Ok tt
  /\ exists r,
      Scenario.degenerate.2 = [[r]]
      /\ take 5 (input r) = [nan; nan; nan; nan; nan]
      /\ drop 105 (input r) = [nan; nan].
Proof.
  split; [vm_compute; reflexivity|]. split; [reflexivity|]. split; [reflexivity|].
  split; [vm_compute; reflexivity|].
  eexists. split; [vm_compute; reflexivity|]. split; vm_compute; reflexivity.
Qed.

Lemma zero_std_witness :
  exists r x,
    assemble Scenario.in_box Scenario.pollutants Scenario.point_mesh Scenario.point_utilities
             [(1, 1)%float] Scenario.point_stats 0 (mkWeather 10 2 0.5 15)%float [] []
             Scenario.empirical_background 6 (mkSubDomain ((1, 1), (1, 1))%float []) = Ok r
    /\ input r !! 0%nat = Some x
    /\ (x = infinity \/ x = neg_infinity \/ x = nan).
Proof.
  refine (proj2 (proj2 (zero_std_is_divided_by_unchecked
                          Scenario.in_box Scenario.pollutants Scenario.point_mesh
                          Scenario.point_utilities [(1, 1)%float] _ 0 _ [] []
                          Scenario.empirical_background 6 _)) _ _ _).
  - intros link Hlink. inversion Hlink.
  - intros poll Hpoll. elem_of_cases Hpoll.
  - reflexivity.
Defined.

Lemma labels_witness :
  exists r raw,
    assemble Scenario.in_box Scenario.pollutants Scenario.mesh Scenario.utilities
             Scenario.receptor_list Scenario.unit_stats 3600 (mkWeather 12 3 0.25 16)%float []
             [((1, 1)%float, {[ "NO2"%string := 0.5%float; "PM10"%string := 1.75%float ]})]
             (<[ "NO2"%string := 3%float ]> Scenario.empirical_background)
             6 (mkSubDomain ((0, 0), (2, 2))%float [(2, 1)]) = Ok r
    /\ concat raw = [0; 0; 0; -2.5; 0.75; 0]%float
    /\ labels r = [0; 0; 0; 0; 0.75; 0]%float
    /\ Forall2 (fun v stored =>
                  ((-1 <=? v)%float = true -> stored = v)
                  /\ ((v <? -1)%float = true -> stored = 0%float /\ stored <> (-1)%float))
               (concat raw) (labels r).
Proof.
  eexists.
  assert (Hr : assemble Scenario.in_box Scenario.pollutants Scenario.mesh Scenario.utilities
             Scenario.receptor_list Scenario.unit_stats 3600 (mkWeather 12 3 0.25 16)%float []
             [((1, 1)%float, {[ "NO2"%string := 0.5%float; "PM10"%string := 1.75%float ]})]
             (<[ "NO2"%string := 3%float ]> Scenario.empirical_background)
             6 (mkSubDomain ((0, 0), (2, 2))%float [(2, 1)]) = Ok _)
    by (vm_compute; reflexivity).
  destruct (labels_below_minus_one_are_reset_to_zero _ _ _ _ _ _ _ _ _ _ _ _ _ _ Hr)
    as (raw & Hraw & Hall).
  exists raw. split; [exact Hr|]. split; [|split; [reflexivity | exact Hall]].
  vm_compute in Hraw. injection Hraw as <-. reflexivity.
Defined.

(** C4, as stated, fails: in [Scenario.gap] the hour 3600 has the background
    update NO2 := 9 but no weather entry; its iteration leaves the carried
    value 2, and the label of the next hour is 10 - 2 = 8, not 10 - 9. *)
Lemma background_update_is_dropped_without_weather :
  dict_get Scenario.gap_background 3600 = Some {[ "NO2"%string := 9%float ]}
  /\ dict_get Scenario.gap_weather 3600 = None
  /\ current_background_pollution
       (iteration Scenario.in_box Scenario.pollutants Scenario.mesh Scenario.gap_weather
                  Scenario.gap_background Scenario.gap_traffic Scenario.utilities
                  Scenario.gap_caline Scenario.receptor_list Scenario.unit_stats
                  3600 Scenario.start_state).2 !! "NO2"%string = Some 2%float
  /\ Some 2%float <> Some 9%float
  /\ Scenario.gap.1 = Ok tt
  /\ map (fun r => (sub_domain r, labels r)) (concat Scenario.gap.2)
     = [(6, [0; 0; 0; 0; 0; 0]%float); (7, [8; 0; 0]%float)].
Proof.
  split; [vm_compute; reflexivity|]. split; [reflexivity|].
  split; [vm_compute; reflexivity|].
  split; [|split; vm_compute; reflexivity].
  intros Heq.
  apply (f_equal (fun o => match o with Some x => Prim2SF x | None => S754_nan end)) in Heq.
  vm_compute in Heq. discriminate.
Qed.

Lemma background_witness :
  let s' := (iteration Scenario.in_box Scenario.pollutants Scenario.mesh Scenario.weather_data
                       Scenario.background_pollution Scenario.traffic_volumes
                       Scenario.utilities Scenario.caline_estimates Scenario.receptor_list
                       Scenario.unit_stats 3600 Scenario.start_state).2 in
  current_background_pollution s' !! "NO2"%string = Some 3%float
  /\ current_background_pollution s' !! "PM10"%string = Some 1%float
  /\ current_background_pollution
       (iteration Scenario.in_box Scenario.pollutants Scenario.mesh Scenario.weather_data
                  Scenario.background_pollution Scenario.traffic_volumes
                  Scenario.utilities Scenario.caline_estimates Scenario.receptor_list
                  Scenario.unit_stats 0 Scenario.start_state).2
     = Scenario.empirical_background.
Proof.
  intros s'.
  destruct (background_is_carried_forward
              Scenario.in_box Scenario.pollutants 3600 Scenario.mesh Scenario.weather_data
              Scenario.background_pollution Scenario.traffic_volumes Scenario.utilities
              Scenario.caline_estimates Scenario.receptor_list Scenario.unit_stats
              3600 Scenario.start_state) as (Hupdate & _).
  destruct (background_is_carried_forward
              Scenario.in_box Scenario.pollutants 3600 Scenario.mesh Scenario.weather_data
              Scenario.background_pollution Scenario.traffic_volumes Scenario.utilities
              Scenario.caline_estimates Scenario.receptor_list Scenario.unit_stats
              0 Scenario.start_state) as (_ & Hcarry & _).
  split; [|split].
  - subst s'. rewrite (Hupdate _ _ _ eq_refl eq_refl eq_refl). vm_compute. reflexivity.
  - subst s'. rewrite (Hupdate _ _ _ eq_refl eq_refl eq_refl). vm_compute. reflexivity.
  - apply Hcarry. left. reflexivity.
Defined.

(** C5, as stated, fails for a link without recorded volume.  In the run
    [Scenario.gap] the traffic volumes are 100 and 50, so their mean is 75 and
    their std 25; at 7200 no volume is recorded for the link of sub-domain 6,
    and the fifth scalar of its record is 0, whereas the normalized volume of
    a link without traffic is [(0 - 75) / 25 = -3]. *)
Lemma link_without_volume_is_not_normalized :
  exists (st : NormalizationStats float) (r : ProcessedRecord float),
    statistics 0 7200 Scenario.gap_weather Scenario.gap_traffic Scenario.utilities = Ok st
    /\ concat Scenario.gap.2 !! 0%nat = Some r
    /\ assemble Scenario.in_box Scenario.pollutants Scenario.mesh Scenario.utilities
                Scenario.receptor_list st 7200 (mkWeather 12 3 0.25 16)%float []
                [((3, 3)%float, {[ "NO2"%string := 10%float ]})]
                Scenario.empirical_background
                6 (mkSubDomain ((0, 0), (2, 2))%float [(2, 1)]) = Ok r
    /\ dict_get Scenario.gap_traffic 7200 = Some []
    /\ take 100 (drop 5 (input r))
       <> link_block_as_specified st Scenario.utilities [] [(2, 1)]
    /\ take 100 (drop 5 (input r)) !! 4%nat = Some 0%float
    /\ link_block_as_specified st Scenario.utilities [] [(2, 1)] !! 4%nat
       = Some (-3)%float.
Proof.
  eexists. eexists. split; [reflexivity|].
  split; [vm_compute; reflexivity|].
  split; [vm_compute; reflexivity|].
  split; [reflexivity|].
  split; [|split; vm_compute; reflexivity].
  intros Heq.
  apply (f_equal (fun l : list float => match l !! 4%nat with
                                        | Some x => Prim2SF x
                                        | None => S754_nan
                                        end)) in Heq.
  vm_compute in Heq. discriminate.
Qed.

Lemma link_block_witness :
  exists r,
    assemble Scenario.in_box Scenario.pollutants Scenario.mesh
             EdgeScenario.two_links_utilities Scenario.receptor_list EdgeScenario.gap_stats
             0 (mkWeather 10 2 0.5 15)%float [((1, 2), 100%float)]
             [((1, 1)%float, {[ "NO2"%string := 5%float ]})] Scenario.empirical_background
             6 EdgeScenario.two_links_sub_domain = Ok r
    /\ take 100 (drop 5 (input r))
       = [(-0.75)%float; (-0.75)%float; (-0.25)%float; (-0.25)%float; 1%float;
          0%float; 0%float; 1%float; 1%float; 0%float] ++ replicate 90 0%float.
Proof.
  eexists.
  assert (Hr : assemble Scenario.in_box Scenario.pollutants Scenario.mesh
                 EdgeScenario.two_links_utilities Scenario.receptor_list
                 EdgeScenario.gap_stats 0 (mkWeather 10 2 0.5 15)%float
                 [((1, 2), 100%float)]
                 [((1, 1)%float, {[ "NO2"%string := 5%float ]})]
                 Scenario.empirical_background 6 EdgeScenario.two_links_sub_domain = Ok _)
    by (vm_compute; reflexivity).
  split; [exact Hr|].
  destruct (link_block_of_an_assembled_record
              Scenario.in_box Scenario.pollutants Scenario.mesh
              EdgeScenario.two_links_utilities Scenario.receptor_list EdgeScenario.gap_stats
              0 (mkWeather 10 2 0.5 15)%float [((1, 2), 100%float)]
              [((1, 1)%float, {[ "NO2"%string := 5%float ]})] Scenario.empirical_background
              6 EdgeScenario.two_links_sub_domain) as [Hblock _].
  - vm_compute. lia.
  - destruct (Hblock _ Hr) as (_ & Heq & _). rewrite Heq. vm_compute. reflexivity.
Defined.

Lemma skipped_timestamp_witness :
  iteration Scenario.in_box Scenario.pollutants Scenario.mesh Scenario.gap_weather
            Scenario.gap_background Scenario.gap_traffic Scenario.utilities
            Scenario.gap_caline Scenario.receptor_list Scenario.unit_stats
            3600 Scenario.start_state
  = (Ok tt, Scenario.start_state).
Proof.
  apply (missing_weather_or_traffic_skips_timestamp
           Scenario.in_box Scenario.pollutants 7200 Scenario.mesh Scenario.gap_weather
           Scenario.gap_background Scenario.gap_traffic Scenario.utilities
           Scenario.gap_caline Scenario.receptor_list Scenario.unit_stats
           3600 Scenario.start_state 0).
  left. reflexivity.
Defined.

Lemma missing_caline_witness :
  iteration Scenario.in_box Scenario.pollutants Scenario.mesh Scenario.gap_weather
            Scenario.gap_background Scenario.gap_traffic Scenario.utilities
            Scenario.gap_caline Scenario.receptor_list Scenario.unit_stats
            0 Scenario.start_state
  = (Ok tt, Scenario.start_state).
Proof.
  destruct (missing_caline_skips_every_sub_domain
              Scenario.in_box Scenario.pollutants Scenario.mesh Scenario.gap_weather
              Scenario.gap_background Scenario.gap_traffic Scenario.utilities
              Scenario.gap_caline Scenario.receptor_list Scenario.unit_stats
              0 (mkWeather 10 2 0.5 15)%float [((1, 2), 100%float)] Scenario.start_state
              eq_refl eq_refl eq_refl) as (_ & Hiter & _).
  rewrite Hiter. reflexivity.
Defined.

Lemma batched_writer_witness :
  let r := mkRecord 1 6 [0%float] [] in
  (exists s',
      bind (for_each append_entry (replicate (Z.to_nat 100001) r)) (fun _ => final_flush)
           (mkState Scenario.empirical_background [] [])
      = (Ok tt, s')
      /\ concat (collection_pre s') = replicate (Z.to_nat 100001) r
      /\ map (fun batch => Z.of_nat (length batch)) (collection_pre s') = [100000; 1])
  /\ concat Scenario.two_hours.2
     = (assembled_records Scenario.in_box Scenario.pollutants Scenario.empirical_background
                          0 3600 Scenario.mesh Scenario.weather_data
                          Scenario.background_pollution Scenario.traffic_volumes
                          Scenario.utilities Scenario.caline_estimates
                          Scenario.receptor_list).1
  /\ map length Scenario.two_hours.2 = [4%nat].
Proof.
  intros r.
  destruct (batched_writer_flushes_at_threshold
              Scenario.in_box Scenario.pollutants Scenario.empirical_background 0 3600
              Scenario.mesh Scenario.weather_data Scenario.background_pollution
              Scenario.traffic_volumes Scenario.utilities Scenario.caline_estimates
              Scenario.receptor_list) as (_ & Hwriter & _ & _ & _ & Hnormal).
  split.
  - destruct (Hwriter (replicate (Z.to_nat 100001) r) Scenario.empirical_background)
      as (s' & Hrun & Hcat & _ & Hsizes).
    exists s'. split; [exact Hrun|]. split; [exact Hcat|].
    apply Hsizes. rewrite length_replicate. lia.
  - assert (Hok : Scenario.two_hours.1 = Ok tt) by (vm_compute; reflexivity).
    destruct (Hnormal Hok) as (Hcat & _ & _).
    split; [exact Hcat|]. vm_compute. reflexivity.
Defined.

(** C10, as stated, fails in binary64 when the quotient [(0 - mean) / std]
    is a zero.  With the volumes [2^700] and 0 recorded for the link (1, 2)
    the mean is [2^699], not zero, and the squares of the deviations overflow,
    so the std is infinite: in the record of sub-domain 6 at 3600 the slot of
    the link (2, 1), whose recorded volume is 0, holds [-0], and the slot of
    the link (3, 4), which has no recorded volume, holds 0; the two are equal.
    With the volume [-2^700] in the place of [2^700] the two slots are both
    [+0]. *)
Lemma huge_volumes_make_the_slots_coincide :
  (exists (st : NormalizationStats float) (r : ProcessedRecord float) (x : float),
      statistics 0 3600 Scenario.weather_data (EdgeScenario.huge_traffic 0x1p+700)
                 EdgeScenario.two_links_utilities = Ok st
      /\ volumes_mean st = 0x1p+699%float
      /\ PrimFloat.eqb (volumes_mean st) 0 = false
      /\ volumes_std st = infinity
      /\ concat (EdgeScenario.huge 0x1p+700).2 !! 1%nat = Some r
      /\ dict_get (EdgeScenario.huge_traffic 0x1p+700) 3600 = Some [((1, 2), 0%float)]
      /\ input r !! 9%nat = Some x
      /\ input r !! 14%nat = Some 0%float
      /\ PrimFloat.eqb x 0 = true)
  /\ (exists (st : NormalizationStats float) (r : ProcessedRecord float),
        statistics 0 3600 Scenario.weather_data (EdgeScenario.huge_traffic (-0x1p+700))
                   EdgeScenario.two_links_utilities = Ok st
        /\ PrimFloat.eqb (volumes_mean st) 0 = false
        /\ concat (EdgeScenario.huge (-0x1p+700)).2 !! 1%nat = Some r
        /\ input r !! 9%nat = Some 0%float
        /\ input r !! 14%nat = Some 0%float).
Proof.
  split.
  - eexists. eexists. eexists. split; [reflexivity|].
    repeat split; vm_compute; reflexivity.
  - eexists. eexists. split; [reflexivity|].
    repeat split; vm_compute; reflexivity.
Qed.

Lemma absent_volume_witness :
  (exists r,
      assemble Scenario.in_box Scenario.pollutants Scenario.mesh
               EdgeScenario.two_links_utilities Scenario.receptor_list EdgeScenario.gap_stats
               0 (mkWeather 10 2 0.5 15)%float [((1, 2), 100%float)]
               [((1, 1)%float, {[ "NO2"%string := 5%float ]})] Scenario.empirical_background
               6 EdgeScenario.two_links_sub_domain = Ok r
      /\ input r !! 9%nat = Some 1%float
      /\ input r !! 14%nat = Some 0%float)
  /\ (exists st : NormalizationStats float,
        statistics 0 3600 Scenario.weather_data Scenario.traffic_volumes Scenario.utilities
        = Ok st
        /\ volumes_mean st = 100%float
        /\ volumes_std st = 0%float
        /\ normalize_traffic st 0%float = neg_infinity
        /\ PrimFloat.eqb (normalize_traffic st 0%float) 0 = false)
  /\ PrimFloat.eqb (normalize_traffic EdgeScenario.gap_stats 0%float) 0 = false
  /\ normalize_traffic RealScenario.unit_stats 0%R = (-2)%R
  /\ normalize_traffic RealScenario.unit_stats 0%R <> 0%R.
Proof.
  destruct absent_volume_is_the_constant_zero as (Hslot & Hfloat & Hreal).
  split; [|split; [|split; [|split]]].
  - eexists.
    assert (Hr : assemble Scenario.in_box Scenario.pollutants Scenario.mesh
                   EdgeScenario.two_links_utilities Scenario.receptor_list
                   EdgeScenario.gap_stats 0 (mkWeather 10 2 0.5 15)%float
                   [((1, 2), 100%float)]
                   [((1, 1)%float, {[ "NO2"%string := 5%float ]})]
                   Scenario.empirical_background 6 EdgeScenario.two_links_sub_domain
                 = Ok _)
      by (vm_compute; reflexivity).
    split; [exact Hr|]. split.
    + destruct (Hslot _ _ _ _ _ _ _ _ _ _ _ _ _ _ _ _ _ 0%nat (2, 1) Hr eq_refl)
        as [_ Hrecorded].
      etransitivity; [exact (Hrecorded 100%float eq_refl) | vm_compute; reflexivity].
    + destruct (Hslot _ _ _ _ _ _ _ _ _ _ _ _ _ _ _ _ _ 1%nat (3, 4) Hr eq_refl)
        as [Habsent _].
      exact (Habsent eq_refl).
  - eexists. split; [reflexivity|].
    split; [vm_compute; reflexivity|]. split; [vm_compute; reflexivity|].
    split; [vm_compute; reflexivity|].
    match goal with
    | |- PrimFloat.eqb (normalize_traffic ?st _) _ = false =>
        exact (proj2 (proj1 (Hfloat st) ltac:(vm_compute; reflexivity)))
    end.
  - exact (proj2 (Hfloat EdgeScenario.gap_stats) eq_refl eq_refl).
  - unfold normalize_traffic, normalize. simpl. lra.
  - apply (Hreal RealScenario.unit_stats); simpl; lra.
Defined.

(** * Further properties of the code *)

(** ** Spatial assignment *)

Section SpatialAssignment.
Context {num : Type} `{Num num} {Area : Type}.
Variable is_point_in_area : Coord num -> Area -> bool.
Variable mesh : dict Z (SubDomain Area).
Variable receptor_list : list (Coord num).

Lemma sort_insert_Permutation (x : Coord num) (l : list (Coord num)) :
  sort_insert x l ≡ₚ x :: l.
Proof.
  induction l as [|y l IH]; simpl; [reflexivity|].
  destruct (key_ltb y x); [|reflexivity].
  rewrite IH. apply Permutation_swap.
Qed.

Lemma sort_Permutation (l : list (Coord num)) : sort l ≡ₚ l.
Proof.
  induction l as [|x l IH]; simpl; [reflexivity|].
  rewrite sort_insert_Permutation, IH. reflexivity.
Qed.

Lemma receptor_coords_lookup (items : dict Z (SubDomain Area)) (id : Z) :
  dict_get (receptor_coords is_point_in_area items receptor_list) id
  = (fun sd => sort (List.filter (fun receptor => is_point_in_area receptor (coord sd))
                                 receptor_list))
      <$> dict_get items id.
Proof.
  induction items as [|[id' sd] items IH]; simpl; [reflexivity|].
  destruct (key_eqb id' id); [reflexivity | exact IH].
Qed.

(** X1: the receptors of a sub-domain are exactly the receptors of
    [receptor_list] that lie in its area, each as often as it occurs there;
    a sub-domain absent from the mesh has none.  Nothing makes the lists of
    two sub-domains disjoint. *)
Theorem receptors_are_those_in_the_area (id : Z) :
  receptors_of is_point_in_area mesh receptor_list id
  ≡ₚ match dict_get mesh id with
     | Some sd => List.filter (fun receptor => is_point_in_area receptor (coord sd))
                              receptor_list
     | None => []
     end
  /\ forall receptor,
       receptor ∈ receptors_of is_point_in_area mesh receptor_list id
       <-> exists sd, dict_get mesh id = Some sd
                      /\ receptor ∈ receptor_list
                      /\ is_point_in_area receptor (coord sd) = true.
Proof.
  assert (Hperm : receptors_of is_point_in_area mesh receptor_list id
                  ≡ₚ match dict_get mesh id with
                     | Some sd => List.filter
                                    (fun receptor => is_point_in_area receptor (coord sd))
                                    receptor_list
                     | None => []
                     end).
  { unfold receptors_of. rewrite receptor_coords_lookup.
    destruct (dict_get mesh id) as [sd|]; simpl; [apply sort_Permutation | reflexivity]. }
  split; [exact Hperm|].
  intros receptor. rewrite Hperm.
  destruct (dict_get mesh id) as [sd|].
  - rewrite list_elem_of_In, filter_In, <- list_elem_of_In. split.
    + intros [Hin Harea]. exists sd. auto.
    + intros (sd' & [= <-] & Hin & Harea). auto.
  - split; [intros Hin; inversion Hin | intros (sd & Hsd & _); discriminate].
Qed.
End SpatialAssignment.

(** The sort key order on the reals. *)
Module RealOrder.
Local Open Scope R_scope.

Lemma key_ltb_true (a b : Coord R) :
  key_ltb a b = true -> key_le a b.
Proof.
  unfold key_ltb, key_le. simpl. unfold RealNum.eqb, RealNum.ltb.
  destruct (Req_dec_T a.1 b.1) as [Heq|Hne].
  - destruct (Rlt_dec a.2 b.2); [|discriminate]. intros _. right. split; [exact Heq | lra].
  - destruct (Rlt_dec a.1 b.1); [|discriminate]. intros _. left. assumption.
Qed.

Lemma key_ltb_false (a b : Coord R) :
  key_ltb a b = false -> key_le b a.
Proof.
  unfold key_ltb, key_le. simpl. unfold RealNum.eqb, RealNum.ltb.
  destruct (Req_dec_T a.1 b.1) as [Heq|Hne].
  - destruct (Rlt_dec a.2 b.2); [discriminate|]. intros _. right. split; [auto | lra].
  - destruct (Rlt_dec a.1 b.1); [discriminate|]. intros _. left. lra.
Qed.

Lemma key_le_trans (a b c : Coord R) : key_le a b -> key_le b c -> key_le a c.
Proof. unfold key_le. intros [?|[? ?]] [?|[? ?]]; [left|left|left|right; split]; lra. Qed.

Lemma sort_insert_sorted (x : Coord R) (l : list (Coord R)) :
  StronglySorted key_le l -> StronglySorted key_le (sort_insert x l).
Proof.
  induction 1 as [|y l Hsorted IH Hy]; simpl.
  - constructor; constructor.
  - destruct (key_ltb y x) eqn:Hlt.
    + constructor; [exact IH|].
      apply list.Forall_forall. intros z Hz.
      rewrite sort_insert_Permutation in Hz. apply elem_of_cons in Hz as [-> | Hz].
      * apply key_ltb_true, Hlt.
      * rewrite list.Forall_forall in Hy. apply Hy, Hz.
    + pose proof (key_ltb_false _ _ Hlt) as Hxy.
      constructor; [constructor; assumption|].
      constructor; [exact Hxy|].
      eapply Forall_impl; [exact Hy|]. intros z Hz. eapply key_le_trans; eassumption.
Qed.

Lemma sort_sorted (l : list (Coord R)) : StronglySorted key_le (sort l).
Proof.
  induction l as [|x l IH]; simpl; [constructor|]. apply sort_insert_sorted, IH.
Qed.
End RealOrder.

(** X2: on real coordinates, the receptors of every sub-domain are in
    non-decreasing lexicographic order of [(lat, lon)]: each one is below or
    equal to all that follow. *)
Theorem receptors_are_sorted_by_lat_lon {Area : Type}
    (is_point_in_area : Coord R -> Area -> bool) (mesh : dict Z (SubDomain Area))
    (receptor_list : list (Coord R)) (id : Z) :
  StronglySorted key_le (receptors_of is_point_in_area mesh receptor_list id).
Proof.
  unfold receptors_of. rewrite receptor_coords_lookup.
  destruct (dict_get mesh id); simpl; [apply RealOrder.sort_sorted | constructor].
Qed.

(** ** Exceptions *)

Section Exceptions.
Context {num : Type} `{Num num} {Area : Type}.
Variable is_point_in_area : Coord num -> Area -> bool.
Variable Pollutant : list string.
Variable get_empirical_background_pollution : gmap string num.
Variable date_start date_end : Z.
Variable mesh : dict Z (SubDomain Area).
Variable weather_data : dict Z (Weather num).
Variable background_pollution : dict Z (gmap string num).
Variable traffic_volumes : dict Z (dict Link num).
Variable utilities : Utilities num.
Variable caline_estimates : dict Z (dict (Coord num) (gmap string num)).
Variable receptor_list : list (Coord num).

Local Abbreviation step :=
  (sub_domain_step is_point_in_area Pollutant mesh utilities caline_estimates receptor_list).
Local Abbreviation iter :=
  (iteration is_point_in_area Pollutant mesh weather_data background_pollution traffic_volumes
             utilities caline_estimates receptor_list).
Local Abbreviation loop :=
  (while_loop is_point_in_area Pollutant date_end mesh weather_data background_pollution
              traffic_volumes utilities caline_estimates receptor_list).
Local Abbreviation run :=
  (pre_process is_point_in_area Pollutant get_empirical_background_pollution
               date_start date_end mesh weather_data background_pollution traffic_volumes
               utilities caline_estimates receptor_list).

Lemma statistics_raises :
  (exists st, statistics date_start date_end weather_data traffic_volumes utilities = Ok st)
  \/ (statistics date_start date_end weather_data traffic_volumes utilities = Raise AxisError
      /\ (weather_data = [] \/ bounding_box utilities = [])).
Proof.
  unfold statistics.
  destruct (decide (dict_values weather_data = [])) as [Hw|Hw].
  { right. split; [reflexivity|]. left. destruct weather_data; [reflexivity|discriminate]. }
  destruct (decide (dict_values (bounding_box utilities) = [])) as [Hb|Hb].
  { right. split; [reflexivity|]. right.
    destruct (bounding_box utilities); [reflexivity|discriminate]. }
  left. eexists. reflexivity.
Qed.

Lemma statistics_ok st :
  statistics date_start date_end weather_data traffic_volumes utilities = Ok st ->
  weather_data <> [] /\ bounding_box utilities <> [].
Proof.
  unfold statistics.
  destruct (decide (dict_values weather_data = [])) as [Hw|Hw]; [discriminate|].
  destruct (decide (dict_values (bounding_box utilities) = [])) as [Hb|Hb]; [discriminate|].
  intros _. split; intros Heq; [apply Hw | apply Hb]; rewrite Heq; reflexivity.
Qed.

(** X3: [pre_process] ends normally, with a [KeyError] or with an
    [AxisError], and with the [AxisError] exactly when the weather series or
    the bounding box is empty; nothing has then been written. *)
Theorem pre_process_exceptions :
  (run.1 = Ok tt \/ run.1 = Raise KeyError \/ run.1 = Raise AxisError)
  /\ (run.1 = Raise AxisError <-> weather_data = [] \/ bounding_box utilities = [])
  /\ (run.1 = Raise AxisError -> run.2 = []).
Proof.
  unfold pre_process.
  destruct statistics_raises as [[st Hst] | [Hst Hempty]]; rewrite Hst.
  - destruct (statistics_ok st Hst) as [Hweather Hbox].
    unfold bind.
    destruct (while_loop _ _ _ _ _ _ _ _ _ _ st _ date_start _) as [[[]|e] s1] eqn:Hloop.
    + pose proof (final_flush_ok s1) as Hok. destruct (final_flush s1) as [r s2].
      simpl in *. subst r. split; [auto|]. split; [|discriminate].
      split; [discriminate | intros [?|?]; contradiction].
    + assert (He : e = KeyError).
      { eapply (while_loop_raises_KeyError is_point_in_area Pollutant date_end mesh
                  weather_data background_pollution traffic_volumes utilities
                  caline_estimates receptor_list st _ date_start); [reflexivity|].
        rewrite Hloop. reflexivity. }
      subst e. simpl. split; [auto|]. split; [|discriminate].
      split; [discriminate | intros [?|?]; contradiction].
  - simpl. split; [auto|]. split; [|reflexivity]. split; [intros _; exact Hempty | reflexivity].
Qed.

(** A loop whose body returns normally and keeps [I] returns normally. *)
Lemma for_each_ok {A : Type} (I : State num -> Prop) (f : A -> M num unit) (l : list A) :
  (forall x s, x ∈ l -> I s -> (f x s).1 = Ok tt /\ I (f x s).2) ->
  forall s, I s -> (for_each f l s).1 = Ok tt /\ I (for_each f l s).2.
Proof.
  induction l as [|x l IH]; intros Hf s Hs; [split; [reflexivity | exact Hs]|].
  simpl. unfold bind.
  destruct (Hf x s ltac:(left) Hs) as [Hok Hx].
  destruct (f x s) as [[[]|e] s1]; simpl in *; [|discriminate].
  apply IH; [|exact Hx]. intros y s2 Hy. apply Hf. right. exact Hy.
Qed.

Section NoException.
Hypothesis geometry : forall item link,
  item ∈ mesh -> link ∈ links item.2 -> is_Some (dict_get (links_in_area utilities) link).

(** The carried background has a value for every pollutant. *)
Let covers (s : State num) : Prop :=
  forall poll, poll ∈ Pollutant -> is_Some (current_background_pollution s !! poll).

Lemma sub_domain_step_ok st t w volumes item s :
  item ∈ mesh -> covers s ->
  (step st t w volumes item s).1 = Ok tt /\ covers (step st t w volumes item s).2.
Proof.
  intros Hitem Hs. split.
  - unfold sub_domain_step. destruct (dict_get caline_estimates t) as [estimates|];
      [|reflexivity].
    unfold bind, lift.
    destruct (assemble_ok is_point_in_area Pollutant mesh utilities receptor_list st t w
                volumes estimates (current_background_pollution s) item.1 item.2
                (fun link Hlink => geometry item link Hitem Hlink) Hs) as (r & -> & _).
    apply append_entry_ok.
  - unfold covers. rewrite sub_domain_step_background. exact Hs.
Qed.

Lemma iteration_ok st t s :
  covers s -> (iter st t s).1 = Ok tt /\ covers (iter st t s).2.
Proof.
  intros Hs. unfold iteration.
  destruct (dict_get weather_data t) as [w|]; [|split; [reflexivity | exact Hs]].
  destruct (dict_get traffic_volumes t) as [volumes|]; [|split; [reflexivity | exact Hs]].
  unfold bind at 1. unfold bind at 1. unfold update_background.
  destruct (dict_get background_pollution t) as [update|].
  - apply for_each_ok.
    + intros item s' Hitem Hs'. apply sub_domain_step_ok; assumption.
    + intros poll Hpoll. simpl. rewrite background_fold_union, lookup_union.
      destruct (Hs poll Hpoll) as [b ->]. destruct (update !! poll); eexists; reflexivity.
  - apply for_each_ok; [|exact Hs].
    intros item s' Hitem Hs'. apply sub_domain_step_ok; assumption.
Qed.

Lemma while_loop_ok st (fuel : nat) : forall date_current s,
  (Z.to_nat (date_end - date_current + 1) <= fuel)%nat ->
  covers s -> (loop st fuel date_current s).1 = Ok tt.
Proof.
  induction fuel as [|fuel IH]; intros date_current s Hfuel Hs; simpl.
  - destruct (date_current <=? date_end) eqn:Hle; [|reflexivity].
    apply Z.leb_le in Hle. lia.
  - destruct (date_current <=? date_end) eqn:Hle; [|reflexivity].
    apply Z.leb_le in Hle. unfold bind. fold (iter st).
    destruct (iteration_ok st date_current s Hs) as [Hok Hs1].
    destruct (iter st date_current s) as [[[]|e] s1]; simpl in *; [|discriminate].
    apply IH; [unfold time_step; lia | exact Hs1].
Qed.

(** X4: with a weather series and a bounding box that are not empty, a
    geometry in [links_in_area] for every link of the mesh, and an empirical
    background value for every pollutant, [pre_process] ends normally. *)
Theorem pre_process_ends_normally :
  weather_data <> [] ->
  bounding_box utilities <> [] ->
  (forall poll, poll ∈ Pollutant -> is_Some (get_empirical_background_pollution !! poll)) ->
  run.1 = Ok tt.
Proof.
  intros Hweather Hbox Hbackground. unfold pre_process.
  destruct statistics_raises as [[st Hst] | [_ [Hempty|Hempty]]]; [|contradiction..].
  rewrite Hst. unfold bind.
  pose proof (while_loop_ok st (Z.to_nat (date_end - date_start + 1)) date_start
                (initial_state get_empirical_background_pollution) ltac:(reflexivity)
                Hbackground) as Hloop.
  destruct (while_loop _ _ _ _ _ _ _ _ _ _ st _ date_start _) as [[[]|e] s1];
    simpl in Hloop; [|discriminate].
  pose proof (final_flush_ok s1) as Hok. destruct (final_flush s1). exact Hok.
Qed.
End NoException.

(** X5: a pollutant that no background update mentions keeps, for the
    whole loop and however the loop ends, the value it had at the start. *)
Theorem unmentioned_pollutant_keeps_its_value (st : NormalizationStats num) (pol : string)
    (fuel : nat) (date_current : Z) (s : State num) :
  (forall t update, dict_get background_pollution t = Some update -> update !! pol = None) ->
  current_background_pollution (loop st fuel date_current s).2 !! pol
  = current_background_pollution s !! pol.
Proof.
  intros Hunmentioned. revert date_current s.
  induction fuel as [|fuel IH]; intros date_current s; simpl.
  - destruct (date_current <=? date_end); reflexivity.
  - destruct (date_current <=? date_end); [|reflexivity].
    unfold bind. fold (iter st).
    assert (Hit : current_background_pollution (iter st date_current s).2 !! pol
                  = current_background_pollution s !! pol).
    { rewrite iteration_background.
      destruct (dict_get weather_data date_current); [|reflexivity].
      destruct (dict_get traffic_volumes date_current); [|reflexivity].
      destruct (dict_get background_pollution date_current) as [update|] eqn:Hupdate;
        [|reflexivity].
      apply lookup_union_r. eapply Hunmentioned, Hupdate. }
    destruct (iter st date_current s) as [[[]|e] s1]; simpl in Hit; [|exact Hit].
    rewrite IH. exact Hit.
Qed.
End Exceptions.

(** ** Assembly: missing keys, bounds and layout *)

Section AssemblyEdges.
Context {num : Type} `{Num num} {Area : Type}.
Variable is_point_in_area : Coord num -> Area -> bool.
Variable Pollutant : list string.
Variable mesh : dict Z (SubDomain Area).
Variable utilities : Utilities num.
Variable receptor_list : list (Coord num).
Variable st : NormalizationStats num.


(** X7: a sub-domain with 20 links or more is neither padded nor
    truncated: its link block has five scalars for each of its links and
    no zero after them. *)
Theorem more_than_twenty_links_are_kept (sd : SubDomain Area) (volumes : dict Link num)
    (ls : list (Link * (Coord num * Coord num))) :
  links_and_coords utilities sd = Ok ls ->
  (20 <= length (links sd))%nat ->
  current_traffic_volume st volumes ls = flat_map (link_features st volumes) ls
  /\ length (current_traffic_volume st volumes ls) = (5 * length (links sd))%nat.
Proof.
  intros Hls Hk. pose proof (result_map_length _ _ _ Hls) as Hlen.
  split.
  - unfold current_traffic_volume, zeros.
    replace (Z.to_nat ((20 - Z.of_nat (length ls)) * 5)) with 0%nat by lia.
    apply app_nil_r.
  - rewrite length_current_traffic_volume, Hlen. lia.
Qed.

Lemma normalize_coords_pairs (l : list (Coord num)) :
  Forall (fun p => length p = 2%nat) (map (normalize_coords st) l).
Proof. induction l; simpl; constructor; [reflexivity | assumption]. Qed.

(** X8: in a record assembled for a sub-domain with at most 20 links, the
    input holds the normalized time at index 0, the normalized weather at
    indices 1 to 4 and, for the [i]-th receptor of the sub-domain, its
    normalized latitude and longitude at indices [105 + 2 i] and
    [106 + 2 i]; the label of that receptor for the [j]-th pollutant is at
    index [i * len(Pollutant) + j] of the labels. *)
Theorem inputs_and_labels_are_aligned (t : Z) (w : Weather num) (volumes : dict Link num)
    (estimates : dict (Coord num) (gmap string num)) (background : gmap string num)
    (id : Z) (sd : SubDomain Area) (r : ProcessedRecord num) :
  assemble is_point_in_area Pollutant mesh utilities receptor_list st
           t w volumes estimates background id sd = Ok r ->
  (length (links sd) <= 20)%nat ->
  input r !! 0%nat = Some (normalize_time st (timestamp t))
  /\ take 4 (drop 1 (input r)) = normalize_weather st w
  /\ forall (i : nat) (coord : Coord num),
       receptors_of is_point_in_area mesh receptor_list id !! i = Some coord ->
       input r !! (105 + 2 * i)%nat
       = Some (normalize coord.1 (coord_mean st).1 (coord_std st).1)
       /\ input r !! (105 + 2 * i + 1)%nat
          = Some (normalize coord.2 (coord_mean st).2 (coord_std st).2)
       /\ forall (j : nat) (poll : string),
            Pollutant !! j = Some poll ->
            exists v, raw_label estimates background coord poll = Ok v
                      /\ labels r !! (i * length Pollutant + j)%nat = Some (clamp v).
Proof.
  intros Hr Hk.
  destruct (assemble_labels _ _ _ _ _ _ _ _ _ _ _ _ _ _ Hr) as (raw & Hraw & Hlabels).
  unfold assemble, mbind, result_bind in Hr.
  destruct (links_and_coords utilities sd) as [ls|] eqn:Hls; [|discriminate].
  destruct (current_estimates _ _ _ _) as [stored|]; [|discriminate].
  injection Hr as <-. cbn [input labels] in *.
  split; [reflexivity|]. split; [reflexivity|].
  intros i coord Hcoord.
  assert (Hblock : length (current_traffic_volume st volumes ls) = 100%nat).
  { rewrite length_current_traffic_volume, (result_map_length _ _ _ Hls). lia. }
  assert (Hreceptor : forall c, (c < 2)%nat ->
            ([normalize_time st (timestamp t)]
             ++ normalize_weather st w ++ current_traffic_volume st volumes ls
                ++ current_receptors st (receptors_of is_point_in_area mesh receptor_list id))
              !! (105 + 2 * i + c)%nat
            = normalize_coords st coord !! c).
  { intros c Hc.
    rewrite lookup_app_r by (simpl; lia).
    rewrite lookup_app_r by (rewrite length_normalize_weather; simpl; lia).
    rewrite lookup_app_r by (rewrite length_normalize_weather, Hblock; simpl; lia).
    unfold current_receptors. rewrite flat_map_concat_map.
    rewrite <- (lookup_concat_constant
                  2 _ (normalize_coords_pairs
                         (receptors_of is_point_in_area mesh receptor_list id))
                  i c (normalize_coords st coord)); [| |exact Hc].
    - f_equal. rewrite length_normalize_weather, Hblock. simpl. lia.
    - change (map (normalize_coords st)) with (fmap (M:=list) (normalize_coords st)).
      rewrite list_lookup_fmap, Hcoord. reflexivity. }
  split; [|split].
  - rewrite <- (Nat.add_0_r (105 + 2 * i)). apply (Hreceptor 0%nat). lia.
  - apply (Hreceptor 1%nat). lia.
  - intros j poll Hpoll.
    pose proof (result_map_Forall2 _ _ _ Hraw) as Hrows.
    destruct (Forall2_lookup_l _ _ _ _ _ Hrows Hcoord) as (row & Hrow & Hvalues).
    pose proof (result_map_Forall2 _ _ _ Hvalues) as Hrow2.
    destruct (Forall2_lookup_l _ _ _ _ _ Hrow2 Hpoll) as (v & Hv & Hraw_v).
    exists v. split; [exact Hraw_v|].
    rewrite Hlabels.
    change (map clamp) with (fmap (M:=list) clamp).
    rewrite list_lookup_fmap.
    rewrite (lookup_concat_constant (length Pollutant) raw) with (row := row);
      [rewrite Hv; reflexivity | | exact Hrow |].
    + clear -Hrows. induction Hrows as [|c row' cs rows Hrow' _ IH]; constructor;
        [|exact IH].
      apply (result_map_length _ _ _ Hrow').
    + apply lookup_lt_Some in Hpoll. exact Hpoll.
Qed.
End AssemblyEdges.

(** X9: an estimate missing for the receptor, or for the pollutant of a
    receptor, gives the label 0 without reading the background, so also when
    the background has no value for that pollutant; an estimate that is
    present needs the background value and raises [KeyError] without it. *)
Theorem missing_estimate_gives_label_zero
    (estimates : dict (Coord float) (gmap string float)) (background : gmap string float)
    (coord : Coord float) (poll : string) :
  (dict_get estimates coord = None
   \/ (exists by_pollutant, dict_get estimates coord = Some by_pollutant
                            /\ by_pollutant !! poll = None) ->
   label estimates background coord poll = Ok 0%float)
  /\ (forall by_pollutant estimate,
        dict_get estimates coord = Some by_pollutant ->
        by_pollutant !! poll = Some estimate ->
        (background !! poll = None ->
         label estimates background coord poll = Raise KeyError)
        /\ (forall b, background !! poll = Some b ->
                      label estimates background coord poll
                      = Ok (clamp (estimate - b)%float))).
Proof.
  assert (Hzero : clamp (num_of_Z 0 : float) = 0%float) by (vm_compute; reflexivity).
  unfold label, raw_label, mbind, result_bind. split.
  - intros [-> | (by_pollutant & -> & ->)]; rewrite Hzero; reflexivity.
  - intros by_pollutant estimate -> ->. split.
    + intros ->. reflexivity.
    + intros b ->. reflexivity.
Qed.

(** ** The timeline *)

Lemma hours_unfold (date_current date_end : Z) :
  date_current <= date_end ->
  hours date_current date_end = date_current :: hours (date_current + time_step) date_end.
Proof.
  intros Hle. unfold hours, time_step.
  destruct (date_current <=? date_end) eqn:H1; [|apply Z.leb_gt in H1; lia].
  assert (Hq : 0 <= (date_end - date_current) / 3600) by (apply Z.div_pos; lia).
  replace (Z.to_nat ((date_end - date_current) / 3600 + 1))
    with (S (Z.to_nat ((date_end - date_current) / 3600))) by lia.
  simpl. f_equal. unfold time_step.
  destruct (date_current + 3600 <=? date_end) eqn:H2.
  - apply Z.leb_le in H2. f_equal.
    replace (date_end - date_current) with ((date_end - (date_current + 3600)) + 1 * 3600)
      by lia.
    rewrite Z.div_add by lia. lia.
  - apply Z.leb_gt in H2. rewrite Z.div_small by lia. reflexivity.
Qed.

Lemma hours_empty (date_current date_end : Z) :
  date_end < date_current -> hours date_current date_end = [].
Proof.
  intros Hlt. unfold hours. destruct (date_current <=? date_end) eqn:Hle; [|reflexivity].
  apply Z.leb_le in Hle. lia.
Qed.

Lemma hours_from_elem_of (n : nat) : forall (a t : Z),
  t ∈ hours_from n a <-> exists k : nat, (k < n)%nat /\ t = a + Z.of_nat k * time_step.
Proof.
  induction n as [|n IH]; intros a t; simpl.
  - split; [intros Hin; inversion Hin | intros (k & Hk & _); lia].
  - rewrite elem_of_cons, IH. split.
    + intros [-> | (k & Hk & ->)].
      * exists 0%nat. split; lia.
      * exists (S k). split; lia.
    + intros ([|k] & Hk & ->).
      * left. lia.
      * right. exists k. split; lia.
Qed.

Section Timeline.
Context {num : Type} `{Num num} {Area : Type}.
Variable is_point_in_area : Coord num -> Area -> bool.
Variable Pollutant : list string.
Variable get_empirical_background_pollution : gmap string num.
Variable date_start date_end : Z.
Variable mesh : dict Z (SubDomain Area).
Variable weather_data : dict Z (Weather num).
Variable background_pollution : dict Z (gmap string num).
Variable traffic_volumes : dict Z (dict Link num).
Variable utilities : Utilities num.
Variable caline_estimates : dict Z (dict (Coord num) (gmap string num)).
Variable receptor_list : list (Coord num).

Local Abbreviation iter :=
  (iteration is_point_in_area Pollutant mesh weather_data background_pollution traffic_volumes
             utilities caline_estimates receptor_list).
Local Abbreviation loop :=
  (while_loop is_point_in_area Pollutant date_end mesh weather_data background_pollution
              traffic_volumes utilities caline_estimates receptor_list).
Local Abbreviation run :=
  (pre_process is_point_in_area Pollutant get_empirical_background_pollution
               date_start date_end mesh weather_data background_pollution traffic_volumes
               utilities caline_estimates receptor_list).

Lemma while_loop_hours st (fuel : nat) : forall date_current s,
  (Z.to_nat (date_end - date_current + 1) <= fuel)%nat ->
  loop st fuel date_current s = for_each (iter st) (hours date_current date_end) s.
Proof.
  induction fuel as [|fuel IH]; intros date_current s Hfuel; simpl.
  - destruct (date_current <=? date_end) eqn:Hle.
    + apply Z.leb_le in Hle. lia.
    + apply Z.leb_gt in Hle. rewrite hours_empty by lia. reflexivity.
  - destruct (date_current <=? date_end) eqn:Hle.
    + apply Z.leb_le in Hle. rewrite (hours_unfold _ _ Hle). simpl.
      unfold bind. fold (iter st).
      destruct (iter st date_current s) as [[[]|e] s1]; [|reflexivity].
      apply IH. unfold time_step. lia.
    + apply Z.leb_gt in Hle. rewrite hours_empty by lia. reflexivity.
Qed.

(** X10: the loop of [pre_process] runs the body once for each of the
    timestamps [date_start], [date_start + 1h], ... that do not exceed
    [date_end], in this order, up to the first exception; these are
    [(date_end - date_start) div 3600 + 1] timestamps when
    [date_start <= date_end], and none otherwise. *)
Theorem loop_visits_the_hours_of_the_range (st : NormalizationStats num) (s : State num) :
  loop st (Z.to_nat (date_end - date_start + 1)) date_start s
  = for_each (iter st) (hours date_start date_end) s
  /\ (forall t, t ∈ hours date_start date_end
                <-> exists k : Z, 0 <= k /\ t = date_start + k * 3600 /\ t <= date_end)
  /\ (date_start <= date_end ->
      Z.of_nat (length (hours date_start date_end)) = (date_end - date_start) / 3600 + 1)
  /\ (date_end < date_start -> hours date_start date_end = []).
Proof.
  split; [apply while_loop_hours; reflexivity|].
  assert (Hlen : forall n a, length (hours_from n a) = n).
  { induction n as [|n IH]; intros a; simpl; [reflexivity | rewrite IH; reflexivity]. }
  split; [|split; [|apply hours_empty]].
  - intros t. unfold hours.
    destruct (date_start <=? date_end) eqn:Hle.
    + apply Z.leb_le in Hle. rewrite hours_from_elem_of. unfold time_step.
      assert (Hq : 0 <= (date_end - date_start) / 3600) by (apply Z.div_pos; lia).
      split.
      * intros (k & Hk & ->). exists (Z.of_nat k). split; [lia|]. split; [reflexivity|].
        assert (Z.of_nat k <= (date_end - date_start) / 3600) by lia.
        pose proof (Z.mul_div_le (date_end - date_start) 3600 ltac:(lia)). nia.
      * intros (k & Hk & -> & Hend). exists (Z.to_nat k). split; [|lia].
        assert (k <= (date_end - date_start) / 3600); [|lia].
        apply Z.div_le_lower_bound; lia.
    + apply Z.leb_gt in Hle. split; [intros Hin; inversion Hin|].
      intros (k & Hk & -> & Hend). nia.
  - intros Hle. unfold hours. apply Z.leb_le in Hle as Hle'. rewrite Hle', Hlen.
    assert (Hq : 0 <= (date_end - date_start) / time_step)
      by (apply Z.div_pos; unfold time_step; lia).
    unfold time_step in *. lia.
Qed.

(** X11: when [date_end] is before [date_start], and the weather series
    and the bounding box are not empty, [pre_process] ends normally without
    giving anything to [insert_many]. *)
Theorem empty_range_writes_nothing :
  date_end < date_start ->
  weather_data <> [] ->
  bounding_box utilities <> [] ->
  run = (Ok tt, []).
Proof.
  intros Hlt Hweather Hbox. unfold pre_process.
  destruct (statistics_raises date_start date_end weather_data traffic_volumes utilities)
    as [[st Hst] | [_ [Hempty|Hempty]]]; [|contradiction..].
  rewrite Hst. unfold bind.
  rewrite (while_loop_hours st _ date_start _ ltac:(reflexivity)), hours_empty by lia.
  reflexivity.
Qed.

Local Abbreviation assemble_ :=
  (assemble is_point_in_area Pollutant mesh utilities receptor_list).
Local Abbreviation trace_mesh :=
  (assembled_for_mesh is_point_in_area Pollutant mesh utilities receptor_list).
Local Abbreviation trace_at :=
  (assembled_at is_point_in_area Pollutant mesh weather_data background_pollution
                traffic_volumes utilities caline_estimates receptor_list).
Local Abbreviation trace :=
  (assembled_records is_point_in_area Pollutant get_empirical_background_pollution
                     date_start date_end mesh weather_data background_pollution
                     traffic_volumes utilities caline_estimates receptor_list).

Lemma same_writer_persisted (s s' : State num) : same_writer s s' -> persisted s' = persisted s.
Proof. unfold same_writer, persisted. intros [-> ->]. reflexivity. Qed.

(** What an iteration adds to the written sequence. *)
Lemma iteration_persisted st t s :
  persisted (iter st t s).2
  = persisted s ++ (trace_at st t (current_background_pollution s)).1.1.
Proof.
  destruct (iteration_refines is_point_in_area Pollutant mesh weather_data
              background_pollution traffic_volumes utilities caline_estimates receptor_list
              st t s) as (_ & Hwriter & _).
  rewrite (same_writer_persisted _ _ Hwriter). apply writes_persisted.
Qed.

Lemma assemble_fields st t w volumes estimates background id sd r :
  assemble_ st t w volumes estimates background id sd = Ok r ->
  sub_domain r = id /\ mesh_size r = length mesh
  /\ input r !! 0%nat = Some (normalize_time st (timestamp t)).
Proof.
  unfold assemble, mbind, result_bind.
  destruct (links_and_coords utilities sd); [|discriminate].
  destruct (current_estimates _ _ _ _); [|discriminate].
  intros [= <-]. repeat split.
Qed.

(** The records of one pass over the sub-domains. *)
Lemma assembled_for_mesh_records st t w volumes estimates background
    (items : dict Z (SubDomain Area)) :
  let tr := trace_mesh st t w volumes estimates background items in
  map sub_domain tr.1 = take (length tr.1) (map fst items)
  /\ Forall (fun r => mesh_size r = length mesh
                      /\ input r !! 0%nat = Some (normalize_time st (timestamp t))) tr.1
  /\ (tr.2 = Ok tt -> length tr.1 = length items).
Proof.
  induction items as [|[id sd] items IH]; simpl.
  - repeat split. constructor.
  - destruct (assemble _ _ _ _ _ _ _ _ _ _ _ _ _) as [r|e] eqn:Hr.
    + destruct (assemble_fields _ _ _ _ _ _ _ _ _ Hr) as (Hid & Hsize & Hfirst).
      destruct (trace_mesh st t w volumes estimates background items) as [rs res].
      simpl in *. destruct IH as (Hids & Hall & Hlen).
      split; [rewrite Hid, Hids; reflexivity|].
      split; [constructor; [split; assumption | exact Hall]|].
      intros Hok. rewrite (Hlen Hok). reflexivity.
    + simpl. repeat split; [constructor | discriminate].
Qed.

Lemma assembled_at_records st t background :
  Forall (fun r => mesh_size r = length mesh
                   /\ input r !! 0%nat = Some (normalize_time st (timestamp t)))
         (trace_at st t background).1.1.
Proof.
  unfold assembled_at.
  destruct (dict_get weather_data t) as [w|]; [|constructor].
  destruct (dict_get traffic_volumes t) as [volumes|]; [|constructor].
  destruct (dict_get caline_estimates t) as [estimates|]; [|constructor].
  apply assembled_for_mesh_records.
Qed.

(** The records of one pass are those of the sub-domains before the first
    one whose assembly raises. *)
Lemma assembled_for_mesh_prefix st t w volumes estimates background
    (items : dict Z (SubDomain Area)) :
  let tr := trace_mesh st t w volumes estimates background items in
  Forall2 (fun item r => assemble_ st t w volumes estimates background item.1 item.2 = Ok r)
          (take (length tr.1) items) tr.1
  /\ (forall e, tr.2 = Raise e ->
      exists item, items !! length tr.1 = Some item
                   /\ assemble_ st t w volumes estimates background item.1 item.2 = Raise e).
Proof.
  induction items as [|[id sd] items IH]; simpl.
  - split; [constructor | discriminate].
  - destruct (assemble _ _ _ _ _ _ _ _ _ _ _ _ _) as [r|e] eqn:Hr.
    + destruct (trace_mesh st t w volumes estimates background items) as [rs res].
      simpl in *. destruct IH as [Hall Hraise].
      split; [constructor; assumption | exact Hraise].
    + simpl. split; [constructor|]. intros e' [= <-].
      exists (id, sd). split; [reflexivity | exact Hr].
Qed.

(** X12: at a timestamp with weather, traffic and Caline entries, the
    iteration writes one record for each sub-domain, in the order of the
    mesh, up to the sub-domain whose assembly raises: the new records are
    those assembled, with the background mapping as updated at this
    timestamp, for the first sub-domains of the mesh; all carry the number of
    sub-domains of the mesh as [mesh_size]; when the iteration returns
    normally they are as many as the sub-domains, and when it raises, the
    exception is that of the assembly of the sub-domain that follows the last
    one written. *)
Theorem one_record_for_each_sub_domain (st : NormalizationStats num) (t : Z)
    (w : Weather num) (volumes : dict Link num)
    (estimates : dict (Coord num) (gmap string num)) (s : State num) :
  dict_get weather_data t = Some w ->
  dict_get traffic_volumes t = Some volumes ->
  dict_get caline_estimates t = Some estimates ->
  let background := match dict_get background_pollution t with
                    | Some update => update ∪ current_background_pollution s
                    | None => current_background_pollution s
                    end in
  exists rs,
    persisted (iter st t s).2 = persisted s ++ rs
    /\ Forall2 (fun item r =>
                 assemble_ st t w volumes estimates background item.1 item.2 = Ok r)
              (take (length rs) mesh) rs
    /\ map sub_domain rs = take (length rs) (map fst mesh)
    /\ Forall (fun r => mesh_size r = length mesh) rs
    /\ ((iter st t s).1 = Ok tt -> length rs = length mesh /\ map sub_domain rs = map fst mesh)
    /\ (forall e, (iter st t s).1 = Raise e ->
        exists item, mesh !! length rs = Some item
                     /\ assemble_ st t w volumes estimates background item.1 item.2 = Raise e).
Proof.
  intros Hw Hv Hc background.
  exists (trace_at st t (current_background_pollution s)).1.1.
  split; [apply iteration_persisted|].
  destruct (iteration_refines is_point_in_area Pollutant mesh weather_data
              background_pollution traffic_volumes utilities caline_estimates receptor_list
              st t s) as (Hres & _ & _).
  rewrite Hres. unfold assembled_at. rewrite Hw, Hv, Hc. fold background. simpl.
  destruct (assembled_for_mesh_records st t w volumes estimates background mesh)
    as (Hids & Hall & Hlen).
  destruct (assembled_for_mesh_prefix st t w volumes estimates background mesh)
    as (Hprefix & Hraise).
  split; [exact Hprefix|]. split; [exact Hids|]. split; [|split].
  - eapply Forall_impl; [exact Hall|]. intros r [Hsize _]. exact Hsize.
  - intros Hok. split; [exact (Hlen Hok)|].
    rewrite Hids, (Hlen Hok), <- (length_map fst mesh). apply firstn_all.
  - exact Hraise.
Qed.

(** The first input of every record written by the loop over a list of
    timestamps is the normalized time of one of them. *)
Lemma hours_records st (ts : list Z) s :
  Forall (fun r => exists t, t ∈ ts
                             /\ input r !! 0%nat = Some (normalize_time st (timestamp t)))
         (persisted s) ->
  Forall (fun r => exists t, t ∈ ts
                             /\ input r !! 0%nat = Some (normalize_time st (timestamp t)))
         (persisted (for_each (iter st) ts s).2).
Proof.
  intros Hs.
  apply (for_each_preserves
           (fun s0 => Forall (fun r => exists t, t ∈ ts /\ input r !! 0%nat
                                = Some (normalize_time st (timestamp t))) (persisted s0)));
    [|exact Hs].
  intros t s0 Ht Hs0. rewrite iteration_persisted. apply Forall_app. split; [exact Hs0|].
  eapply Forall_impl; [apply assembled_at_records|].
  intros r [_ Hfirst]. exists t. split; assumption.
Qed.

(** What [pre_process] has written is part of the sequence written by the
    loop. *)
Lemma pre_process_written (P : ProcessedRecord num -> Prop) st :
  statistics date_start date_end weather_data traffic_volumes utilities = Ok st ->
  Forall P (persisted
              (loop st (Z.to_nat (date_end - date_start + 1)) date_start
                    (initial_state get_empirical_background_pollution)).2) ->
  Forall P (concat run.2).
Proof.
  intros Hst Hall. unfold pre_process. rewrite Hst. unfold bind.
  destruct (while_loop _ _ _ _ _ _ _ _ _ _ st _ date_start _) as [[[]|e] s1];
    simpl in Hall; unfold persisted in Hall; apply Forall_app in Hall as [Hflushed Hbuffer].
  - unfold final_flush. destruct (collection_of_pre_processed_entries s1) eqn:Hentries; simpl.
    + exact Hflushed.
    + rewrite concat_app. simpl. rewrite app_nil_r. apply Forall_app. split; assumption.
  - exact Hflushed.
Qed.

(** X13: the first input of every record written by a run is the
    normalized time of one of the hourly timestamps of the range. *)
Theorem first_input_is_the_time_of_an_hour (st : NormalizationStats num) :
  statistics date_start date_end weather_data traffic_volumes utilities = Ok st ->
  Forall (fun r => exists t, t ∈ hours date_start date_end
                             /\ input r !! 0%nat = Some (normalize_time st (timestamp t)))
         (concat run.2).
Proof.
  intros Hst. apply (pre_process_written _ st Hst).
  rewrite (while_loop_hours st _ date_start _ ltac:(reflexivity)).
  apply hours_records. constructor.
Qed.

(** A pass over sub-domains that are all assembled, followed by one whose
    assembly raises. *)
Lemma assembled_for_mesh_app st t w volumes estimates background
    (good rest : dict Z (SubDomain Area)) (bad : Z * SubDomain Area) e :
  Forall (fun item => exists r,
            assemble_ st t w volumes estimates background item.1 item.2 = Ok r) good ->
  assemble_ st t w volumes estimates background bad.1 bad.2 = Raise e ->
  length (trace_mesh st t w volumes estimates background (good ++ bad :: rest)).1 = length good
  /\ (trace_mesh st t w volumes estimates background (good ++ bad :: rest)).2 = Raise e.
Proof.
  intros Hgood Hbad. induction Hgood as [|item good [r Hr] _ IH]; simpl.
  - rewrite Hbad. split; reflexivity.
  - rewrite Hr.
    destruct (trace_mesh st t w volumes estimates background (good ++ bad :: rest))
      as [rs res].
    simpl in *. destruct IH as [-> ->]. split; reflexivity.
Qed.

(** The assembled records of a run over a single hour that has weather,
    traffic and Caline entries are those of one pass over the mesh. *)
Lemma one_hour_trace st w volumes estimates :
  date_end = date_start ->
  statistics date_start date_end weather_data traffic_volumes utilities = Ok st ->
  dict_get weather_data date_start = Some w ->
  dict_get traffic_volumes date_start = Some volumes ->
  dict_get caline_estimates date_start = Some estimates ->
  trace
  = trace_mesh st date_start w volumes estimates
               (match dict_get background_pollution date_start with
                | Some update => update ∪ get_empirical_background_pollution
                | None => get_empirical_background_pollution
                end) mesh.
Proof.
  intros Hend Hst Hw Hv Hc. unfold assembled_records. rewrite Hst, Hend.
  replace (Z.to_nat (date_start - date_start + 1)) with 1%nat by lia.
  cbn [assembled_from]. rewrite Z.leb_refl. unfold assembled_at. rewrite Hw, Hv, Hc.
  destruct (trace_mesh st date_start w volumes estimates _ mesh) as [rs [[]|e]];
    [|reflexivity].
  assert (Hafter : (date_start + time_step <=? date_start) = false)
    by (apply Z.leb_gt; unfold time_step; lia).
  rewrite Hafter, app_nil_r. reflexivity.
Qed.

(** X14: when an exception ends the run, every batch given to
    [insert_many] before it is a full one of 100000 records, and the
    assembled records that were not written are those of the buffer, fewer
    than 100000. *)
Theorem exception_loses_less_than_a_batch (e : exn) :
  run.1 = Raise e ->
  Forall (fun batch => Z.of_nat (length batch) = max_collection_size) run.2
  /\ exists rest, concat run.2 ++ rest = trace.1
                  /\ Z.of_nat (length rest) < max_collection_size.
Proof.
  unfold pre_process, assembled_records.
  destruct (statistics _ _ _ _ _) as [st|e'].
  2:{ simpl. intros _. split; [constructor|]. exists []. split; [reflexivity|].
      unfold max_collection_size. simpl. lia. }
  unfold bind.
  destruct (while_loop_refines is_point_in_area Pollutant date_end mesh weather_data
              background_pollution traffic_volumes utilities caline_estimates receptor_list
              st (Z.to_nat (date_end - date_start + 1)) date_start
              (initial_state get_empirical_background_pollution)) as (_ & Hwriter).
  unfold initial_state in *. simpl in Hwriter.
  destruct (assembled_from _ _ _ _ _ _ _ _ _ _ st _ date_start _) as [rs res].
  simpl in Hwriter.
  destruct (while_loop _ _ _ _ _ _ _ _ _ _ st _ date_start _) as [[[]|e1] s1].
  { pose proof (final_flush_ok s1). destruct (final_flush s1). simpl in *. congruence. }
  simpl. intros _.
  pose proof (writes_persisted rs (mkState get_empirical_background_pollution [] []))
    as Hpersisted.
  destruct (writes_invariant rs (mkState get_empirical_background_pollution [] []))
    as [Hfull Hbuffer].
  { split; [constructor | apply max_collection_size_pos]. }
  rewrite <- (same_writer_persisted _ _ Hwriter) in Hpersisted.
  destruct Hwriter as [Hentries Hbatches]. simpl in Hentries, Hbatches.
  rewrite <- Hbatches in Hfull. rewrite <- Hentries in Hbuffer.
  split.
  - eapply Forall_impl; [exact Hfull|]. intros batch Hb. simpl in Hb.
    unfold max_collection_size in *. lia.
  - exists (collection_of_pre_processed_entries s1). split; [exact Hpersisted|].
    unfold max_collection_size in *. lia.
Qed.
End Timeline.

(** ** Normalization on the reals *)

Module RealNormalization.
Local Open Scope R_scope.

Lemma normalize_pair_between (a b t : R) :
  a < b -> a <= t <= b ->
  -1 <= normalize t (np_mean [a; b]) (np_std [a; b]) <= 1.
Proof.
  intros Hlt Ht. unfold normalize. rewrite RealFacts.np_mean_pair, RealFacts.np_std_pair.
  simpl. rewrite (Rabs_right (b - a)) by lra.
  replace ((t - (a + b) / 2) / ((b - a) / 2)) with ((2 * t - a - b) / (b - a))
    by (field; lra).
  split.
  - apply Rmult_le_reg_r with (b - a); [lra|].
    unfold Rdiv. rewrite Rmult_assoc, Rinv_l by lra. lra.
  - apply Rmult_le_reg_r with (b - a); [lra|].
    unfold Rdiv. rewrite Rmult_assoc, Rinv_l by lra. lra.
Qed.
End RealNormalization.

(** X17: on the reals, with [date_start] before [date_end], the first
    input of every record written by a run, its time feature, lies between
    -1 and 1. *)
Theorem time_feature_is_between_minus_one_and_one {Area : Type}
    (is_point_in_area : Coord R -> Area -> bool) (Pollutant : list string)
    (get_empirical_background_pollution : gmap string R) (date_start date_end : Z)
    (mesh : dict Z (SubDomain Area)) (weather_data : dict Z (Weather R))
    (background_pollution : dict Z (gmap string R)) (traffic_volumes : dict Z (dict Link R))
    (utilities : Utilities R) (caline_estimates : dict Z (dict (Coord R) (gmap string R)))
    (receptor_list : list (Coord R)) :
  date_start < date_end ->
  Forall (fun r => exists x : R, input r !! 0%nat = Some x /\ (-1 <= x <= 1)%R)
         (concat (pre_process is_point_in_area Pollutant get_empirical_background_pollution
                              date_start date_end mesh weather_data background_pollution
                              traffic_volumes utilities caline_estimates receptor_list).2).
Proof.
  intros Hlt.
  destruct (statistics_raises date_start date_end weather_data traffic_volumes utilities)
    as [[st Hst] | [Hst _]].
  - eapply pre_process_written; [exact Hst|].
    rewrite while_loop_hours by reflexivity.
    eapply Forall_impl.
    + apply hours_records. constructor.
    + intros r (t & Ht & Hfirst). eexists. split; [exact Hfirst|].
      destruct (RealFacts.statistics_time _ _ _ _ _ _ Hst) as [Hmean Hstd].
      unfold normalize_time. rewrite Hmean, Hstd.
      assert (Hrange : date_start <= t <= date_end).
      { unfold hours in Ht. destruct (date_start <=? date_end); [|inversion Ht].
        apply hours_from_elem_of in Ht as (k & Hk & ->). unfold time_step in *.
        split; [lia|].
        assert (Z.of_nat k <= (date_end - date_start) / 3600) by lia.
        pose proof (Z.mul_div_le (date_end - date_start) 3600 ltac:(lia)). nia. }
      apply RealNormalization.normalize_pair_between.
      * apply IZR_lt. exact Hlt.
      * split; apply IZR_le; lia.
  - unfold pre_process. rewrite Hst. constructor.
Qed.

(** ** The time statistic *)

Section TimeStatistic.
Context {num : Type} `{Num num} {Area : Type}.
Variable is_point_in_area : Coord num -> Area -> bool.
Variable Pollutant : list string.
Variable get_empirical_background_pollution : gmap string num.
Variable date_start date_end : Z.
Variable mesh : dict Z (SubDomain Area).
Variable weather_data : dict Z (Weather num).
Variable background_pollution : dict Z (gmap string num).
Variable traffic_volumes : dict Z (dict Link num).
Variable utilities : Utilities num.
Variable caline_estimates : dict Z (dict (Coord num) (gmap string num)).
Variable receptor_list : list (Coord num).

(** The time statistic is computed from the two bounds and nothing else. *)
Lemma statistics_time_of_bounds st :
  statistics date_start date_end weather_data traffic_volumes utilities = Ok st ->
  time_mean st = np_mean [timestamp date_start; timestamp date_end]
  /\ time_std st = np_std [timestamp date_start; timestamp date_end].
Proof.
  unfold statistics. repeat case_match; try discriminate.
  intros [= <-]. split; reflexivity.
Qed.

(** When the two bounds of a non-empty range are normalized to [low] and
    [high], these are the time features of the records written at the first
    and at the last hour. *)
Lemma time_feature_at_the_bounds st (low high : num) :
  statistics date_start date_end weather_data traffic_volumes utilities = Ok st ->
  (date_start < date_end ->
   normalize_time st (timestamp date_start) = low
   /\ normalize_time st (timestamp date_end) = high) ->
  date_start <> date_end ->
  Forall (fun r => exists t,
            t ∈ hours date_start date_end
            /\ input r !! 0%nat = Some (normalize_time st (timestamp t))
            /\ (t = date_start -> input r !! 0%nat = Some low)
            /\ (t = date_end -> input r !! 0%nat = Some high))
         (concat (pre_process is_point_in_area Pollutant get_empirical_background_pollution
                              date_start date_end mesh weather_data background_pollution
                              traffic_volumes utilities caline_estimates receptor_list).2).
Proof.
  intros Hst Hbounds Hdiffer.
  eapply pre_process_written; [exact Hst|].
  rewrite while_loop_hours by reflexivity.
  eapply Forall_impl; [apply hours_records; constructor|].
  intros r (t & Ht & Hfirst). exists t. split; [exact Ht|]. split; [exact Hfirst|].
  assert (Hlt : date_start < date_end).
  { unfold hours in Ht. destruct (date_start <=? date_end) eqn:Hle; [|inversion Ht].
    apply Z.leb_le in Hle. lia. }
  destruct (Hbounds Hlt) as [Hlow Hhigh].
  split; intros ->; rewrite Hfirst; f_equal; assumption.
Qed.
End TimeStatistic.

(** C8: the time statistic is the mean and the standard deviation of the
    two bounds [date_start] and [date_end] alone, whatever timestamps the
    series hold.  Hence, whenever the two bounds differ, the time feature of
    every record written at [date_start] is -1 and that of every record
    written at [date_end] is 1, the loop visiting them only when
    [date_start <= date_end].  This holds in binary64, the arithmetic of the
    script, for all dates within [2^50] seconds of the epoch (the squared
    deviation is rounded, and its square root is the deviation again), and
    in real arithmetic for all dates. *)
Theorem time_statistic_is_of_the_two_bounds :
  (forall (num : Type) (N : Num num) (date_start date_end : Z)
          (weather_data : dict Z (Weather num)) (traffic_volumes : dict Z (dict Link num))
          (utilities : Utilities num) (st : NormalizationStats num),
      statistics date_start date_end weather_data traffic_volumes utilities = Ok st ->
      time_mean st = np_mean [timestamp date_start; timestamp date_end]
      /\ time_std st = np_std [timestamp date_start; timestamp date_end])
  /\ (forall (Area : Type) (is_point_in_area : Coord float -> Area -> bool)
             (Pollutant : list string) (get_empirical_background_pollution : gmap string float)
             (date_start date_end : Z) (mesh : dict Z (SubDomain Area))
             (weather_data : dict Z (Weather float))
             (background_pollution : dict Z (gmap string float))
             (traffic_volumes : dict Z (dict Link float)) (utilities : Utilities float)
             (caline_estimates : dict Z (dict (Coord float) (gmap string float)))
             (receptor_list : list (Coord float)) (st : NormalizationStats float),
        statistics date_start date_end weather_data traffic_volumes utilities = Ok st ->
        date_start <> date_end ->
        - 2 ^ 50 < date_start -> date_end < 2 ^ 50 ->
        (date_start <= date_end ->
         normalize_time st (timestamp date_start) = (-1)%float
         /\ normalize_time st (timestamp date_end) = 1%float)
        /\ Forall (fun r => exists t,
                     t ∈ hours date_start date_end
                     /\ input r !! 0%nat = Some (normalize_time st (timestamp t))
                     /\ (t = date_start -> input r !! 0%nat = Some (-1)%float)
                     /\ (t = date_end -> input r !! 0%nat = Some 1%float))
                  (concat (pre_process is_point_in_area Pollutant
                                       get_empirical_background_pollution
                                       date_start date_end mesh weather_data
                                       background_pollution traffic_volumes utilities
                                       caline_estimates receptor_list).2))
  /\ (forall (Area : Type) (is_point_in_area : Coord R -> Area -> bool)
             (Pollutant : list string) (get_empirical_background_pollution : gmap string R)
             (date_start date_end : Z) (mesh : dict Z (SubDomain Area))
             (weather_data : dict Z (Weather R))
             (background_pollution : dict Z (gmap string R))
             (traffic_volumes : dict Z (dict Link R)) (utilities : Utilities R)
             (caline_estimates : dict Z (dict (Coord R) (gmap string R)))
             (receptor_list : list (Coord R)) (st : NormalizationStats R),
        statistics date_start date_end weather_data traffic_volumes utilities = Ok st ->
        date_start <> date_end ->
        (date_start <= date_end ->
         normalize_time st (timestamp date_start) = (-1)%R
         /\ normalize_time st (timestamp date_end) = 1%R)
        /\ Forall (fun r => exists t,
                     t ∈ hours date_start date_end
                     /\ input r !! 0%nat = Some (normalize_time st (timestamp t))
                     /\ (t = date_start -> input r !! 0%nat = Some (-1)%R)
                     /\ (t = date_end -> input r !! 0%nat = Some 1%R))
                  (concat (pre_process is_point_in_area Pollutant
                                       get_empirical_background_pollution
                                       date_start date_end mesh weather_data
                                       background_pollution traffic_volumes utilities
                                       caline_estimates receptor_list).2)).
Proof.
  split; [|split].
  - intros num N date_start date_end weather_data traffic_volumes utilities st.
    apply statistics_time_of_bounds.
  - intros Area is_point_in_area Pollutant get_empirical_background_pollution
           date_start date_end mesh weather_data background_pollution traffic_volumes
           utilities caline_estimates receptor_list st Hst Hdiffer Hlow Hhigh.
    assert (Hbounds : date_start < date_end ->
              normalize_time st (timestamp date_start) = (-1)%float
              /\ normalize_time st (timestamp date_end) = 1%float).
    { intros Hlt. destruct (statistics_time_of_bounds _ _ _ _ _ _ Hst) as [Hmean Hstd].
      unfold normalize_time. rewrite Hmean, Hstd.
      apply Binary64.normalize_pair; assumption. }
    split; [intros Hle; apply Hbounds; lia|].
    apply time_feature_at_the_bounds; assumption.
  - intros Area is_point_in_area Pollutant get_empirical_background_pollution
           date_start date_end mesh weather_data background_pollution traffic_volumes
           utilities caline_estimates receptor_list st Hst Hdiffer.
    assert (Hbounds : date_start < date_end ->
              normalize_time st (timestamp date_start) = (-1)%R
              /\ normalize_time st (timestamp date_end) = 1%R).
    { intros Hlt. destruct (statistics_time_of_bounds _ _ _ _ _ _ Hst) as [Hmean Hstd].
      unfold normalize_time. rewrite Hmean, Hstd.
      apply RealFacts.normalize_pair_increasing. apply IZR_lt. exact Hlt. }
    split; [intros Hle; apply Hbounds; lia|].
    apply time_feature_at_the_bounds; assumption.
Qed.

(** With a start after the end the loop body never runs, no record is
    written and [normalize_time] is never called; the statistic of the two
    bounds would send the start to 1 and the end to -1. *)
Example bounds_in_reverse_order :
  exists st : NormalizationStats float,
    statistics 3600 0 Scenario.weather_data Scenario.traffic_volumes Scenario.utilities = Ok st
    /\ normalize_time st (timestamp 3600) = 1%float
    /\ normalize_time st (timestamp 0) = (-1)%float
    /\ (pre_process Scenario.in_box Scenario.pollutants Scenario.empirical_background
                    3600 0 Scenario.mesh Scenario.weather_data Scenario.background_pollution
                    Scenario.traffic_volumes Scenario.utilities Scenario.caline_estimates
                    Scenario.receptor_list).2 = [].
Proof. eexists. repeat split; vm_compute; reflexivity. Qed.

(** ** [main] *)

Section RecordsOfTheMesh.
Context {num : Type} `{Num num} {Area : Type}.
Variable is_point_in_area : Coord num -> Area -> bool.
Variable Pollutant : list string.
Variable get_empirical_background_pollution : gmap string num.
Variable date_start date_end : Z.
Variable mesh : dict Z (SubDomain Area).
Variable weather_data : dict Z (Weather num).
Variable background_pollution : dict Z (gmap string num).
Variable traffic_volumes : dict Z (dict Link num).
Variable utilities : Utilities num.
Variable caline_estimates : dict Z (dict (Coord num) (gmap string num)).
Variable receptor_list : list (Coord num).

(** Every record written by [pre_process] names a sub-domain of the mesh
    and carries the size of the mesh. *)
Lemma pre_process_records_of_the_mesh :
  Forall (fun r => sub_domain r ∈ map fst mesh /\ mesh_size r = length mesh)
         (concat (pre_process is_point_in_area Pollutant get_empirical_background_pollution
                              date_start date_end mesh weather_data background_pollution
                              traffic_volumes utilities caline_estimates receptor_list).2).
Proof.
  set (P := fun r : ProcessedRecord num =>
              sub_domain r ∈ map fst mesh /\ mesh_size r = length mesh).
  destruct (pre_process_batches is_point_in_area Pollutant get_empirical_background_pollution
              date_start date_end mesh weather_data background_pollution traffic_volumes
              utilities caline_estimates receptor_list)
    as [-> | (st & s & _ & Hinv & Hrun)]; [constructor|].
  assert (Hall : Forall P (persisted s)).
  { apply (Hinv (fun s0 => Forall P (persisted s0))).
    - intros s0 background Hs0. exact Hs0.
    - intros st' t w volumes estimates background [id sd] r s0 Hitem Hr Hs0.
      rewrite append_entry_persisted. apply Forall_app. split; [exact Hs0|].
      constructor; [|constructor].
      eapply assemble_fields in Hr as (Hid & Hsize & _). simpl in Hid.
      split; [|exact Hsize]. rewrite Hid.
      apply list_elem_of_In, in_map_iff. exists (id, sd).
      split; [reflexivity | apply list_elem_of_In; exact Hitem].
    - constructor. }
  unfold persisted in Hall. apply Forall_app in Hall as [Hflushed Hbuffer].
  destruct Hrun as [-> | ->]; simpl; [exact Hflushed|].
  rewrite concat_app. apply Forall_app. split; [exact Hflushed|].
  case_match; simpl; [constructor|]. rewrite app_nil_r. exact Hbuffer.
Qed.
End RecordsOfTheMesh.

Section MainProperties.
Context {num : Type} `{Num num} {Area : Type}.
Variable is_point_in_area : Coord num -> Area -> bool.
Variable Pollutant : list string.
Variable get_empirical_background_pollution : gmap string num.
Variable get_weather_data : Z -> Z -> dict Z (Weather num).
Variable get_background_pollution : Z -> Z -> dict Z (gmap string num).
Variable get_utilities_from_collection :
  string -> option (Utilities num * dict Z (SubDomain Area)).
Variable get_traffic_volumes : Z -> Z -> list Link -> dict Z (dict Link num).
Variable get_caline_estimates :
  Z -> Z -> string -> dict Z (dict (Coord num) (gmap string num)) * list (Coord num).
Variable area_of_bounding_box : dict string (Coord num) -> Area.
Variable param : Parameters.

Local Abbreviation run_of :=
  (process_run is_point_in_area Pollutant get_empirical_background_pollution
               get_weather_data get_background_pollution get_utilities_from_collection
               get_traffic_volumes get_caline_estimates area_of_bounding_box param).
Local Abbreviation runs_of :=
  (main_runs is_point_in_area Pollutant get_empirical_background_pollution
             get_weather_data get_background_pollution get_utilities_from_collection
             get_traffic_volumes get_caline_estimates area_of_bounding_box param).

(** The loop over the runs, on a list of tags in two parts. *)
Lemma main_runs_app (before after : list string) :
  runs_of (before ++ after)
  = match runs_of before with
    | (Ok _, batches) => let (r, batches') := runs_of after in (r, batches ++ batches')
    | (Raise e, batches) => (Raise e, batches)
    end.
Proof.
  induction before as [|tag before IH]; simpl.
  - destruct (runs_of after). reflexivity.
  - destruct (run_of tag) as [[[[]|e] batches]|]; [| reflexivity | exact IH].
    rewrite IH. destruct (runs_of before) as [[[]|e] batches1]; [|reflexivity].
    destruct (runs_of after) as [r batches2]. rewrite app_assoc. reflexivity.
Qed.

Lemma select_sub_domains_empty (domain_dict : dict Z (SubDomain Area)) :
  select_sub_domains param domain_dict = []
  <-> forall item, item ∈ domain_dict -> item.1 ∉ param_sub_domain_selection param.
Proof.
  unfold select_sub_domains. induction domain_dict as [|item domain_dict IH]; simpl.
  - split; [intros _ item Hitem; inversion Hitem | reflexivity].
  - destruct (bool_decide (item.1 ∈ param_sub_domain_selection param)) eqn:Hsel.
    + apply bool_decide_eq_true in Hsel. split; [discriminate|].
      intros Hnone. exfalso. apply (Hnone item); [left | exact Hsel].
    + apply bool_decide_eq_false in Hsel. rewrite IH. split.
      * intros Hnone item' Hitem'. apply elem_of_cons in Hitem' as [-> | Hitem'];
          [exact Hsel | apply Hnone, Hitem'].
      * intros Hnone item' Hitem'. apply Hnone. right. exact Hitem'.
Qed.

(** X18: a run is skipped exactly when it has no utility data or when none
    of its sub-domains is in the selection; a skipped run changes nothing:
    [main] ends, and writes, as without its tag. *)
Theorem skipped_run_changes_nothing (run_tag : string) :
  (run_of run_tag = None
   <-> get_utilities_from_collection run_tag = None
       \/ exists utilities domain_dict,
            get_utilities_from_collection run_tag = Some (utilities, domain_dict)
            /\ forall item, item ∈ domain_dict ->
                            item.1 ∉ param_sub_domain_selection param)
  /\ (run_of run_tag = None ->
      forall before after,
        runs_of (before ++ run_tag :: after) = runs_of (before ++ after)).
Proof.
  split.
  - unfold process_run.
    destruct (get_utilities_from_collection run_tag) as [[utilities domain_dict]|].
    + destruct (decide (select_sub_domains param domain_dict = [])) as [Hempty|Hsome].
      * split; [|reflexivity]. intros _. right. exists utilities, domain_dict.
        split; [reflexivity | apply select_sub_domains_empty, Hempty].
      * destruct (get_caline_estimates _ _ run_tag). split; [discriminate|].
        intros [Hnone | (utilities' & domain_dict' & [= <- <-] & Hnone)]; [discriminate|].
        exfalso. apply Hsome, select_sub_domains_empty, Hnone.
    + split; [auto | reflexivity].
  - intros Hskip before after. rewrite !main_runs_app. simpl. rewrite Hskip. reflexivity.
Qed.

(** X19: an exception of [pre_process] in one run ends [main]: the runs
    after it are not processed, whatever they are, and [main] ends with an
    exception. *)
Theorem exception_ends_main (run_tag : string) (e : exn)
    (batches : list (list (ProcessedRecord num))) :
  run_of run_tag = Some (Raise e, batches) ->
  forall before after,
    runs_of (before ++ run_tag :: after) = runs_of (before ++ [run_tag])
    /\ exists e', (runs_of (before ++ run_tag :: after)).1 = Raise e'.
Proof.
  intros Hraise before after. rewrite !main_runs_app. simpl. rewrite Hraise.
  destruct (runs_of before) as [[[]|e1] batches1]; simpl.
  - split; [reflexivity|]. exists e. reflexivity.
  - split; [reflexivity|]. exists e1. reflexivity.
Qed.

(** X20: every record written by [main] belongs to a selected sub-domain
    when the mesh size is not 1, and to the one tile 1, with [mesh_size] 1,
    when the mesh size is 1. *)
Theorem main_writes_selected_sub_domains (run_tags : list string) :
  Forall (fun r => if param_mesh_size param =? 1
                   then sub_domain r = 1 /\ mesh_size r = 1%nat
                   else sub_domain r ∈ param_sub_domain_selection param)
         (concat (runs_of run_tags).2).
Proof.
  induction run_tags as [|run_tag run_tags IH]; simpl; [constructor|].
  destruct (run_of run_tag) as [[res batches]|] eqn:Hrun; [|exact IH].
  assert (Hbatches : Forall (fun r => if param_mesh_size param =? 1
                                      then sub_domain r = 1 /\ mesh_size r = 1%nat
                                      else sub_domain r ∈ param_sub_domain_selection param)
                            (concat batches)).
  { unfold process_run in Hrun.
    destruct (get_utilities_from_collection run_tag) as [[utilities domain_dict]|];
      [|discriminate].
    destruct (decide (select_sub_domains param domain_dict = [])); [discriminate|].
    destruct (get_caline_estimates _ _ run_tag) as [caline_estimates receptor_list].
    injection Hrun as Hrun. apply (f_equal snd) in Hrun. simpl in Hrun. subst batches.
    eapply Forall_impl; [apply pre_process_records_of_the_mesh|].
    intros r [Hid Hsize]. unfold mesh_of in *.
    destruct (param_mesh_size param =? 1).
    - simpl in Hid, Hsize. apply list_elem_of_singleton in Hid. auto.
    - apply list_elem_of_In, in_map_iff in Hid as (item & <- & Hitem).
      unfold select_sub_domains in Hitem. apply filter_In in Hitem as [_ Hsel].
      apply bool_decide_eq_true in Hsel. exact Hsel. }
  destruct res as [[]|e]; simpl; [|exact Hbatches].
  destruct (runs_of run_tags) as [r batches']. simpl in *.
  rewrite concat_app. apply Forall_app. split; assumption.
Qed.
End MainProperties.

(** ** The further properties on concrete inputs *)

Lemma ends_normally_witness : Scenario.two_hours.1 = Ok tt.
Proof.
  apply (pre_process_ends_normally
           Scenario.in_box Scenario.pollutants Scenario.empirical_background 0 3600
           Scenario.mesh Scenario.weather_data Scenario.background_pollution
           Scenario.traffic_volumes Scenario.utilities Scenario.caline_estimates
           Scenario.receptor_list).
  - intros item link Hitem Hlink.
    apply elem_of_cons in Hitem as [-> | Hitem].
    + simpl in Hlink. elem_of_cases Hlink.
    + apply elem_of_cons in Hitem as [-> | Hitem]; [inversion Hlink | inversion Hitem].
  - discriminate.
  - discriminate.
  - intros poll Hpoll. elem_of_cases Hpoll.
Defined.

Lemma unmentioned_pollutant_witness :
  current_background_pollution
    (while_loop Scenario.in_box Scenario.pollutants 3600 Scenario.mesh Scenario.weather_data
                Scenario.background_pollution Scenario.traffic_volumes Scenario.utilities
                Scenario.caline_estimates Scenario.receptor_list Scenario.unit_stats
                2 0 Scenario.start_state).2 !! "PM25"%string
  = Some 0.5%float.
Proof.
  rewrite (unmentioned_pollutant_keeps_its_value
             Scenario.in_box Scenario.pollutants 3600 Scenario.mesh Scenario.weather_data
             Scenario.background_pollution Scenario.traffic_volumes Scenario.utilities
             Scenario.caline_estimates Scenario.receptor_list Scenario.unit_stats
             "PM25" 2 0 Scenario.start_state).
  - vm_compute. reflexivity.
  - intros t update Hupdate. unfold Scenario.background_pollution in Hupdate. simpl in Hupdate.
    destruct (key_eqb 3600 t); [|discriminate].
    injection Hupdate as <-. vm_compute. reflexivity.
Defined.


Lemma many_links_witness :
  exists ls,
    links_and_coords EdgeScenario.many_links_utilities EdgeScenario.many_links_sub_domain
    = Ok ls
    /\ length (current_traffic_volume Scenario.unit_stats [] ls) = 105%nat
    /\ current_traffic_volume Scenario.unit_stats [] ls
       = flat_map (link_features Scenario.unit_stats []) ls.
Proof.
  eexists.
  assert (Hls : links_and_coords EdgeScenario.many_links_utilities
                                 EdgeScenario.many_links_sub_domain = Ok _)
    by (vm_compute; reflexivity).
  destruct (more_than_twenty_links_are_kept
              EdgeScenario.many_links_utilities Scenario.unit_stats
              EdgeScenario.many_links_sub_domain [] _ Hls) as [Hblock Hlength].
  - vm_compute. lia.
  - split; [exact Hls|]. split; [exact Hlength | exact Hblock].
Defined.

Lemma alignment_witness :
  exists r,
    assemble Scenario.in_box Scenario.pollutants Scenario.mesh Scenario.utilities
             Scenario.receptor_list Scenario.unit_stats 3600 (mkWeather 12 3 0.25 16)%float []
             [((1, 1)%float, {[ "NO2"%string := 0.5%float; "PM10"%string := 1.75%float ]})]
             (<[ "NO2"%string := 3%float ]> Scenario.empirical_background)
             6 (mkSubDomain ((0, 0), (2, 2))%float [(2, 1)]) = Ok r
    /\ input r !! 107%nat = Some 1%float
    /\ input r !! 108%nat = Some 1%float
    /\ labels r !! 4%nat = Some 0.75%float.
Proof.
  eexists.
  assert (Hr : assemble Scenario.in_box Scenario.pollutants Scenario.mesh Scenario.utilities
             Scenario.receptor_list Scenario.unit_stats 3600 (mkWeather 12 3 0.25 16)%float []
             [((1, 1)%float, {[ "NO2"%string := 0.5%float; "PM10"%string := 1.75%float ]})]
             (<[ "NO2"%string := 3%float ]> Scenario.empirical_background)
             6 (mkSubDomain ((0, 0), (2, 2))%float [(2, 1)]) = Ok _)
    by (vm_compute; reflexivity).
  destruct (inputs_and_labels_are_aligned _ _ _ _ _ _ _ _ _ _ _ _ _ _ Hr) as (_ & _ & Hrows).
  - simpl. lia.
  - destruct (Hrows 1%nat (1, 1)%float) as (Hlat & Hlon & Hlabel); [vm_compute; reflexivity|].
    destruct (Hlabel 1%nat "PM10"%string eq_refl) as (v & Hv & Hstored).
    split; [exact Hr|]. split; [|split].
    + etransitivity; [exact Hlat | vm_compute; reflexivity].
    + etransitivity; [exact Hlon | vm_compute; reflexivity].
    + vm_compute in Hv. injection Hv as <-.
      etransitivity; [exact Hstored | vm_compute; reflexivity].
Defined.

Lemma missing_estimate_witness :
  label [((1, 1)%float, {[ "NO2"%string := 5%float ]})] ∅ (1, 1)%float "PM10" = Ok 0%float
  /\ label [((1, 1)%float, {[ "NO2"%string := 5%float ]})] ∅ (3, 3)%float "NO2" = Ok 0%float
  /\ label [((1, 1)%float, {[ "NO2"%string := 5%float ]})] ∅ (1, 1)%float "NO2"
     = Raise KeyError.
Proof.
  split; [|split].
  - apply missing_estimate_gives_label_zero. right. eexists. split; reflexivity.
  - apply missing_estimate_gives_label_zero. left. vm_compute. reflexivity.
  - eapply (proj2 (missing_estimate_gives_label_zero _ _ _ _)); reflexivity.
Defined.

Lemma empty_range_witness :
  pre_process Scenario.in_box Scenario.pollutants Scenario.empirical_background 3600 0
              Scenario.mesh Scenario.weather_data Scenario.background_pollution
              Scenario.traffic_volumes Scenario.utilities Scenario.caline_estimates
              Scenario.receptor_list
  = (Ok tt, []).
Proof. apply empty_range_writes_nothing; [lia | discriminate | discriminate]. Defined.

Lemma one_record_witness :
  (exists rs,
      persisted (iteration Scenario.in_box Scenario.pollutants Scenario.mesh
                           Scenario.weather_data Scenario.background_pollution
                           Scenario.traffic_volumes Scenario.utilities
                           Scenario.caline_estimates Scenario.receptor_list
                           Scenario.unit_stats 0 Scenario.start_state).2
      = rs
      /\ map sub_domain rs = [6; 7]
      /\ Forall (fun r => mesh_size r = 2%nat) rs)
  /\ (exists rs,
        (iteration Scenario.in_box Scenario.pollutants EdgeScenario.raising_mesh
                   Scenario.weather_data Scenario.background_pollution
                   Scenario.traffic_volumes EdgeScenario.reversed_utilities
                   Scenario.caline_estimates Scenario.receptor_list
                   Scenario.unit_stats 0 Scenario.start_state).1
        = Raise KeyError
        /\ persisted (iteration Scenario.in_box Scenario.pollutants EdgeScenario.raising_mesh
                                Scenario.weather_data Scenario.background_pollution
                                Scenario.traffic_volumes EdgeScenario.reversed_utilities
                                Scenario.caline_estimates Scenario.receptor_list
                                Scenario.unit_stats 0 Scenario.start_state).2
           = rs
        /\ map sub_domain rs = [7]
        /\ EdgeScenario.raising_mesh !! length rs
           = Some (6, mkSubDomain ((0, 0), (2, 2))%float [(2, 1)])).
Proof.
  split.
  - destruct (one_record_for_each_sub_domain
                Scenario.in_box Scenario.pollutants Scenario.mesh Scenario.weather_data
                Scenario.background_pollution Scenario.traffic_volumes Scenario.utilities
                Scenario.caline_estimates Scenario.receptor_list Scenario.unit_stats
                0 _ _ _ Scenario.start_state eq_refl eq_refl eq_refl)
      as (rs & Hwritten & _ & _ & Hsize & Hids & _).
    exists rs. split; [rewrite Hwritten; reflexivity|]. split; [|exact Hsize].
    apply Hids. vm_compute. reflexivity.
  - assert (Hraises : (iteration Scenario.in_box Scenario.pollutants EdgeScenario.raising_mesh
                         Scenario.weather_data Scenario.background_pollution
                         Scenario.traffic_volumes EdgeScenario.reversed_utilities
                         Scenario.caline_estimates Scenario.receptor_list
                         Scenario.unit_stats 0 Scenario.start_state).1 = Raise KeyError)
      by (vm_compute; reflexivity).
    destruct (one_record_for_each_sub_domain
                Scenario.in_box Scenario.pollutants EdgeScenario.raising_mesh
                Scenario.weather_data Scenario.background_pollution Scenario.traffic_volumes
                EdgeScenario.reversed_utilities Scenario.caline_estimates
                Scenario.receptor_list Scenario.unit_stats
                0 _ _ _ Scenario.start_state eq_refl eq_refl eq_refl)
      as (rs & Hwritten & _ & Hids & _ & _ & Hraise).
    destruct (Hraise KeyError Hraises) as (item & Hitem & Hassemble).
    exists rs. split; [exact Hraises|]. split; [rewrite Hwritten; reflexivity|].
    destruct (length rs) as [|[|n]] eqn:Hlength.
    + injection Hitem as <-. vm_compute in Hassemble. discriminate.
    + split; [rewrite Hids; reflexivity | reflexivity].
    + discriminate.
Defined.

Lemma first_input_witness :
  exists st,
    statistics 0 3600 Scenario.weather_data Scenario.traffic_volumes Scenario.utilities
    = Ok st
    /\ Forall (fun r => exists t, t ∈ [0; 3600]
                                  /\ input r !! 0%nat
                                     = Some (normalize_time st (timestamp t)))
              (concat Scenario.two_hours.2).
Proof.
  eexists. split; [reflexivity|].
  apply (first_input_is_the_time_of_an_hour
           Scenario.in_box Scenario.pollutants Scenario.empirical_background 0 3600
           Scenario.mesh Scenario.weather_data Scenario.background_pollution
           Scenario.traffic_volumes Scenario.utilities Scenario.caline_estimates
           Scenario.receptor_list _ eq_refl).
Defined.

Lemma exception_witness :
  EdgeScenario.crowded.1 = Raise KeyError
  /\ map (fun batch => Z.of_nat (length batch)) EdgeScenario.crowded.2 = [100000]
  /\ exists rest,
       concat EdgeScenario.crowded.2 ++ rest
       = (assembled_records Scenario.in_box Scenario.pollutants Scenario.empirical_background
                            0 0 EdgeScenario.crowded_mesh Scenario.weather_data
                            Scenario.background_pollution Scenario.traffic_volumes
                            EdgeScenario.reversed_utilities Scenario.caline_estimates
                            Scenario.receptor_list).1
       /\ length rest = 1%nat.
Proof.
  unfold EdgeScenario.crowded.
  destruct (statistics_raises 0 0 Scenario.weather_data Scenario.traffic_volumes
                              EdgeScenario.reversed_utilities)
    as [[st Hst] | [_ [Hempty|Hempty]]]; [|discriminate..].
  pose proof (one_hour_trace
                Scenario.in_box Scenario.pollutants Scenario.empirical_background 0 0
                EdgeScenario.crowded_mesh Scenario.weather_data
                Scenario.background_pollution Scenario.traffic_volumes
                EdgeScenario.reversed_utilities Scenario.caline_estimates
                Scenario.receptor_list st _ _ _ eq_refl Hst eq_refl eq_refl eq_refl)
    as Htrace.
  change (dict_get Scenario.background_pollution 0) with (@None (gmap string float))
    in Htrace.
  cbv beta iota in Htrace.
  destruct (assembled_for_mesh_app
              Scenario.in_box Scenario.pollutants EdgeScenario.crowded_mesh
              EdgeScenario.reversed_utilities Scenario.receptor_list st 0
              (mkWeather 10 2 0.5 15)%float [((1, 2), 100%float)]
              [((1, 1)%float, {[ "NO2"%string := 5%float ]})]
              Scenario.empirical_background
              EdgeScenario.crowd [] EdgeScenario.reversed_sub_domain KeyError)
    as [Hlength Hraise].
  { apply list.Forall_forall. intros item Hitem. unfold EdgeScenario.crowd in Hitem.
    apply list_elem_of_fmap in Hitem as (i & -> & _).
    destruct (assemble_ok Scenario.in_box Scenario.pollutants EdgeScenario.crowded_mesh
                EdgeScenario.reversed_utilities Scenario.receptor_list st 0
                (mkWeather 10 2 0.5 15)%float [((1, 2), 100%float)]
                [((1, 1)%float, {[ "NO2"%string := 5%float ]})]
                Scenario.empirical_background (Z.of_nat i + 100)
                (mkSubDomain ((5, 5), (6, 6))%float [])) as (r & Hr & _).
    - intros link Hlink. inversion Hlink.
    - intros poll Hpoll. elem_of_cases Hpoll.
    - exists r. exact Hr. }
  { unfold assemble, EdgeScenario.reversed_sub_domain. cbn [fst snd].
    destruct (links_and_coords _ _) as [ls|e] eqn:Hlinks; vm_compute in Hlinks;
      [discriminate|].
    injection Hlinks as <-. reflexivity. }
  change (EdgeScenario.crowd ++ [EdgeScenario.reversed_sub_domain])
    with EdgeScenario.crowded_mesh in Hlength, Hraise.
  rewrite <- Htrace in Hlength, Hraise.
  unfold EdgeScenario.crowd in Hlength. rewrite length_map, length_seq in Hlength.
  destruct (pre_process_refines
              Scenario.in_box Scenario.pollutants Scenario.empirical_background 0 0
              EdgeScenario.crowded_mesh Scenario.weather_data Scenario.background_pollution
              Scenario.traffic_volumes EdgeScenario.reversed_utilities
              Scenario.caline_estimates Scenario.receptor_list) as (Hend & _ & _).
  rewrite Hraise in Hend.
  destruct (exception_loses_less_than_a_batch
              Scenario.in_box Scenario.pollutants Scenario.empirical_background 0 0
              EdgeScenario.crowded_mesh Scenario.weather_data Scenario.background_pollution
              Scenario.traffic_volumes EdgeScenario.reversed_utilities
              Scenario.caline_estimates Scenario.receptor_list KeyError Hend)
    as (Hfull & rest & Hcat & Hrest).
  revert Hend Hfull Hcat.
  destruct (pre_process _ _ _ _ _ _ _ _ _ _ _ _) as [res batches].
  cbn [fst snd]. intros Hend Hfull Hcat.
  assert (Hsizes : length (concat batches) = (length batches * Z.to_nat 100000)%nat).
  { apply concat_constant_length. eapply Forall_impl; [exact Hfull|].
    intros batch Hbatch. cbv beta in Hbatch. unfold max_collection_size in Hbatch. lia. }
  pose proof (f_equal length Hcat) as Hcount.
  rewrite length_app, Hsizes, Hlength in Hcount.
  unfold max_collection_size in Hrest.
  assert (Hone : length batches = 1%nat) by nia.
  split; [exact Hend|]. split.
  - destruct batches as [|batch [|batch' batches]]; try discriminate Hone.
    apply Forall_cons in Hfull as [Hbatch _]. cbn [map]. rewrite Hbatch. reflexivity.
  - exists rest. split; [exact Hcat | nia].
Defined.

Lemma time_statistic_witness :
  (exists st : NormalizationStats float,
      statistics (param_date_start get_parameters) (param_date_end get_parameters)
                 Scenario.weather_data Scenario.traffic_volumes Scenario.utilities = Ok st
      /\ normalize_time st (timestamp 1498867200) = (-1)%float
      /\ normalize_time st (timestamp 1525302000) = 1%float)
  /\ (length (concat Scenario.two_hours.2) = 4%nat
      /\ Forall (fun r => exists t,
                   t ∈ [0; 3600]
                   /\ (t = 0 -> input r !! 0%nat = Some (-1)%float)
                   /\ (t = 3600 -> input r !! 0%nat = Some 1%float))
                (concat Scenario.two_hours.2))
  /\ (exists st : NormalizationStats R,
        statistics 0 3600 RealScenario.weather_data [] RealScenario.utilities = Ok st
        /\ normalize_time st (timestamp 0) = (-1)%R
        /\ normalize_time st (timestamp 3600) = 1%R).
Proof.
  destruct time_statistic_is_of_the_two_bounds as (_ & Hfloat & Hreal).
  split; [|split].
  - eexists. split; [reflexivity|].
    refine (proj1 (Hfloat _ Scenario.in_box Scenario.pollutants Scenario.empirical_background
                          1498867200 1525302000 Scenario.mesh Scenario.weather_data
                          Scenario.background_pollution Scenario.traffic_volumes
                          Scenario.utilities Scenario.caline_estimates
                          Scenario.receptor_list _ eq_refl _ _ _) _);
      [discriminate | reflexivity | reflexivity | discriminate].
  - split; [vm_compute; reflexivity|].
    destruct (Hfloat _ Scenario.in_box Scenario.pollutants Scenario.empirical_background
                     0 3600 Scenario.mesh Scenario.weather_data
                     Scenario.background_pollution Scenario.traffic_volumes
                     Scenario.utilities Scenario.caline_estimates
                     Scenario.receptor_list _ eq_refl)
      as [_ Hrecords]; [discriminate | reflexivity | reflexivity |].
    eapply Forall_impl; [exact Hrecords|].
    intros r (t & Ht & _ & Hlow & Hhigh). exists t. split; [exact Ht|].
    split; assumption.
  - eexists. split; [reflexivity|].
    refine (proj1 (Hreal _ (fun (_ : Coord R) (_ : unit) => true) ["NO2"%string] ∅ 0 3600
                         [(6, mkSubDomain tt [])] RealScenario.weather_data []
                         [(0, [])] RealScenario.utilities [(0, [])] [] _ eq_refl _) _);
      [discriminate | discriminate].
Defined.

Lemma time_feature_witness :
  Forall (fun r => exists x : R, input r !! 0%nat = Some x /\ (-1 <= x <= 1)%R)
         (concat (pre_process (fun (_ : Coord R) (_ : unit) => true) ["NO2"%string] ∅ 0 3600
                              [(6, mkSubDomain tt [])] RealScenario.weather_data []
                              [(0, [])] RealScenario.utilities [(0, [])] []).2).
Proof. apply time_feature_is_between_minus_one_and_one. lia. Defined.

Lemma skipped_run_witness :
  EdgeScenario.main_of ([] ++ "a"%string :: ["b"%string])
  = EdgeScenario.main_of ([] ++ ["b"%string]).
Proof.
  assert (Hskip : process_run Scenario.in_box Scenario.pollutants
                    Scenario.empirical_background (fun _ _ => Scenario.weather_data)
                    (fun _ _ => Scenario.background_pollution)
                    EdgeScenario.get_utilities (fun _ _ _ => Scenario.traffic_volumes)
                    (fun _ _ _ => (Scenario.caline_estimates, Scenario.receptor_list))
                    EdgeScenario.box_area EdgeScenario.param "a" = None)
    by (vm_compute; reflexivity).
  unfold EdgeScenario.main_of.
  apply (proj2 (skipped_run_changes_nothing
                  Scenario.in_box Scenario.pollutants Scenario.empirical_background
                  (fun _ _ => Scenario.weather_data)
                  (fun _ _ => Scenario.background_pollution)
                  EdgeScenario.get_utilities (fun _ _ _ => Scenario.traffic_volumes)
                  (fun _ _ _ => (Scenario.caline_estimates, Scenario.receptor_list))
                  EdgeScenario.box_area EdgeScenario.param "a") Hskip).
Defined.

Lemma exception_ends_main_witness :
  EdgeScenario.main_of ["a"; "b"; "c"; "b"]%string
  = EdgeScenario.main_of ["a"; "b"; "c"]%string
  /\ exists e, (EdgeScenario.main_of ["a"; "b"; "c"; "b"]%string).1 = Raise e.
Proof.
  apply (exception_ends_main
           Scenario.in_box Scenario.pollutants Scenario.empirical_background
           (fun _ _ => Scenario.weather_data)
           (fun _ _ => Scenario.background_pollution)
           EdgeScenario.get_utilities (fun _ _ _ => Scenario.traffic_volumes)
           (fun _ _ _ => (Scenario.caline_estimates, Scenario.receptor_list))
           EdgeScenario.box_area EdgeScenario.param "c" KeyError []
           ltac:(vm_compute; reflexivity) ["a"; "b"]%string ["b"%string]).
Defined.

(** The run tags of [get_parameters]. *)
Example runs_of_get_parameters :
  param_runs get_parameters
  = ["2019-05-21 10 5"; "2019-05-21 10 6"; "2019-05-21 10 7"; "2019-05-21 10 8";
     "2019-05-21 10 9"; "2019-05-21 10 10"; "2019-05-21 10 11"; "2019-05-21 10 13";
     "2019-05-21 10 17"; "2019-05-21 10 27"; "2019-05-21 10 53"; "2019-05-21 10 103"]%string.
Proof. vm_compute. reflexivity. Qed.
